(** * LEMMA training scripts: label vocabulary, dataset encoding, trainer,
      evaluator, model selection and export

    A shallow embedding of the training pipeline of
    [scripts/production_train.py], [scripts/train_colab_1m.py] and
    [scripts/train_colab_fixed.py].

    - Python exceptions are the [Raise] branch of [Py.result].
    - Floats are modelled by [Fl.fval]: exact rationals for the finite values
      plus the IEEE special values [PInf], [NInf], [NaN]; rounding is not
      modelled.
    - The network, the optimizer, the scheduler and the gradient scaler are
      opaque: the trainer is modelled by the ordered log of the calls it makes
      on them, each tagged with the loop iteration that issued it.
    - Python dicts are [gmap]s, tensors of floats are lists. *)

From Stdlib Require Import QArith Qround Reals Lra Lia.
From Stdlib Require Lqa.
From stdpp Require Import base list strings gmap.

Set Warnings "-register-all".

Local Open Scope string_scope.
Local Open Scope list_scope.
Local Open Scope nat_scope.

(** ** Python results *)

Module Py.

Inductive exn : Type :=
| ZeroDivisionError
| IndexError
| ValueError
| AxisError
| RuntimeError.

Inductive result (A : Type) : Type :=
| Ok (a : A)
| Raise (e : exn).

Arguments Ok {A} a.
Arguments Raise {A} e.

Definition bind {A B : Type} (r : result A) (k : A → result B) : result B :=
  match r with
  | Ok a => k a
  | Raise e => Raise e
  end.

(** A [for] loop whose body may raise: the first exception leaves the loop. *)
Fixpoint for_each {S A : Type} (body : S → A → result S) (s : S) (xs : list A)
  : result S :=
  match xs with
  | [] => Ok s
  | x :: xs' => bind (body s x) (λ s', for_each body s' xs')
  end.

(** [enumerate(xs)] *)
Definition enumerate {A : Type} (xs : list A) : list (nat * A) :=
  imap pair xs.

(** [{v: i for i, v in enumerate(xs)}]: later entries overwrite earlier ones. *)
Definition index_dict (xs : list string) : gmap string nat :=
  foldl (λ m iv, <[iv.2 := iv.1]> m) ∅ (enumerate xs).

End Py.

#[global] Instance result_ret : MRet Py.result := @Py.Ok.
#[global] Instance result_bind : MBind Py.result := λ A B k r, Py.bind r k.

(** ** Floating-point values *)

Module Fl.

Inductive fval : Type :=
| Fin (q : Q)
| PInf
| NInf
| NaN.

Definition is_finite (x : fval) : bool :=
  match x with Fin _ => true | _ => false end.

Definition Qltb (a b : Q) : bool := negb (Qle_bool b a).

Definition of_nat (k : nat) : Q := inject_Z (Z.of_nat k).

(** Tensor division by a Python int, [loss / k]: dividing by zero gives an
    infinity or a NaN, never an exception. *)
Definition div_nat (x : fval) (k : nat) : fval :=
  match x with
  | Fin q =>
      if Nat.eqb k 0
      then (if Qltb 0 q then PInf else if Qltb q 0 then NInf else NaN)
      else Fin (q / of_nat k)
  | PInf => PInf
  | NInf => NInf
  | NaN => NaN
  end.

(** [x * k] for a float and a Python int. *)
Definition mul_nat (x : fval) (k : nat) : fval :=
  match x with
  | Fin q => Fin (q * of_nat k)
  | PInf => if Nat.eqb k 0 then NaN else PInf
  | NInf => if Nat.eqb k 0 then NaN else NInf
  | NaN => NaN
  end.

Definition add (x y : fval) : fval :=
  match x, y with
  | NaN, _ | _, NaN => NaN
  | Fin a, Fin b => Fin (a + b)
  | PInf, NInf | NInf, PInf => NaN
  | PInf, _ | _, PInf => PInf
  | NInf, _ | _, NInf => NInf
  end.

(** Python float division [x / k]: a zero divisor raises. *)
Definition pydiv_nat (x : fval) (k : nat) : Py.result fval :=
  if Nat.eqb k 0 then Py.Raise Py.ZeroDivisionError else Py.Ok (div_nat x k).

Definition sum (xs : list fval) : fval := foldl add (Fin 0) xs.

Definition Qsum (qs : list Q) : Q := foldr Qplus 0%Q qs.

(** [x < y] on floats: every comparison with NaN is false. *)
Definition ltb (x y : fval) : bool :=
  match x, y with
  | NaN, _ | _, NaN => false
  | Fin a, Fin b => Qltb a b
  | Fin _, PInf => true
  | Fin _, NInf => false
  | PInf, _ => false
  | NInf, NInf => false
  | NInf, _ => true
  end.

End Fl.

(** ** The opaque torch objects: the calls a trainer makes on them *)

Module Torch.

Inductive call : Type :=
| ModelTrain                      (* model.train() *)
| ZeroGrad                        (* optimizer.zero_grad() *)
| Forward (loss : Fl.fval)        (* forward pass and loss of one micro-batch *)
| Backward (loss : Fl.fval)       (* loss.backward() *)
| ScaledBackward (loss : Fl.fval) (* scaler.scale(loss).backward() *)
| ScalerUnscale                   (* scaler.unscale_(optimizer) *)
| ClipGradNorm                    (* clip_grad_norm_(model.parameters(), 1.0) *)
| OptimizerStep                   (* optimizer.step() *)
| ScalerStep                      (* scaler.step(optimizer) *)
| ScalerUpdate                    (* scaler.update() *)
| SchedulerStep.                  (* scheduler.step() *)

(** A call together with the loop index [i] of the micro-batch during which
    it was issued ([None] before the loop). *)
Abbreviation event := (option nat * call)%type.

Definition is_optimizer_step (c : call) : bool :=
  match c with OptimizerStep | ScalerStep => true | _ => false end.

Definition tagged (i : nat) (e : event) : bool :=
  match e.1 with Some j => Nat.eqb i j | None => false end.

(** The calls issued while the loop was at micro-batch [i], in order. *)
Definition calls_of_iteration (i : nat) (log : list event) : list call :=
  (List.filter (tagged i) log).*2.

(** The gradient buffers as torch keeps them: every backward pass adds its
    gradient, [zero_grad] clears them.  The buffer is represented by the
    backward passes it currently holds. *)
Definition grad_step (buf : list (option nat * Fl.fval)) (e : event)
  : list (option nat * Fl.fval) :=
  match e.2 with
  | Backward l | ScaledBackward l => buf ++ [(e.1, l)]
  | ZeroGrad => []
  | _ => buf
  end.

Definition grad_buffer (log : list event) : list (option nat * Fl.fval) :=
  foldl grad_step [] log.

(** The gradients each step call is made with: the buffer at the time of
    [optimizer.step()] or of [scaler.step(optimizer)].  [optimizer.step()]
    applies them as they are; what the gradient scaler does with them is
    [scaler_update_step] below. *)
Definition update_step (st : list (option nat * Fl.fval) * list (list (option nat * Fl.fval)))
    (e : event) : list (option nat * Fl.fval) * list (list (option nat * Fl.fval)) :=
  (grad_step st.1 e,
   if is_optimizer_step e.2 then st.2 ++ [st.1] else st.2).

Definition applied_updates (log : list event) : list (list (option nat * Fl.fval)) :=
  (foldl update_step ([], []) log).2.

(** [torch.sigmoid] *)
Definition sigmoid (x : R) : R := (1 / (1 + exp (- x)))%R.

(** [p > 0.5] on a probability. *)
Definition gt_half (p : R) : bool := if Rlt_dec (1 / 2) p then true else false.

(** [torch.sigmoid(logit) > 0.5]: the label is predicted present. *)
Definition predict_present (logit : R) : bool := gt_half (sigmoid logit).

(** [.float()] on a boolean. *)
Definition to_float (b : bool) : Q := if b then 1%Q else 0%Q.

(** [(torch.sigmoid(logits) > 0.5).float()] on a batch of logit rows. *)
Definition threshold_preds (logits : list (list R)) : list (list Q) :=
  map (map (λ x, to_float (predict_present x))) logits.

Definition is_scheduler_step (c : call) : bool :=
  match c with SchedulerStep => true | _ => false end.

(** How many calls of a log satisfy [p]. *)
Definition count_calls (p : call → bool) (log : list event) : nat :=
  length (List.filter (λ e, p e.2) log).

(** [scaler.step(optimizer)] of [torch.cuda.amp.GradScaler]: the optimizer
    steps unless [scaler.unscale_] found an inf or a NaN in the gradients,
    in which case the update is skipped.  [found_inf buf] is the scaler's
    check of the gradients the buffers hold; it is the library's and depends
    on the gradients, which the loss value alone does not determine.  A
    plain [optimizer.step()] applies the buffer unconditionally. *)
Definition scaler_update_step (found_inf : list (option nat * Fl.fval) → bool)
    (st : list (option nat * Fl.fval) * list (list (option nat * Fl.fval)))
    (e : event) : list (option nat * Fl.fval) * list (list (option nat * Fl.fval)) :=
  (grad_step st.1 e,
   match e.2 with
   | OptimizerStep => st.2 ++ [st.1]
   | ScalerStep => if found_inf st.1 then st.2 else st.2 ++ [st.1]
   | _ => st.2
   end).

(** The gradients the optimizer really applied. *)
Definition scaler_applied_updates (found_inf : list (option nat * Fl.fval) → bool)
    (log : list event) : list (list (option nat * Fl.fval)) :=
  (foldl (scaler_update_step found_inf) ([], []) log).2.

End Torch.

(** ** Gradient accumulation loop shared by the two [train_epoch]s

    [production_train.train_epoch] and [train_colab_fixed.train_epoch] have
    the same loop; they differ in the call that runs the backward pass and in
    the calls made at an accumulation boundary. *)

Module Loop.

Section Accumulate.

Context {Batch : Type}.
(** [bce_loss i batch]: the loss the network gives on [batch] when the loop
    reaches it at index [i]. *)
Variable bce_loss : nat → Batch → Fl.fval.
Variable backward : Fl.fval → Torch.call.
Variable boundary : list Torch.call.

Record loop_state : Type := {
  calls : list Torch.event;
  total_loss : Fl.fval
}.

(** [a % b] on Python ints. *)
Definition py_mod (a b : nat) : Py.result nat :=
  if Nat.eqb b 0 then Py.Raise Py.ZeroDivisionError else Py.Ok (a mod b).

Definition at_iteration (i : nat) (cs : list Torch.call) : list Torch.event :=
  pair (Some i) <$> cs.

(** The body of [for i, batch in enumerate(loader)]. *)
Definition train_step (accumulation_steps : nat) (st : loop_state) (ib : nat * Batch)
  : Py.result loop_state :=
  let i := ib.1 in
  let batch := ib.2 in
  let loss := bce_loss i batch in
  let loss' := Fl.div_nat loss accumulation_steps in
  let log := calls st ++ at_iteration i [Torch.Forward loss; backward loss'] in
  r ← py_mod (i + 1) accumulation_steps;
  let log := if Nat.eqb r 0 then log ++ at_iteration i boundary else log in
  mret {| calls := log;
          total_loss := Fl.add (total_loss st) (Fl.mul_nat loss' accumulation_steps) |}.

Definition init_state : loop_state :=
  {| calls := [(None, Torch.ModelTrain); (None, Torch.ZeroGrad)];
     total_loss := Fl.Fin 0 |}.

Definition train_epoch (loader : list Batch) (accumulation_steps : nat)
  : Py.result (list Torch.event * Fl.fval) :=
  st ← Py.for_each (train_step accumulation_steps) init_state (Py.enumerate loader);
  avg ← Fl.pydiv_nat (total_loss st) (length loader);
  mret (calls st, avg).

(** *** Auxiliary descriptions used by the statements below *)

(** The calls of the iteration at index [i]. *)
Definition iteration_calls (accumulation_steps i : nat) (batch : Batch)
  : list Torch.call :=
  [Torch.Forward (bce_loss i batch);
   backward (Fl.div_nat (bce_loss i batch) accumulation_steps)]
  ++ (if Nat.eqb ((i + 1) mod accumulation_steps) 0 then boundary else []).

(** The events of the iterations [k], [k+1], ... over the batches [l]. *)
Fixpoint epoch_events (accumulation_steps k : nat) (l : list Batch)
  : list Torch.event :=
  match l with
  | [] => []
  | b :: l' =>
      at_iteration k (iteration_calls accumulation_steps k b)
      ++ epoch_events accumulation_steps (S k) l'
  end.

(** What iteration [i] adds to [total_loss]. *)
Definition reported (accumulation_steps i : nat) (batch : Batch) : Fl.fval :=
  Fl.mul_nat (Fl.div_nat (bce_loss i batch) accumulation_steps) accumulation_steps.

(** The scaled loss whose gradient iteration [i] adds to the buffers. *)
Definition contribution (accumulation_steps i : nat) (batch : Batch)
  : option nat * Fl.fval :=
  (Some i, Fl.div_nat (bce_loss i batch) accumulation_steps).

End Accumulate.

End Loop.

(** ** numpy / torch array helpers *)

Module Np.

Definition count_if {A : Type} (p : A → bool) (xs : list A) : nat :=
  length (List.filter p xs).

(** [(a == b)] on two rows of equal length, then [.all()]. *)
Definition row_equal (a b : list Q) : bool :=
  forallb (λ ab, Qeq_bool ab.1 ab.2) (zip a b).

(** [.mean()] of a boolean array: NaN on an empty array. *)
Definition mean_bool (bs : list bool) : Fl.fval :=
  Fl.div_nat (Fl.Fin (Fl.of_nat (count_if (λ b : bool, b) bs))) (length bs).

(** [.astype(int)] on a float: truncation towards zero. *)
Definition astype_int (q : Q) : Z :=
  if Qle_bool 0 q then Qfloor q else Qceiling q.

(** [x > 0.5] on a float. *)
Definition gt_half (q : Q) : bool := Fl.Qltb (1 # 2) q.

End Np.

(** ** scikit-learn's precision / recall / F-score, as the scripts call it

    Both call shapes below follow scikit-learn's documented behaviour of
    [precision_recall_fscore_support]: per-class true-positive, predicted and
    true counts are taken from the multilabel confusion matrix, and
    [average='micro'] sums them over the classes before dividing.
    [zero_division=0] makes every quotient with a zero denominator 0. *)

Module Sklearn.

Record prf : Type := { precision : Q; recall : Q; fscore : Q }.

(** [_prf_divide] with [zero_division=0]. *)
Definition prf_divide (num den : nat) : Q :=
  if Nat.eqb den 0 then 0%Q else (Fl.of_nat num / Fl.of_nat den)%Q.

(** Per-class counts [(tp_sum, pred_sum, true_sum)]. *)
Definition counts : Type := nat * nat * nat.

Definition sum_counts (cs : list counts) : counts :=
  foldl (λ acc c, (acc.1.1 + c.1.1, acc.1.2 + c.1.2, acc.2 + c.2)) (0, 0, 0) cs.

Definition prf_of_counts (c : counts) : prf :=
  let tp_sum := c.1.1 in
  let pred_sum := c.1.2 in
  let true_sum := c.2 in
  {| precision := prf_divide tp_sum pred_sum;
     recall := prf_divide tp_sum true_sum;
     fscore := prf_divide (2 * tp_sum) (true_sum + pred_sum) |}.

(** *** One-dimensional targets (binary or multiclass)

    Every distinct value occurring in [y_true] or [y_pred] is a class
    ([unique_labels]); a cell is a true positive of class [c] when both
    arrays hold [c] there. *)

Definition is_integral (q : Q) : bool :=
  Z.eqb (Qnum q mod Zpos (Qden q)) 0.

Fixpoint unique_labels (ys : list Q) : list Q :=
  match ys with
  | [] => []
  | y :: ys' =>
      let rest := unique_labels ys' in
      if existsb (Qeq_bool y) rest then rest else y :: rest
  end.

Definition class_counts (y_true y_pred : list Q) (c : Q) : counts :=
  (Np.count_if (λ tp, Qeq_bool tp.1 tp.2 && Qeq_bool tp.1 c) (zip y_true y_pred),
   Np.count_if (Qeq_bool c) y_pred,
   Np.count_if (Qeq_bool c) y_true).

(** [precision_recall_fscore_support(y_true, y_pred, average='micro',
    zero_division=0)] on one-dimensional arrays.  Arrays of different
    lengths and non-integral ("continuous") values are rejected. *)
Definition prfs_micro_1d (y_true y_pred : list Q) : Py.result prf :=
  if negb (Nat.eqb (length y_true) (length y_pred)) then Py.Raise Py.ValueError
  else if negb (forallb is_integral (y_true ++ y_pred)) then Py.Raise Py.ValueError
  else
    let labels := unique_labels (y_true ++ y_pred) in
    Py.Ok (prf_of_counts (sum_counts (class_counts y_true y_pred <$> labels))).

(** *** Two-dimensional 0/1 indicator matrices (multilabel)

    scikit-learn takes this path for a matrix of zeros and ones with at
    least two columns; a matrix with a single column is a binary target and
    goes through the one-dimensional path above.  The definitions below are
    the indicator path and are meant for such matrices only.

    Each column is a label; the positive class of a column is the value 1:
    [tp_sum], [pred_sum] and [true_sum] count the non-zero cells of
    [y_true * y_pred], [y_pred] and [y_true] per column. *)

Definition column (j : nat) (m : list (list Z)) : list Z :=
  (λ row, default 0%Z (row !! j)) <$> m.

Definition nonzero (z : Z) : bool := negb (Z.eqb z 0).

Definition label_counts (y_true y_pred : list (list Z)) (j : nat) : counts :=
  (Np.count_if (λ tp, nonzero (tp.1 * tp.2)) (zip (column j y_true) (column j y_pred)),
   Np.count_if nonzero (column j y_pred),
   Np.count_if nonzero (column j y_true)).

Definition n_labels (m : list (list Z)) : nat :=
  match m with [] => 0 | row :: _ => length row end.

Definition all_label_counts (y_true y_pred : list (list Z)) : list counts :=
  label_counts y_true y_pred <$> seq 0 (n_labels y_true).

(** [average='micro'] *)
Definition prfs_micro_multilabel (y_true y_pred : list (list Z)) : prf :=
  prf_of_counts (sum_counts (all_label_counts y_true y_pred)).

(** [f1_score(..., average='macro', zero_division=0)]: the unweighted mean
    of the per-label F1 scores (for at least one label). *)
Definition f1_macro_multilabel (y_true y_pred : list (list Z)) : Q :=
  let fs := (λ c, fscore (prf_of_counts c)) <$> all_label_counts y_true y_pred in
  (Fl.Qsum fs / Fl.of_nat (length fs))%Q.

End Sklearn.

(** ** Files written by the export step *)

Module Fs.

Inductive json : Type :=
| JString (s : string)
| JArray (xs : list json)
| JObject (fields : list (string * json)).

Inductive dtype : Type := Int64 | Float32.

(** A tensor argument handed to the exporter: element type and shape. *)
Record tensor_spec : Type := { t_dtype : dtype; t_shape : list nat }.

Inductive action : Type :=
| MakeDirs (path : string)                    (* os.makedirs(path, exist_ok=True) *)
| JsonDump (path : string) (value : json)     (* json.dump(value, open(path, "w")) *)
| SaveTokenizer (dir : string)                (* tokenizer.save_pretrained(dir) *)
| OnnxExport (path : string) (args : list tensor_spec)
    (input_names output_names : list string)
    (dynamic_axes : list (string * list (nat * string)))
    (opset_version : nat)                     (* torch.onnx.export(...) *)
| SaveSafetensors (path : string)             (* safetensors save_file *)
| TorchSave (path : string).                  (* torch.save(state_dict, path) *)

Definition json_strings (xs : list string) : json := JArray (JString <$> xs).



(** What the epoch loops of [train_colab_1m.py] and [train_colab_fixed.py]
    save: a periodic checkpoint of an epoch, or the model of an epoch as the
    best one so far. *)
Inductive save_event : Type :=
| Checkpoint (epoch : nat)
| SaveBest (epoch : nat).

End Fs.

(** ** Python string operations used by the scripts

    Strings are byte strings (UTF-8); substring search and replacement on
    the bytes agree with Python's on the code points. *)

Module Str.

(** [s.startswith(p)] *)
Fixpoint startswith (p s : string) : bool :=
  match p, s with
  | EmptyString, _ => true
  | String a p', String b s' => Ascii.eqb a b && startswith p' s'
  | String _ _, EmptyString => false
  end.

(** [sub in s] *)
Fixpoint contains (sub s : string) : bool :=
  startswith sub s
  || match s with
     | EmptyString => false
     | String _ s' => contains sub s'
     end.

(** [s.replace(old, new)] for a non-empty [old]: the occurrences of [old]
    are replaced from left to right, without overlap.  [skip] counts the
    characters of a replaced occurrence still to be dropped. *)
Fixpoint replace_from (skip : nat) (old new s : string) : string :=
  match s with
  | EmptyString => EmptyString
  | String c s' =>
      match skip with
      | S k => replace_from k old new s'
      | 0 =>
          if startswith old s
          then String.append new (replace_from (String.length old - 1) old new s')
          else String c (replace_from 0 old new s')
      end
  end.

Definition replace (s old new : string) : string := replace_from 0 old new s.

End Str.

(** ** scripts/production_train.py: vocabulary and dataset *)

Module production_train.

Definition VOCAB : list string :=
  [ "x = 0";
    "y = 0";
    "x = y";
    "x = 1";
    "y = 1";
    "a = b = c = 1";
    "abc = 1 constraint";
    "Apply AM-GM";
    "Apply Cauchy-Schwarz";
    "Assume f is linear";
    "Assume f is injective";
    "Assume f is monotonic";
    "Check small cases";
    "Use modular arithmetic";
    "Homogenize";
    "WLOG assume ordering";
    "Substitute c = 1/(ab)";
    "y = f(x)";
    "x = -y";
    "Consider p = 2 separately" ].

Definition NUM_LABELS : nat := length VOCAB.

(** One record of [DATA]: [{"text": ..., "subs": [...]}]. *)
Record item : Type := { text : string; subs : list string }.

(** What the external tokenizer returns for a text and a [max_length]. *)
Record encoding : Type := { enc_input_ids : list Z; enc_attention_mask : list Z }.

Record IMODataset : Type := {
  data : list item;
  tokenizer : string → nat → encoding;
  vocab : list string;
  max_length : nat;
  vocab_to_idx : gmap string nat
}.

(** [IMODataset.__init__] *)
Definition IMODataset_init (data : list item) (tokenizer : string → nat → encoding)
    (vocab : list string) (max_length : nat) : Py.result IMODataset :=
  Py.Ok {| data := data;
           tokenizer := tokenizer;
           vocab := vocab;
           max_length := max_length;
           vocab_to_idx := Py.index_dict vocab |}.

(** [label[i] = x] on a one-dimensional tensor: out of range raises. *)
Definition tensor_setitem (t : list Q) (i : nat) (x : Q) : Py.result (list Q) :=
  if decide (i < length t) then Py.Ok (<[i := x]> t) else Py.Raise Py.IndexError.

(** The body of [for sub in subs: if sub in vocab_to_idx: label[...] = 1.0]. *)
Definition mark_label (v2i : gmap string nat) (label : list Q) (sub : string)
  : Py.result (list Q) :=
  match v2i !! sub with
  | Some i => tensor_setitem label i 1%Q
  | None => Py.Ok label
  end.

(** Multi-hot label encoding, from [torch.zeros(n)]. *)
Definition multi_hot (n : nat) (v2i : gmap string nat) (subs : list string)
  : Py.result (list Q) :=
  Py.for_each (mark_label v2i) (replicate n 0%Q) subs.

Record sample : Type := {
  input_ids : list Z;
  attention_mask : list Z;
  labels : list Q
}.

(** [IMODataset.__getitem__] *)
Definition IMODataset_getitem (self : IMODataset) (idx : nat) : Py.result sample :=
  match data self !! idx with
  | None => Py.Raise Py.IndexError
  | Some it =>
      let encoding := tokenizer self (text it) (max_length self) in
      label ← multi_hot (length (vocab self)) (vocab_to_idx self) (subs it);
      Py.Ok {| input_ids := enc_input_ids encoding;
               attention_mask := enc_attention_mask encoding;
               labels := label |}
  end.



(** *** Training *)

(** [train_epoch(model, loader, optimizer, scheduler, device,
    accumulation_steps)]: the backward pass is [loss.backward()]; at an
    accumulation boundary the gradient is clipped, the optimizer and the
    scheduler step and the gradients are zeroed. *)
Definition train_epoch {Batch : Type} (bce_loss : nat → Batch → Fl.fval)
    (loader : list Batch) (accumulation_steps : nat)
  : Py.result (list Torch.event * Fl.fval) :=
  Loop.train_epoch bce_loss Torch.Backward
    [Torch.ClipGradNorm; Torch.OptimizerStep; Torch.SchedulerStep; Torch.ZeroGrad]
    loader accumulation_steps.

(** *** Evaluation *)

(** One validation batch as the loop sees it: the logits the network
    returns, the labels, and the value of the loss. *)
Record eval_batch : Type := {
  logits : list (list R);
  batch_labels : list (list Q);
  batch_loss : Fl.fval
}.

Record metrics : Type := {
  loss : Fl.fval;
  accuracy : Fl.fval;
  precision : Q;
  recall : Q;
  f1 : Q
}.

Record eval_state : Type := {
  total_loss : Fl.fval;
  all_preds : list (list Q);
  all_labels : list (list Q)
}.

(** The body of [for batch in loader]. *)
Definition eval_step (st : eval_state) (batch : eval_batch) : eval_state :=
  {| total_loss := Fl.add (total_loss st) (batch_loss batch);
     all_preds := all_preds st ++ Torch.threshold_preds (logits batch);
     all_labels := all_labels st ++ batch_labels batch |}.

(** [(all_preds == all_labels).all(axis=1).mean()]; an empty [all_preds] is
    a one-dimensional array, for which [axis=1] is out of bounds. *)
Definition exact_match (all_preds all_labels : list (list Q)) : Py.result Fl.fval :=
  match all_preds with
  | [] => Py.Raise Py.AxisError
  | _ => Py.Ok (Np.mean_bool (zip_with Np.row_equal all_preds all_labels))
  end.

(** The "Calculate metrics" part of [evaluate]. *)
Definition calculate_metrics (all_preds all_labels : list (list Q))
    (total_loss : Fl.fval) (len_loader : nat) : Py.result metrics :=
  accuracy ← exact_match all_preds all_labels;
  prf ← Sklearn.prfs_micro_1d (concat all_labels) (concat all_preds);
  loss ← Fl.pydiv_nat total_loss len_loader;
  mret {| loss := loss;
          accuracy := accuracy;
          precision := Sklearn.precision prf;
          recall := Sklearn.recall prf;
          f1 := Sklearn.fscore prf |}.

(** [evaluate(model, loader, device)] *)
Definition evaluate (loader : list eval_batch) : Py.result metrics :=
  let st := foldl eval_step
              {| total_loss := Fl.Fin 0; all_preds := []; all_labels := [] |} loader in
  calculate_metrics (all_preds st) (all_labels st) (total_loss st) (length loader).

(** *** Model selection and early stopping in [main] *)

Record config : Type := {
  cfg_max_length : nat;
  epochs : nat;
  gradient_accumulation : nat;
  patience : nat;
  min_delta : Q;
  output_dir : string
}.

Definition CONFIG : config :=
  {| cfg_max_length := 256;
     epochs := 50;
     gradient_accumulation := 2;
     patience := 5;
     min_delta := (1 # 1000)%Q;
     output_dir := "lemma_model" |}.

(** [best_model_state] is represented by the epoch whose parameters it
    holds. *)
Record selection : Type := {
  best_f1 : Q;
  patience_counter : nat;
  best_model_state : option nat
}.

Record loop_exit : Type := {
  final : selection;
  evaluations : nat;      (* number of epochs trained and evaluated *)
  stopped_early : bool    (* the loop was left by [break] *)
}.

(** The [for epoch in range(CONFIG["epochs"])] loop, from epoch [epoch] on.
    [val_f1] lists the validation F1 of every remaining epoch. *)
Fixpoint training_loop (cfg : config) (epoch : nat) (val_f1 : list Q) (st : selection)
  : loop_exit :=
  match val_f1 with
  | [] => {| final := st; evaluations := epoch; stopped_early := false |}
  | f1 :: rest =>
      if Fl.Qltb (best_f1 st + min_delta cfg) f1
      then training_loop cfg (S epoch) rest
             {| best_f1 := f1; patience_counter := 0; best_model_state := Some epoch |}
      else
        let st' := {| best_f1 := best_f1 st;
                      patience_counter := patience_counter st + 1;
                      best_model_state := best_model_state st |} in
        if Nat.leb (patience cfg) (patience_counter st')
        then {| final := st'; evaluations := S epoch; stopped_early := true |}
        else training_loop cfg (S epoch) rest st'
  end.

(** The loop as [main] starts it; one validation F1 per configured epoch. *)
Definition early_stopping (cfg : config) (val_f1 : list Q) : loop_exit :=
  training_loop cfg 0 (take (epochs cfg) val_f1)
    {| best_f1 := 0; patience_counter := 0; best_model_state := None |}.

(** *** Saving and export at the end of [main]

    The dummy input is the tokenizer's output for one sentence, padded and
    truncated to [max_length]: two integer tensors of shape
    [1 x max_length]. *)
Definition export_model (cfg : config) : list Fs.action :=
  let dummy := {| Fs.t_dtype := Fs.Int64; Fs.t_shape := [1; cfg_max_length cfg] |} in
  [ Fs.MakeDirs (output_dir cfg);
    Fs.JsonDump (String.append (output_dir cfg) "/vocab.json") (Fs.json_strings VOCAB);
    Fs.SaveTokenizer (output_dir cfg);
    Fs.OnnxExport (String.append (output_dir cfg) "/substitution_model.onnx")
      [dummy; dummy]
      ["input_ids"; "attention_mask"]
      ["logits"]
      []
      14 ].

(** *** The scheduler's step budget in [main]

    [total_steps = len(train_loader) * CONFIG["epochs"] //
    CONFIG["gradient_accumulation"]]: product first, then floor division. *)
Definition py_floordiv (a b : nat) : Py.result nat :=
  if Nat.eqb b 0 then Py.Raise Py.ZeroDivisionError else Py.Ok (a / b).

Definition total_steps (len_train_loader : nat) (cfg : config) : Py.result nat :=
  py_floordiv (len_train_loader * epochs cfg) (gradient_accumulation cfg).

(** *** Data augmentation

    [lower] stands for [str.lower]. *)
Section Augment.

Variable lower : string → string.

(** What one pass of the loop body appends for [item]. *)
Definition variations (item : item) : list production_train.item :=
  let text := text item in
  let subs := subs item in
  [item]
  ++ (if Str.contains "Find all" text
      then [{| production_train.text := Str.replace text "Find all" "Determine all";
               production_train.subs := subs |}]
      else [])
  ++ (if Str.contains "Prove" text
      then [{| production_train.text := Str.replace text "Prove" "Show that";
               production_train.subs := subs |}]
      else [])
  ++ (if Str.contains "for all" (lower text)
      then [{| production_train.text := Str.replace text "for all" "for every";
               production_train.subs := subs |}]
      else []).

(** [augment_data(data_list)] *)
Definition augment_data (data_list : list item) : list item :=
  foldl (λ augmented item, augmented ++ variations item) [] data_list.

End Augment.

End production_train.

(** ** scripts/train_colab_1m.py *)

Module train_colab_1m.

Definition VOCAB : list string :=
  [ "x = 0"; "y = 0"; "x = y"; "x = 1"; "y = 1";
    "a = b = c = 1"; "abc = 1 constraint"; "Apply AM-GM"; "Apply Cauchy-Schwarz";
    "Assume f is linear"; "Assume f is injective"; "Assume f is monotonic";
    "Check small cases"; "Use modular arithmetic"; "Homogenize"; "WLOG assume ordering";
    "Substitute c = 1/(ab)"; "y = f(x)"; "x = -y"; "Consider p = 2 separately" ].

(** One record of the synthetic data set; the [substitutions] key may be
    missing ([item.get("substitutions", [])]). *)
Record item : Type := { statement : string; substitutions : option (list string) }.

Record SyntheticMathDataset : Type := {
  data : list item;
  tokenizer : string → nat → production_train.encoding;
  vocab_to_idx : gmap string nat;
  max_length : nat
}.

(** [SyntheticMathDataset.__init__] *)
Definition SyntheticMathDataset_init (data : list item)
    (tokenizer : string → nat → production_train.encoding)
    (vocab : list string) (max_length : nat) : Py.result SyntheticMathDataset :=
  Py.Ok {| data := data;
           tokenizer := tokenizer;
           vocab_to_idx := Py.index_dict vocab;
           max_length := max_length |}.

(** [SyntheticMathDataset.__getitem__]: the label tensor has one slot per
    key of [vocab_to_idx]. *)
Definition SyntheticMathDataset_getitem (self : SyntheticMathDataset) (idx : nat)
  : Py.result production_train.sample :=
  match data self !! idx with
  | None => Py.Raise Py.IndexError
  | Some it =>
      let subs := default [] (substitutions it) in
      labels ← production_train.multi_hot (size (vocab_to_idx self))
                  (vocab_to_idx self) subs;
      let encoding := tokenizer self (statement it) (max_length self) in
      Py.Ok {| production_train.input_ids := production_train.enc_input_ids encoding;
               production_train.attention_mask := production_train.enc_attention_mask encoding;
               production_train.labels := labels |}
  end.



(** *** Evaluation *)

Record eval_batch : Type := {
  logits : list (list R);
  batch_labels : list (list Q);
  batch_loss : Fl.fval
}.

Record metrics : Type := {
  loss : Fl.fval;
  exact_match : Fl.fval;
  per_label_acc : Fl.fval
}.

Definition n_columns (m : list (list Q)) : nat :=
  match m with [] => 0 | row :: _ => length row end.

(** [(all_preds == all_labels).float().mean(dim=0)]: per label, the
    fraction of examples on which prediction and label agree. *)
Definition label_accuracy (all_preds all_labels : list (list Q)) (j : nat) : Fl.fval :=
  Np.mean_bool
    (zip_with (λ p l, Qeq_bool (default 0%Q (p !! j)) (default 0%Q (l !! j)))
       all_preds all_labels).

Definition mean_fval (xs : list Fl.fval) : Fl.fval :=
  Fl.div_nat (foldl Fl.add (Fl.Fin 0) xs) (length xs).

(** [evaluate(model, loader, device)]; [torch.cat] of an empty list
    raises. *)
Definition evaluate (loader : list eval_batch) : Py.result metrics :=
  match loader with
  | [] => Py.Raise Py.RuntimeError
  | _ =>
      let total_loss := foldl (λ acc b, Fl.add acc (batch_loss b)) (Fl.Fin 0) loader in
      let all_preds := concat ((λ b, Torch.threshold_preds (logits b)) <$> loader) in
      let all_labels := concat (batch_labels <$> loader) in
      loss ← Fl.pydiv_nat total_loss (length loader);
      mret {| loss := loss;
              exact_match := Np.mean_bool (zip_with Np.row_equal all_preds all_labels);
              per_label_acc :=
                mean_fval (label_accuracy all_preds all_labels
                             <$> seq 0 (n_columns all_preds)) |}
  end.

(** *** Export at the end of [main]

    The ONNX export runs inside [try]; when it fails the weights are saved
    as SafeTensors, or with [torch.save] when that package is missing.  The
    vocabulary is written in every case. *)
Definition export_model (output_dir : string) (max_length : nat) (history : Fs.json)
    (onnx_export_ok safetensors_available : bool) : list Fs.action :=
  let dummy := {| Fs.t_dtype := Fs.Int64; Fs.t_shape := [1; max_length] |} in
  [ Fs.JsonDump (String.append output_dir "/training_history.json") history ]
  ++ (if onnx_export_ok
      then [ Fs.OnnxExport (String.append output_dir "/mathbert_1m.onnx")
               [dummy; dummy]
               ["input_ids"; "attention_mask"]
               ["logits"]
               [ ("input_ids", [(0, "batch_size"); (1, "sequence")]);
                 ("attention_mask", [(0, "batch_size"); (1, "sequence")]);
                 ("logits", [(0, "batch_size")]) ]
               14 ]
      else if safetensors_available
      then [ Fs.SaveSafetensors (String.append output_dir "/model.safetensors") ]
      else [ Fs.TorchSave (String.append output_dir "/pytorch_model.bin") ])
  ++ [ Fs.JsonDump (String.append output_dir "/vocab.json")
         (Fs.JObject [("substitutions", Fs.json_strings VOCAB)]) ].

(** *** Training: one optimizer step per batch *)

(** The body of [for batch in pbar]; the batch position is kept as the tag
    of the calls. *)
Definition train_step {Batch : Type} (bce_loss : nat → Batch → Fl.fval)
    (st : Loop.loop_state) (ib : nat * Batch) : Loop.loop_state :=
  let loss := bce_loss ib.1 ib.2 in
  {| Loop.calls :=
       Loop.calls st
       ++ Loop.at_iteration ib.1
            [Torch.ZeroGrad; Torch.Forward loss; Torch.Backward loss;
             Torch.ClipGradNorm; Torch.OptimizerStep; Torch.SchedulerStep];
     Loop.total_loss := Fl.add (Loop.total_loss st) loss |}.

(** [train_epoch(model, loader, optimizer, scheduler, device, epoch)] *)
Definition train_epoch {Batch : Type} (bce_loss : nat → Batch → Fl.fval)
    (loader : list Batch) : Py.result (list Torch.event * Fl.fval) :=
  let st := foldl (train_step bce_loss)
              {| Loop.calls := [(None, Torch.ModelTrain)];
                 Loop.total_loss := Fl.Fin 0 |}
              (Py.enumerate loader) in
  avg ← Fl.pydiv_nat (Loop.total_loss st) (length loader);
  mret (Loop.calls st, avg).

(** [total_steps = len(train_loader) * CONFIG["epochs"]] *)
Definition total_steps (len_train_loader epochs : nat) : nat :=
  len_train_loader * epochs.

(** *** The epoch loop of [main]

    [val_loss] lists the validation loss of the epochs still to run, the
    first of them being epoch [epoch]; [best_val_loss] starts at
    [float("inf")]. *)
Record loop_state : Type := {
  best_val_loss : Fl.fval;
  saved : list Fs.save_event
}.

Fixpoint epoch_loop (save_every_n_epochs epoch : nat) (val_loss : list Fl.fval)
    (st : loop_state) : Py.result loop_state :=
  match val_loss with
  | [] => Py.Ok st
  | l :: rest =>
      r ← Loop.py_mod epoch save_every_n_epochs;
      let saved1 :=
        if Nat.eqb r 0 then saved st ++ [Fs.Checkpoint epoch] else saved st in
      if Fl.ltb l (best_val_loss st)
      then epoch_loop save_every_n_epochs (S epoch) rest
             {| best_val_loss := l; saved := saved1 ++ [Fs.SaveBest epoch] |}
      else epoch_loop save_every_n_epochs (S epoch) rest
             {| best_val_loss := best_val_loss st; saved := saved1 |}
  end.

(** [for epoch in range(1, CONFIG["epochs"] + 1)] *)
Definition run_epochs (save_every_n_epochs epochs : nat) (val_loss : list Fl.fval)
  : Py.result loop_state :=
  epoch_loop save_every_n_epochs 1 (take epochs val_loss)
    {| best_val_loss := Fl.PInf; saved := [] |}.

End train_colab_1m.

(** ** scripts/train_colab_fixed.py *)

Module train_colab_fixed.

Record metrics : Type := {
  micro_f1 : Q;
  macro_f1 : Q;
  exact_match : Fl.fval;
  precision : Q;
  recall : Q
}.

(** [compute_metrics(preds, labels)]: [preds] holds the sigmoid
    probabilities. *)
Definition compute_metrics (preds labels : list (list Q)) : metrics :=
  let preds_binary := map (map (λ p, Z.b2z (Np.gt_half p))) preds in
  let labels_binary := map (map Np.astype_int) labels in
  let micro := Sklearn.prfs_micro_multilabel labels_binary preds_binary in
  {| micro_f1 := Sklearn.fscore micro;
     macro_f1 := Sklearn.f1_macro_multilabel labels_binary preds_binary;
     exact_match :=
       Np.mean_bool (zip_with (λ p l, bool_decide (p = l)) preds_binary labels_binary);
     precision := Sklearn.precision micro;
     recall := Sklearn.recall micro |}.

(** [train_epoch(model, loader, optimizer, scheduler, scaler, device,
    accumulation_steps)]: the backward pass goes through the gradient
    scaler; at an accumulation boundary the gradients are unscaled and
    clipped, the scaler steps the optimizer and updates its scale, the
    scheduler steps and the gradients are zeroed. *)
Definition train_epoch {Batch : Type} (bce_loss : nat → Batch → Fl.fval)
    (loader : list Batch) (accumulation_steps : nat)
  : Py.result (list Torch.event * Fl.fval) :=
  Loop.train_epoch bce_loss Torch.ScaledBackward
    [Torch.ScalerUnscale; Torch.ClipGradNorm; Torch.ScalerStep; Torch.ScalerUpdate;
     Torch.SchedulerStep; Torch.ZeroGrad]
    loader accumulation_steps.

(** [steps_per_epoch = len(train_loader) // CONFIG["gradient_accumulation"]]
    and [total_steps = steps_per_epoch * CONFIG["epochs"]] in [main]. *)
Definition total_steps (len_train_loader epochs gradient_accumulation : nat)
  : Py.result nat :=
  steps_per_epoch ← production_train.py_floordiv len_train_loader gradient_accumulation;
  mret (steps_per_epoch * epochs).

(** *** The epoch loop of [main]

    [micro_f1] lists the validation micro-F1 of the epochs still to run;
    [best_f1] starts at 0. *)
Record loop_state : Type := {
  best_f1 : Q;
  saved : list Fs.save_event
}.

Fixpoint epoch_loop (save_every_n_epochs epoch : nat) (micro_f1 : list Q)
    (st : loop_state) : Py.result loop_state :=
  match micro_f1 with
  | [] => Py.Ok st
  | f :: rest =>
      r ← Loop.py_mod epoch save_every_n_epochs;
      let saved1 :=
        if Nat.eqb r 0 then saved st ++ [Fs.Checkpoint epoch] else saved st in
      if Fl.Qltb (best_f1 st) f
      then epoch_loop save_every_n_epochs (S epoch) rest
             {| best_f1 := f; saved := saved1 ++ [Fs.SaveBest epoch] |}
      else epoch_loop save_every_n_epochs (S epoch) rest
             {| best_f1 := best_f1 st; saved := saved1 |}
  end.

(** [for epoch in range(1, CONFIG["epochs"] + 1)] *)
Definition run_epochs (save_every_n_epochs epochs : nat) (micro_f1 : list Q)
  : Py.result loop_state :=
  epoch_loop save_every_n_epochs 1 (take epochs micro_f1)
    {| best_f1 := 0; saved := [] |}.

End train_colab_fixed.

(** ** Sample inputs *)

Module Samples.

(** A tokenizer that returns empty tensors. *)
Definition no_tokenizer (_ : string) (_ : nat) : production_train.encoding :=
  {| production_train.enc_input_ids := []; production_train.enc_attention_mask := [] |}.

(** An entry of [DATA] whose tactic list holds a string ("z = 0") that is
    not in the vocabulary. *)
Definition item_with_unknown_tactic : production_train.item :=
  {| production_train.text :=
       "Find f: R to R such that f(x^2 + yf(z)) = xf(x) + zf(y).";
     production_train.subs := ["x = 0"; "y = 0"; "z = 0"] |}.

(** The same record in the format of the synthetic data set. *)
Definition as_synthetic (it : production_train.item) : train_colab_1m.item :=
  {| train_colab_1m.statement := production_train.text it;
     train_colab_1m.substitutions := Some (production_train.subs it) |}.

(** A loader whose batches are identified with the loss the network gives
    on them. *)
Definition loss_of_batch (_ : nat) (b : Fl.fval) : Fl.fval := b.

Definition five_batches : list Fl.fval :=
  [Fl.Fin 1; Fl.Fin 3; Fl.Fin 5; Fl.Fin 7; Fl.Fin 9]%Q.

(** A gradient scaler that finds an overflow in the gradients of the first
    micro-batch, and in no others. *)
Definition overflow_in_first_group (buf : list (option nat * Fl.fval)) : bool :=
  existsb (λ g, match g.1 with Some 0 => true | _ => false end) buf.

(** Two micro-batches, the first with a NaN loss. *)
Definition nan_then_one : list Fl.fval := [Fl.NaN; Fl.Fin 1].

(** The matrices of the metric example: two examples, three labels. *)
Definition ground_truth : list (list Q) := [[1; 0; 1]; [0; 1; 0]]%Q.
Definition predictions : list (list Q) := [[1; 0; 0]; [0; 1; 0]]%Q.

(** Logits and probabilities that threshold to [predictions]. *)
Definition example_logits : list (list R) := [[1; -1; -1]; [-1; 1; -1]]%R.
Definition example_probs : list (list Q) :=
  [[9 # 10; 1 # 10; 2 # 10]; [1 # 10; 8 # 10; 3 # 10]]%Q.

Definition example_batch : production_train.eval_batch :=
  {| production_train.logits := example_logits;
     production_train.batch_labels := ground_truth;
     production_train.batch_loss := Fl.Fin (1 # 2) |}.

(** The same validation batch for [train_colab_1m.py]. *)
Definition example_batch_1m : train_colab_1m.eval_batch :=
  {| train_colab_1m.logits := example_logits;
     train_colab_1m.batch_labels := ground_truth;
     train_colab_1m.batch_loss := Fl.Fin (1 # 2) |}.

(** [CONFIG] with [patience = 2] and [min_delta = 0.01]. *)
Definition patience_two : production_train.config :=
  {| production_train.cfg_max_length := 256;
     production_train.epochs := 50;
     production_train.gradient_accumulation := 2;
     production_train.patience := 2;
     production_train.min_delta := (1 # 100)%Q;
     production_train.output_dir := "lemma_model" |}.

Definition plateau_f1 : list Q := [50 # 100; 50 # 100; 505 # 1000; 504 # 1000]%Q.

(** A vocabulary that lists one label twice, and an example carrying that
    label. *)
Definition repeated_vocab : list string := ["x = 0"; "y = 0"; "x = 0"].

Definition item_x0 : production_train.item :=
  {| production_train.text := "Find all f with f(x + y) = f(x) + f(y).";
     production_train.subs := ["x = 0"] |}.


(** Lower-casing of the ASCII letters. *)
Definition ascii_lower (c : Ascii.ascii) : Ascii.ascii :=
  let n := Ascii.nat_of_ascii c in
  if Nat.leb 65 n && Nat.leb n 90 then Ascii.ascii_of_nat (n + 32) else c.

Fixpoint lower (s : string) : string :=
  match s with
  | EmptyString => EmptyString
  | String c s' => String (ascii_lower c) (lower s')
  end.

Definition item_capital_for_all : production_train.item :=
  {| production_train.text := "For all x, show that f(x) = x.";
     production_train.subs := ["x = 0"] |}.

Definition item_find_all : production_train.item :=
  {| production_train.text :=
       "Find all functions f: R to R such that f(x + y) = f(x) + f(y) for all x, y.";
     production_train.subs := ["x = 0"; "y = 0"; "Assume f is linear"] |}.

End Samples.

(** * Properties *)

(** ** The label-to-index dictionary *)

Lemma enumerate_snoc {A : Type} (xs : list A) (x : A) :
  Py.enumerate (xs ++ [x]) = Py.enumerate xs ++ [(length xs, x)].
Proof.
  unfold Py.enumerate. rewrite imap_app. simpl.
  by rewrite Nat.add_0_r.
Qed.

Lemma index_dict_snoc (xs : list string) (x : string) :
  Py.index_dict (xs ++ [x]) = <[x := length xs]> (Py.index_dict xs).
Proof.
  unfold Py.index_dict. rewrite enumerate_snoc, foldl_app. reflexivity.
Qed.

(** The dictionary sends a label to the index of its last occurrence. *)
Lemma index_dict_lookup (xs : list string) (v : string) (i : nat) :
  Py.index_dict xs !! v = Some i ↔
  xs !! i = Some v ∧ ∀ j, xs !! j = Some v → j ≤ i.
Proof.
  revert i. induction xs as [|x xs IH] using rev_ind; intros i.
  - unfold Py.index_dict. simpl. rewrite lookup_empty. split; [done|].
    intros [Hi _]. by rewrite lookup_nil in Hi.
  - rewrite index_dict_snoc. destruct (decide (x = v)) as [->|Hne].
    + rewrite lookup_insert_eq. split.
      * intros [= <-]. split.
        -- by rewrite lookup_app_r, Nat.sub_diag.
        -- intros j Hj. apply lookup_lt_Some in Hj.
           rewrite length_app in Hj. simpl in Hj. lia.
      * intros [Hi Hlast]. f_equal.
        assert (Hlen : (xs ++ [v]) !! length xs = Some v)
          by (by rewrite lookup_app_r, Nat.sub_diag).
        apply Hlast in Hlen. apply lookup_lt_Some in Hi.
        rewrite length_app in Hi. simpl in Hi. lia.
    + rewrite lookup_insert_ne by done. rewrite IH. split.
      * intros [Hi Hlast]. split.
        -- by apply lookup_app_l_Some.
        -- intros j Hj. apply Hlast.
           apply lookup_app_Some in Hj as [Hj|[_ Hj]]; [done|].
           apply list_lookup_singleton_Some in Hj as [_ ?]. done.
      * intros [Hi Hlast].
        apply lookup_app_Some in Hi as [Hi|[_ Hi]].
        -- split; [done|]. intros j Hj. apply Hlast. by apply lookup_app_l_Some.
        -- apply list_lookup_singleton_Some in Hi as [_ ?]. done.
Qed.

Lemma index_dict_lookup_None (xs : list string) (v : string) :
  Py.index_dict xs !! v = None ↔ v ∉ xs.
Proof.
  induction xs as [|x xs IH] using rev_ind.
  - unfold Py.index_dict. simpl. rewrite lookup_empty. split; [|done].
    intros _. apply not_elem_of_nil.
  - rewrite index_dict_snoc, lookup_insert_None, IH, not_elem_of_app.
    rewrite list_elem_of_singleton. split; intros [? ?]; split; congruence.
Qed.

Lemma index_dict_in_range (xs : list string) (v : string) (i : nat) :
  Py.index_dict xs !! v = Some i → i < length xs.
Proof. rewrite index_dict_lookup. intros [Hi _]. by apply lookup_lt_Some in Hi. Qed.

Lemma index_dict_NoDup (xs : list string) (v : string) (i : nat) :
  NoDup xs → xs !! i = Some v → Py.index_dict xs !! v = Some i.
Proof.
  intros Hnd Hi. apply index_dict_lookup. split; [done|].
  intros j Hj. by rewrite (NoDup_lookup _ _ _ _ Hnd Hj Hi).
Qed.

Lemma index_dict_size_NoDup (xs : list string) :
  NoDup xs → size (Py.index_dict xs) = length xs.
Proof.
  induction xs as [|x xs IH] using rev_ind; intros Hnd.
  - reflexivity.
  - apply NoDup_app in Hnd as (Hxs & Hx & _).
    rewrite index_dict_snoc, map_size_insert_None, IH, length_app by
      (done || (apply index_dict_lookup_None; intros ?; eapply Hx; [done|];
                apply list_elem_of_here)).
    simpl. lia.
Qed.

Lemma VOCAB_NoDup : NoDup production_train.VOCAB.
Proof. apply (bool_decide_unpack _). vm_compute. reflexivity. Qed.

Lemma VOCAB_same : train_colab_1m.VOCAB = production_train.VOCAB.
Proof. reflexivity. Qed.

(** ** Multi-hot label encoding *)

Lemma multi_hot_loop (v2i : gmap string nat) (subs : list string) (t : list Q) :
  (∀ s i, v2i !! s = Some i → i < length t) →
  ∃ t', Py.for_each (production_train.mark_label v2i) t subs = Py.Ok t'
        ∧ length t' = length t
        ∧ (∀ i, i < length t → Exists (λ s, v2i !! s = Some i) subs → t' !! i = Some 1%Q)
        ∧ (∀ i, ¬ Exists (λ s, v2i !! s = Some i) subs → t' !! i = t !! i).
Proof.
  revert t. induction subs as [|sub subs IH]; intros t Hrange.
  - exists t. simpl. split; [done|]. split; [done|]. split; [|done].
    intros i _ H. by apply Exists_nil in H.
  - simpl. unfold production_train.mark_label at 1.
    destruct (v2i !! sub) as [k|] eqn:Hk.
    + unfold production_train.tensor_setitem.
      pose proof (Hrange _ _ Hk) as Hlt.
      rewrite decide_True by done. simpl.
      destruct (IH (<[k:=1%Q]> t)) as (t' & Hrun & Hlen & Hone & Hkeep).
      { intros s i Hs. rewrite length_insert. eauto. }
      rewrite length_insert in Hlen, Hone.
      exists t'. split; [done|]. split; [done|]. split.
      * intros i Hi Hex.
        destruct (decide (Exists (λ s, v2i !! s = Some i) subs)) as [Hin|Hnin].
        -- by apply Hone.
        -- rewrite Hkeep by done. apply Exists_cons in Hex as [Hhd|?]; [|done].
           assert (k = i) as -> by congruence.
           by apply list_lookup_insert_eq.
      * intros i Hnex. rewrite Hkeep.
        -- apply list_lookup_insert_ne. intros ->. apply Hnex. by left.
        -- intros Hex. apply Hnex. by right.
    + simpl. destruct (IH t Hrange) as (t' & Hrun & Hlen & Hone & Hkeep).
      exists t'. split; [done|]. split; [done|]. split.
      * intros i Hi Hex. apply Hone; [done|].
        apply Exists_cons in Hex as [Hhd|?]; [congruence|done].
      * intros i Hnex. apply Hkeep. intros Hex. apply Hnex. by right.
Qed.

(** Tactic strings outside the dictionary leave the label vector alone, so
    dropping them beforehand changes nothing. *)
Lemma multi_hot_filter (v2i : gmap string nat) (subs : list string) (t : list Q) :
  Py.for_each (production_train.mark_label v2i) t subs
  = Py.for_each (production_train.mark_label v2i) t
      (List.filter (λ s, bool_decide (is_Some (v2i !! s))) subs).
Proof.
  revert t. induction subs as [|sub subs IH]; intros t; [done|].
  simpl. destruct (v2i !! sub) as [k|] eqn:Hk.
  - rewrite bool_decide_true by eauto. simpl.
    destruct (production_train.mark_label v2i t sub); simpl; [apply IH|done].
  - rewrite bool_decide_false by (by intros [? ?]).
    unfold production_train.mark_label at 1. rewrite Hk. simpl. apply IH.
Qed.

Lemma multi_hot_vocab (vocab subs : list string) (n : nat) :
  NoDup vocab → n = length vocab →
  ∃ label,
    production_train.multi_hot n (Py.index_dict vocab) subs = Py.Ok label
    ∧ length label = length vocab
    ∧ ∀ i v, vocab !! i = Some v →
        label !! i = Some (if decide (v ∈ subs) then 1%Q else 0%Q).
Proof.
  intros Hnd ->. unfold production_train.multi_hot.
  destruct (multi_hot_loop (Py.index_dict vocab) subs (replicate (length vocab) 0%Q))
    as (label & Hrun & Hlen & Hone & Hkeep).
  { intros s i Hs. rewrite length_replicate. by eapply index_dict_in_range. }
  rewrite length_replicate in Hlen, Hone.
  exists label. split; [done|]. split; [done|].
  intros i v Hv.
  assert (Hiff : Exists (λ s, Py.index_dict vocab !! s = Some i) subs ↔ v ∈ subs).
  { rewrite Exists_exists. split.
    - intros (s & Hs & Hidx). apply index_dict_lookup in Hidx as [Hidx _].
      congruence.
    - intros Hin. exists v. split; [done|]. by apply index_dict_NoDup. }
  destruct (decide (v ∈ subs)) as [Hin|Hnin].
  - apply Hone; [by eapply lookup_lt_Some|by apply Hiff].
  - rewrite Hkeep by (by rewrite Hiff).
    apply lookup_replicate_2. by eapply lookup_lt_Some.
Qed.

(** C9. For every label of the vocabulary, [vocab_to_idx] gives an index and
    reading the vocabulary at that index gives the label back:
    [vocab[vocab_to_idx[label]] == label]. *)
Theorem label_index_roundtrip
    (data : list production_train.item)
    (tokenizer : string → nat → production_train.encoding)
    (vocab : list string) (max_length : nat) (label : string) :
  label ∈ vocab →
  ∃ ds i,
    production_train.IMODataset_init data tokenizer vocab max_length = Py.Ok ds
    ∧ production_train.vocab_to_idx ds !! label = Some i
    ∧ production_train.vocab ds !! i = Some label.
Proof.
  intros Hin.
  destruct (Py.index_dict vocab !! label) as [i|] eqn:Hi.
  - eexists _, i. split; [reflexivity|]. simpl. split; [done|].
    by apply index_dict_lookup in Hi as [Hi _].
  - by apply index_dict_lookup_None in Hi.
Qed.

Lemma label_index_roundtrip_witness :
  "Apply AM-GM" ∈ production_train.VOCAB
  ∧ ∃ ds i,
      production_train.IMODataset_init [] Samples.no_tokenizer production_train.VOCAB 256 = Py.Ok ds
      ∧ production_train.vocab_to_idx ds !! "Apply AM-GM" = Some i
      ∧ production_train.vocab ds !! i = Some "Apply AM-GM".
Proof.
  assert (H : "Apply AM-GM" ∈ production_train.VOCAB)
    by (apply (bool_decide_unpack _); vm_compute; reflexivity).
  split; [exact H|].
  exact (label_index_roundtrip [] Samples.no_tokenizer production_train.VOCAB 256 "Apply AM-GM" H).
Defined.

(** C2. With a vocabulary of distinct labels, [__getitem__] raises nothing
    and returns a label vector of length N whose entry [i] is 1 when
    [vocab[i]] is among the example's tactics and 0 otherwise; tactic strings
    that are not in the vocabulary are dropped: removing them from the
    example beforehand gives the same vector.  The dataset class of
    [train_colab_1m.py] produces the same vector. *)
Theorem label_vector_multi_hot
    (vocab : list string) (tokenizer : string → nat → production_train.encoding)
    (max_length : nat) (data : list production_train.item) (idx : nat)
    (it : production_train.item) :
  NoDup vocab →
  data !! idx = Some it →
  ∃ ds s,
    production_train.IMODataset_init data tokenizer vocab max_length = Py.Ok ds
    ∧ production_train.IMODataset_getitem ds idx = Py.Ok s
    ∧ length (production_train.labels s) = length vocab
    ∧ (∀ i v, vocab !! i = Some v →
         production_train.labels s !! i
         = Some (if decide (v ∈ production_train.subs it) then 1%Q else 0%Q))
    ∧ production_train.multi_hot (length vocab) (production_train.vocab_to_idx ds)
        (List.filter (λ sub, bool_decide (sub ∈ vocab)) (production_train.subs it))
      = Py.Ok (production_train.labels s)
    ∧ ∃ ds' s',
        train_colab_1m.SyntheticMathDataset_init (Samples.as_synthetic <$> data)
          tokenizer vocab max_length = Py.Ok ds'
        ∧ train_colab_1m.SyntheticMathDataset_getitem ds' idx = Py.Ok s'
        ∧ production_train.labels s' = production_train.labels s.
Proof.
  intros Hnd Hit.
  destruct (multi_hot_vocab vocab (production_train.subs it) (length vocab) Hnd eq_refl)
    as (label & Hrun & Hlen & Hcells).
  eexists _, _. split; [reflexivity|].
  unfold production_train.IMODataset_getitem. simpl. rewrite Hit.
  rewrite Hrun. simpl. split; [reflexivity|]. simpl.
  split; [done|]. split; [done|]. split.
  - rewrite <- Hrun. unfold production_train.multi_hot.
    rewrite (multi_hot_filter _ (production_train.subs it)). f_equal.
    apply List.filter_ext. intros sub. apply bool_decide_ext.
    rewrite <- not_eq_None_Some, index_dict_lookup_None.
    split; [intros H Hn; by apply Hn | intros H; by apply dec_stable].
  - eexists _, _. split; [reflexivity|].
    unfold train_colab_1m.SyntheticMathDataset_getitem. simpl.
    rewrite list_lookup_fmap, Hit. simpl.
    rewrite index_dict_size_NoDup by done. rewrite Hrun. simpl.
    split; reflexivity.
Qed.

Lemma label_vector_multi_hot_witness :
  NoDup production_train.VOCAB
  ∧ [Samples.item_with_unknown_tactic] !! 0 = Some Samples.item_with_unknown_tactic
  ∧ ∃ ds s,
      production_train.IMODataset_init [Samples.item_with_unknown_tactic]
        Samples.no_tokenizer production_train.VOCAB 256 = Py.Ok ds
      ∧ production_train.IMODataset_getitem ds 0 = Py.Ok s
      ∧ length (production_train.labels s) = length production_train.VOCAB.
Proof.
  assert (Hnd : NoDup production_train.VOCAB)
    by (apply (bool_decide_unpack _); vm_compute; reflexivity).
  split; [exact Hnd|]. split; [reflexivity|].
  destruct (label_vector_multi_hot production_train.VOCAB Samples.no_tokenizer 256
              [Samples.item_with_unknown_tactic] 0 Samples.item_with_unknown_tactic
              Hnd eq_refl) as (ds & s & Hinit & Hget & Hlen & _).
  exists ds, s. auto.
Defined.

(** The label vector of the sample entry: "x = 0" and "y = 0" are set,
    "z = 0" leaves no trace. *)
Example label_vector_of_sample :
  production_train.multi_hot 20 (Py.index_dict production_train.VOCAB)
    (production_train.subs Samples.item_with_unknown_tactic)
  = Py.Ok ([1; 1] ++ replicate 18 0)%Q.
Proof. vm_compute. reflexivity. Qed.

(** C8, as the code behaves.  Building the dataset never raises, whatever
    the vocabulary; the dictionary sends every label to the index of its
    last occurrence, so duplicates are collapsed onto that index. *)
Theorem duplicate_labels_collapse
    (data : list production_train.item) (data' : list train_colab_1m.item)
    (tokenizer : string → nat → production_train.encoding)
    (vocab : list string) (max_length : nat) :
  ∃ ds ds',
    production_train.IMODataset_init data tokenizer vocab max_length = Py.Ok ds
    ∧ train_colab_1m.SyntheticMathDataset_init data' tokenizer vocab max_length
      = Py.Ok ds'
    ∧ train_colab_1m.vocab_to_idx ds' = production_train.vocab_to_idx ds
    ∧ ∀ label i,
        production_train.vocab_to_idx ds !! label = Some i
        ↔ vocab !! i = Some label ∧ ∀ j, vocab !! j = Some label → j ≤ i.
Proof.
  eexists _, _. split; [reflexivity|]. split; [reflexivity|]. split; [reflexivity|].
  intros label i. simpl. apply index_dict_lookup.
Qed.

(** C8 fails on the code: a vocabulary with a repeated label is accepted
    and both positions share one dictionary entry. *)
Lemma duplicate_vocabulary_accepted :
  ¬ NoDup ["x = 0"; "x = 0"]
  ∧ ∃ ds ds',
      production_train.IMODataset_init [] Samples.no_tokenizer ["x = 0"; "x = 0"] 256
      = Py.Ok ds
      ∧ train_colab_1m.SyntheticMathDataset_init [] Samples.no_tokenizer
          ["x = 0"; "x = 0"] 256 = Py.Ok ds'
      ∧ production_train.vocab_to_idx ds = {[ "x = 0" := 1 ]}
      ∧ train_colab_1m.vocab_to_idx ds' = {[ "x = 0" := 1 ]}.
Proof.
  split.
  - intros H. apply NoDup_cons in H as [H _]. apply H. apply list_elem_of_here.
  - eexists _, _. split; [reflexivity|]. split; [reflexivity|].
    split; vm_compute; reflexivity.
Qed.

(** ** The gradient accumulation loop *)

Section LoopFacts.

Context {Batch : Type}.
Variable bce_loss : nat → Batch → Fl.fval.
Variable backward : Fl.fval → Torch.call.
Variable boundary : list Torch.call.

#[local] Abbreviation train_step := (Loop.train_step bce_loss backward boundary).
#[local] Abbreviation epoch_events := (Loop.epoch_events bce_loss backward boundary).
#[local] Abbreviation iteration_calls := (Loop.iteration_calls bce_loss backward boundary).
#[local] Abbreviation reported := (Loop.reported bce_loss).

Lemma enumerate_from_cons (k : nat) (b : Batch) (l : list Batch) :
  imap (λ i, pair (k + i)) (b :: l) = (k, b) :: imap (λ i, pair (S k + i)) l.
Proof.
  simpl. rewrite Nat.add_0_r. f_equal. apply imap_ext. intros i x _. simpl.
  f_equal. lia.
Qed.

(** The loop never raises when the accumulation factor is not zero; its log
    grows by the events of each iteration and its running total by what
    each iteration reports. *)
Lemma train_loop_run (K k : nat) (l : list Batch) (st : Loop.loop_state) :
  K ≠ 0 →
  Py.for_each (train_step K) st (imap (λ i, pair (k + i)) l)
  = Py.Ok {| Loop.calls := Loop.calls st ++ epoch_events K k l;
             Loop.total_loss :=
               foldl Fl.add (Loop.total_loss st) (imap (λ i, reported K (k + i)) l) |}.
Proof.
  intros HK. revert k st. induction l as [|b l IH]; intros k st.
  - simpl. rewrite app_nil_r. by destruct st.
  - rewrite enumerate_from_cons. simpl.
    unfold Loop.train_step at 1. simpl. unfold Loop.py_mod.
    destruct (Nat.eqb_spec K 0) as [?|_]; [done|].
    etrans; [apply (IH (S k))|]. cbn [Loop.calls Loop.total_loss]. f_equal. f_equal.
    + unfold Loop.iteration_calls.
      destruct (Nat.eqb ((k + 1) mod K) 0); cbn [Loop.epoch_events];
        unfold Loop.at_iteration; rewrite ?fmap_app, <- ?app_assoc; reflexivity.
    + simpl. rewrite Nat.add_0_r. f_equal.
      apply imap_ext. intros i x _. simpl. f_equal. lia.
Qed.

Lemma train_epoch_run (K : nat) (loader : list Batch) :
  K ≠ 0 → loader ≠ [] →
  Loop.train_epoch bce_loss backward boundary loader K
  = Py.Ok ([(None, Torch.ModelTrain); (None, Torch.ZeroGrad)] ++ epoch_events K 0 loader,
           Fl.div_nat (Fl.sum (imap (reported K) loader)) (length loader)).
Proof.
  intros HK Hne. unfold Loop.train_epoch, Py.enumerate.
  change (imap pair loader) with (imap (λ i, pair (0 + i)) loader).
  rewrite (train_loop_run K 0 loader Loop.init_state HK).
  unfold Fl.pydiv_nat. destruct loader as [|b l]; [done|]. reflexivity.
Qed.

Lemma at_iteration_calls (i : nat) (cs : list Torch.call) :
  (Loop.at_iteration i cs).*2 = cs.
Proof.
  unfold Loop.at_iteration.
  induction cs as [|c cs IH]; [done|]. rewrite !fmap_cons. simpl. by f_equal.
Qed.

Lemma filter_at_iteration (i j : nat) (cs : list Torch.call) :
  List.filter (Torch.tagged i) (Loop.at_iteration j cs)
  = if Nat.eqb i j then Loop.at_iteration j cs else [].
Proof.
  unfold Loop.at_iteration.
  induction cs as [|c cs IH]; [by destruct (Nat.eqb i j)|].
  rewrite fmap_cons. cbn [List.filter]. rewrite IH.
  unfold Torch.tagged. simpl. by destruct (Nat.eqb i j).
Qed.

Lemma calls_of_iteration_app (i : nat) (l1 l2 : list Torch.event) :
  Torch.calls_of_iteration i (l1 ++ l2)
  = Torch.calls_of_iteration i l1 ++ Torch.calls_of_iteration i l2.
Proof. unfold Torch.calls_of_iteration. by rewrite List.filter_app, fmap_app. Qed.

Lemma calls_of_earlier_iteration (K k i : nat) (l : list Batch) :
  i < k → Torch.calls_of_iteration i (epoch_events K k l) = [].
Proof.
  revert k. induction l as [|b l IH]; intros k Hlt; [done|].
  cbn [Loop.epoch_events]. rewrite calls_of_iteration_app, IH by lia.
  unfold Torch.calls_of_iteration. rewrite filter_at_iteration.
  destruct (Nat.eqb_spec i k); [lia|done].
Qed.

(** The calls tagged [k + j] are exactly those of the iteration on the
    [j]-th batch. *)
Lemma calls_of_iteration_events (K k j : nat) (l : list Batch) (b : Batch) :
  l !! j = Some b →
  Torch.calls_of_iteration (k + j) (epoch_events K k l) = iteration_calls K (k + j) b.
Proof.
  revert k j. induction l as [|b' l IH]; intros k j Hj; [done|].
  cbn [Loop.epoch_events]. rewrite calls_of_iteration_app.
  destruct j as [|j]; simpl in Hj.
  - injection Hj as ->. rewrite Nat.add_0_r.
    rewrite calls_of_earlier_iteration by lia. rewrite app_nil_r.
    unfold Torch.calls_of_iteration. rewrite filter_at_iteration, Nat.eqb_refl.
    apply at_iteration_calls.
  - replace (k + S j) with (S k + j) by lia. rewrite (IH _ _ Hj).
    unfold Torch.calls_of_iteration at 1. rewrite filter_at_iteration.
    destruct (Nat.eqb_spec (S k + j) k); [lia|done].
Qed.

Lemma epoch_events_snoc (K k : nat) (l : list Batch) (b : Batch) :
  epoch_events K k (l ++ [b])
  = epoch_events K k l
    ++ Loop.at_iteration (k + length l) (iteration_calls K (k + length l) b).
Proof.
  revert k. induction l as [|b' l IH]; intros k; simpl.
  - by rewrite Nat.add_0_r, app_nil_r.
  - rewrite IH, <- app_assoc.
    by replace (k + S (length l)) with (S k + length l) by lia.
Qed.

(** The events of an epoch are the iterations' calls, one iteration after
    the other. *)
Lemma epoch_events_in_order (K : nat) (l : list Batch) (F : nat → list Torch.call) :
  (∀ i b, l !! i = Some b → F i = iteration_calls K i b) →
  epoch_events K 0 l = concat ((λ i, Loop.at_iteration i (F i)) <$> seq 0 (length l)).
Proof.
  induction l as [|b l IH] using rev_ind; intros HF; [done|].
  rewrite epoch_events_snoc, length_app, seq_app, fmap_app, concat_app.
  rewrite IH by (intros i b' Hi; apply HF; by apply lookup_app_l_Some).
  cbn [length seq fmap list_fmap concat Nat.add]. rewrite app_nil_r.
  rewrite (HF (length l) b) by (by rewrite lookup_app_r, Nat.sub_diag).
  reflexivity.
Qed.

(** The accumulation schedule of the loop, for any backward call and any
    boundary calls. *)
Lemma accumulation_schedule (K : nat) (loader : list Batch) :
  K ≠ 0 → loader ≠ [] →
  ∃ log avg,
    Loop.train_epoch bce_loss backward boundary loader K = Py.Ok (log, avg)
    ∧ log = [(None, Torch.ModelTrain); (None, Torch.ZeroGrad)] ++ epoch_events K 0 loader
    ∧ avg = Fl.div_nat (Fl.sum (imap (reported K) loader)) (length loader)
    ∧ (∀ i b, loader !! i = Some b →
         Torch.calls_of_iteration i log = iteration_calls K i b)
    ∧ log = [(None, Torch.ModelTrain); (None, Torch.ZeroGrad)]
            ++ concat ((λ i, Loop.at_iteration i (Torch.calls_of_iteration i log))
                         <$> seq 0 (length loader)).
Proof.
  intros HK Hne. eexists _, _. split; [by apply train_epoch_run|].
  split; [done|]. split; [done|].
  assert (Hcalls : ∀ i b, loader !! i = Some b →
            Torch.calls_of_iteration i
              ([(None, Torch.ModelTrain); (None, Torch.ZeroGrad)] ++ epoch_events K 0 loader)
            = iteration_calls K i b).
  { intros i b Hi. rewrite calls_of_iteration_app. simpl.
    apply (calls_of_iteration_events K 0 i loader b Hi). }
  split; [done|]. f_equal. by apply epoch_events_in_order.
Qed.

End LoopFacts.

Lemma div_nat_scales (q : Q) (K : nat) :
  K ≠ 0 →
  ∃ q', Fl.div_nat (Fl.Fin q) K = Fl.Fin q' ∧ (q' == q * (1 / Fl.of_nat K))%Q.
Proof.
  intros HK. unfold Fl.div_nat. destruct (Nat.eqb_spec K 0) as [?|_]; [done|].
  eexists. split; [reflexivity|]. unfold Qdiv. ring.
Qed.

(** C1. For every accumulation factor K >= 1 and every micro-batch [i] of
    the loader, both trainers run the backward pass on the loss divided by K
    (for a finite loss: the loss times 1/K), and the iteration ends with the
    optimizer step, the scheduler step and [zero_grad], in this order,
    exactly when (i+1) mod K = 0; otherwise nothing follows the backward
    pass.  The log of the epoch is the two opening calls followed by the
    iterations in order. *)
Theorem accumulation_steps_every_Kth {Batch : Type}
    (bce_loss : nat → Batch → Fl.fval) (loader : list Batch) (K i : nat) (b : Batch) :
  1 ≤ K →
  loader !! i = Some b →
  ∃ log avg log' avg' scaled,
    production_train.train_epoch bce_loss loader K = Py.Ok (log, avg)
    ∧ train_colab_fixed.train_epoch bce_loss loader K = Py.Ok (log', avg')
    ∧ scaled = Fl.div_nat (bce_loss i b) K
    ∧ (∀ q, bce_loss i b = Fl.Fin q →
         ∃ q', scaled = Fl.Fin q' ∧ (q' == q * (1 / Fl.of_nat K))%Q)
    ∧ Torch.calls_of_iteration i log
      = [Torch.Forward (bce_loss i b); Torch.Backward scaled]
        ++ (if Nat.eqb ((i + 1) mod K) 0
            then [Torch.ClipGradNorm; Torch.OptimizerStep; Torch.SchedulerStep;
                  Torch.ZeroGrad]
            else [])
    ∧ Torch.calls_of_iteration i log'
      = [Torch.Forward (bce_loss i b); Torch.ScaledBackward scaled]
        ++ (if Nat.eqb ((i + 1) mod K) 0
            then [Torch.ScalerUnscale; Torch.ClipGradNorm; Torch.ScalerStep;
                  Torch.ScalerUpdate; Torch.SchedulerStep; Torch.ZeroGrad]
            else [])
    ∧ log = [(None, Torch.ModelTrain); (None, Torch.ZeroGrad)]
            ++ concat ((λ j, Loop.at_iteration j (Torch.calls_of_iteration j log))
                         <$> seq 0 (length loader))
    ∧ log' = [(None, Torch.ModelTrain); (None, Torch.ZeroGrad)]
             ++ concat ((λ j, Loop.at_iteration j (Torch.calls_of_iteration j log'))
                          <$> seq 0 (length loader)).
Proof.
  intros HK Hi.
  assert (HK0 : K ≠ 0) by lia.
  assert (Hne : loader ≠ []) by (intros ->; by rewrite lookup_nil in Hi).
  destruct (accumulation_schedule bce_loss Torch.Backward
              [Torch.ClipGradNorm; Torch.OptimizerStep; Torch.SchedulerStep; Torch.ZeroGrad]
              K loader HK0 Hne) as (log & avg & Hrun & _ & _ & Hcalls & Horder).
  destruct (accumulation_schedule bce_loss Torch.ScaledBackward
              [Torch.ScalerUnscale; Torch.ClipGradNorm; Torch.ScalerStep;
               Torch.ScalerUpdate; Torch.SchedulerStep; Torch.ZeroGrad]
              K loader HK0 Hne) as (log' & avg' & Hrun' & _ & _ & Hcalls' & Horder').
  exists log, avg, log', avg', (Fl.div_nat (bce_loss i b) K).
  split; [exact Hrun|]. split; [exact Hrun'|]. split; [reflexivity|]. split.
  { intros q ->. by apply div_nat_scales. }
  split; [exact (Hcalls i b Hi)|]. split; [exact (Hcalls' i b Hi)|].
  split; [exact Horder|exact Horder'].
Qed.

Lemma accumulation_steps_every_Kth_witness :
  1 ≤ 2
  ∧ Samples.five_batches !! 3 = Some (Fl.Fin 7)
  ∧ ∃ log avg,
      production_train.train_epoch Samples.loss_of_batch Samples.five_batches 2
      = Py.Ok (log, avg)
      ∧ Torch.calls_of_iteration 3 log
        = [Torch.Forward (Fl.Fin 7); Torch.Backward (Fl.div_nat (Fl.Fin 7) 2);
           Torch.ClipGradNorm; Torch.OptimizerStep; Torch.SchedulerStep; Torch.ZeroGrad].
Proof.
  assert (H1 : 1 ≤ 2) by lia.
  split; [exact H1|]. split; [reflexivity|].
  destruct (accumulation_steps_every_Kth Samples.loss_of_batch Samples.five_batches
              2 3 (Fl.Fin 7) H1 eq_refl)
    as (log & avg & _ & _ & scaled & Hrun & _ & -> & _ & Hcalls & _).
  exists log, avg. split; [exact Hrun|exact Hcalls].
Defined.

(** The log of one epoch over five micro-batches with K = 2: steps after
    the second and the fourth backward pass, none after the fifth. *)
Example train_epoch_five_batches :
  (production_train.train_epoch Samples.loss_of_batch Samples.five_batches 2
   ≫= λ r, mret (r.1.*2))
  = Py.Ok
      [Torch.ModelTrain; Torch.ZeroGrad;
       Torch.Forward (Fl.Fin 1); Torch.Backward (Fl.Fin (1 / 2));
       Torch.Forward (Fl.Fin 3); Torch.Backward (Fl.Fin (3 / 2));
       Torch.ClipGradNorm; Torch.OptimizerStep; Torch.SchedulerStep; Torch.ZeroGrad;
       Torch.Forward (Fl.Fin 5); Torch.Backward (Fl.Fin (5 / 2));
       Torch.Forward (Fl.Fin 7); Torch.Backward (Fl.Fin (7 / 2));
       Torch.ClipGradNorm; Torch.OptimizerStep; Torch.SchedulerStep; Torch.ZeroGrad;
       Torch.Forward (Fl.Fin 9); Torch.Backward (Fl.Fin (9 / 2))]%Q.
Proof. reflexivity. Qed.

(** ** Gradient buffers and reported loss *)

Lemma succ_mod_nonzero (K n : nat) :
  K ≠ 0 → (n + 1) mod K ≠ 0 → (n + 1) mod K = n mod K + 1.
Proof.
  intros HK Hnz.
  pose proof (Nat.div_mod_eq n K) as Hn.
  pose proof (Nat.mod_upper_bound n K HK) as Hr.
  destruct (decide (n mod K + 1 = K)) as [Heq|Hne].
  - exfalso. apply Hnz.
    replace (n + 1) with (0 + (n / K + 1) * K) by nia.
    rewrite Nat.Div0.mod_add. apply Nat.Div0.mod_0_l.
  - symmetry. apply (Nat.mod_unique (n + 1) K (n / K)); lia.
Qed.

Lemma trailing_index_no_boundary (K n i : nat) :
  K ≠ 0 → n - n mod K ≤ i → i < n → Nat.eqb ((i + 1) mod K) 0 = false.
Proof.
  intros HK Hlo Hhi. apply Nat.eqb_neq. intros H0.
  pose proof (Nat.div_mod_eq n K) as Hn.
  pose proof (Nat.mod_upper_bound n K HK) as Hr.
  pose proof (Nat.div_mod_eq (i + 1) K) as Hi. rewrite H0 in Hi.
  assert (n / K < (i + 1) / K) by nia.
  assert ((i + 1) / K < n / K + 1) by nia.
  lia.
Qed.

Lemma update_step_acc (log : list Torch.event)
    (buf : list (option nat * Fl.fval)) (acc : list (list (option nat * Fl.fval))) :
  foldl Torch.update_step (buf, acc) log
  = (foldl Torch.grad_step buf log,
     acc ++ (foldl Torch.update_step (buf, []) log).2).
Proof.
  revert buf acc. induction log as [|e log IH]; intros buf acc.
  - simpl. by rewrite app_nil_r.
  - cbn [foldl].
    change (Torch.update_step (buf, acc) e)
      with (Torch.grad_step buf e,
            if Torch.is_optimizer_step e.2 then acc ++ [buf] else acc).
    change (Torch.update_step (buf, []) e)
      with (Torch.grad_step buf e,
            if Torch.is_optimizer_step e.2 then [] ++ [buf] else []).
    rewrite IH. rewrite (IH _ (if Torch.is_optimizer_step e.2 then _ else _)).
    cbn [fst snd]. f_equal. destruct (Torch.is_optimizer_step e.2); [|done].
    by rewrite <- app_assoc.
Qed.

Lemma update_step_no_step (mid : list Torch.event)
    (buf : list (option nat * Fl.fval)) :
  Forall (λ e, Torch.is_optimizer_step e.2 = false) mid →
  (foldl Torch.update_step (buf, []) mid).2 = [].
Proof.
  intros Hmid. revert buf. induction Hmid as [|e mid He _ IH]; intros buf; [done|].
  cbn [foldl].
  change (Torch.update_step (buf, []) e)
    with (Torch.grad_step buf e,
          if Torch.is_optimizer_step e.2 then [] ++ [buf] else []).
  rewrite He. apply IH.
Qed.

Lemma update_step_prologue (buf : list (option nat * Fl.fval))
    (acc : list (list (option nat * Fl.fval))) :
  Torch.update_step (Torch.update_step (buf, acc) (None, Torch.ModelTrain))
    (None, Torch.ZeroGrad)
  = ([], acc).
Proof. reflexivity. Qed.

(** An epoch that opens with [zero_grad] sees nothing of what was left in
    the gradient buffers: the updates of the whole run are those of the
    earlier log followed by those of the new epoch alone. *)
Lemma applied_updates_restart (log mid rest : list Torch.event) :
  Forall (λ e, Torch.is_optimizer_step e.2 = false) mid →
  Torch.applied_updates
    (log ++ mid ++ (None, Torch.ModelTrain) :: (None, Torch.ZeroGrad) :: rest)
  = Torch.applied_updates log
    ++ Torch.applied_updates ((None, Torch.ModelTrain) :: (None, Torch.ZeroGrad) :: rest).
Proof.
  intros Hmid. unfold Torch.applied_updates.
  rewrite !foldl_app.
  rewrite (update_step_acc log). rewrite (update_step_acc mid).
  rewrite (update_step_no_step mid) by done. cbn [foldl].
  rewrite !update_step_prologue, update_step_acc.
  cbn [fst snd]. by rewrite app_nil_r.
Qed.

Lemma grad_buffer_restart (log : list Torch.event) :
  Torch.grad_buffer (log ++ [(None, Torch.ModelTrain); (None, Torch.ZeroGrad)]) = [].
Proof. unfold Torch.grad_buffer. rewrite foldl_app. reflexivity. Qed.

Section BufferFacts.

Context {Batch : Type}.
Variable bce_loss : nat → Batch → Fl.fval.
Variable backward : Fl.fval → Torch.call.
Variable boundary : list Torch.call.

(** What the two trainers have in common: the backward call adds to the
    gradient buffers and the calls at a boundary leave them empty. *)
Hypothesis backward_adds :
  ∀ buf tag l, Torch.grad_step buf (tag, backward l) = buf ++ [(tag, l)].
Hypothesis boundary_clears :
  ∀ buf i, foldl Torch.grad_step buf (Loop.at_iteration i boundary) = [].

#[local] Abbreviation epoch_events := (Loop.epoch_events bce_loss backward boundary).
#[local] Abbreviation contribution := (Loop.contribution bce_loss).

(** After an epoch the buffers hold the gradients of the micro-batches that
    followed the last boundary: the last [n mod K] ones. *)
Lemma grad_buffer_epoch (K : nat) (loader : list Batch) :
  K ≠ 0 →
  Torch.grad_buffer
    ([(None, Torch.ModelTrain); (None, Torch.ZeroGrad)] ++ epoch_events K 0 loader)
  = drop (length loader - length loader mod K) (imap (contribution K) loader).
Proof.
  intros HK. induction loader as [|b l IH] using rev_ind; [done|].
  rewrite epoch_events_snoc, app_assoc. unfold Torch.grad_buffer in *.
  rewrite foldl_app, IH. clear IH.
  rewrite length_app, imap_app. cbn [length imap Nat.add].
  rewrite Nat.add_0_r.
  set (n := length l). unfold Loop.iteration_calls, Loop.at_iteration.
  rewrite fmap_app, foldl_app. cbn [fmap list_fmap foldl].
  rewrite backward_adds.
  change (Torch.grad_step ?buf (Some n, Torch.Forward ?x)) with buf.
  destruct (Nat.eqb_spec ((n + 1) mod K) 0) as [H0|Hnz].
  - fold (Loop.at_iteration n boundary). rewrite boundary_clears.
    rewrite H0, Nat.sub_0_r. symmetry. apply drop_ge.
    rewrite length_app, length_imap. simpl. lia.
  - cbn [fmap list_fmap foldl].
    rewrite (succ_mod_nonzero K n HK Hnz).
    replace (n + 1 - (n mod K + 1)) with (n - n mod K) by lia.
    rewrite drop_app_le by (rewrite length_imap; lia).
    reflexivity.
Qed.

Lemma train_loop_log_extends (K : nat) (l : list (nat * Batch))
    (st st' : Loop.loop_state) :
  Py.for_each (Loop.train_step bce_loss backward boundary K) st l = Py.Ok st' →
  ∃ rest, Loop.calls st' = Loop.calls st ++ rest.
Proof.
  revert st. induction l as [|ib l IH]; intros st Hrun.
  - injection Hrun as <-. exists []. by rewrite app_nil_r.
  - cbn [Py.for_each] in Hrun.
    destruct (Loop.train_step bce_loss backward boundary K st ib) as [st1|e] eqn:Hstep;
      [|done].
    apply IH in Hrun as [rest Hrest].
    unfold Loop.train_step in Hstep.
    destruct (Loop.py_mod (ib.1 + 1) K) as [r|e]; [|done].
    injection Hstep as <-. cbn [Loop.calls] in Hrest.
    destruct (Nat.eqb r 0); rewrite Hrest, <- ?app_assoc; eauto.
Qed.

(** Every log of [train_epoch] opens with [model.train()] and
    [optimizer.zero_grad()]. *)
Lemma train_epoch_log_opens (K : nat) (loader : list Batch)
    (log : list Torch.event) (avg : Fl.fval) :
  Loop.train_epoch bce_loss backward boundary loader K = Py.Ok (log, avg) →
  ∃ rest, log = (None, Torch.ModelTrain) :: (None, Torch.ZeroGrad) :: rest.
Proof.
  unfold Loop.train_epoch. intros Hrun.
  destruct (Py.for_each _ Loop.init_state (Py.enumerate loader)) as [st|e] eqn:Hloop;
    [|done].
  apply train_loop_log_extends in Hloop as [rest Hrest].
  cbn in Hrun. destruct (Fl.pydiv_nat _ _); [|done].
  injection Hrun as <- _. exists rest. by rewrite Hrest.
Qed.

End BufferFacts.

(** ** Finite and non-finite totals *)

Lemma foldl_add_finite (xs : list Fl.fval) (qs : list Q) (a : Q) :
  Forall2 (λ x q, ∃ q', x = Fl.Fin q' ∧ (q' == q)%Q) xs qs →
  ∃ s, foldl Fl.add (Fl.Fin a) xs = Fl.Fin s ∧ (s == a + Fl.Qsum qs)%Q.
Proof.
  intros H. revert a. induction H as [|x q xs qs (q' & -> & Hq) _ IH]; intros a.
  - exists a. split; [done|]. simpl. ring.
  - simpl. destruct (IH (a + q')%Q) as (s & -> & Hs).
    exists s. split; [done|]. rewrite Hs, Hq. ring.
Qed.

Lemma reported_finite {Batch : Type} (bce_loss : nat → Batch → Fl.fval)
    (K i : nat) (b : Batch) (q : Q) :
  K ≠ 0 → bce_loss i b = Fl.Fin q →
  ∃ q', Loop.reported bce_loss K i b = Fl.Fin q' ∧ (q' == q)%Q.
Proof.
  intros HK Hq. unfold Loop.reported, Fl.div_nat. rewrite Hq.
  destruct (Nat.eqb_spec K 0) as [?|_]; [done|].
  eexists. split; [reflexivity|]. field.
  unfold Fl.of_nat, Qeq. simpl. lia.
Qed.

Lemma add_nonfinite_l (x y : Fl.fval) :
  Fl.is_finite x = false → Fl.is_finite (Fl.add x y) = false.
Proof. by destruct x, y. Qed.

Lemma add_nonfinite_r (x y : Fl.fval) :
  Fl.is_finite y = false → Fl.is_finite (Fl.add x y) = false.
Proof. by destruct x, y. Qed.

Lemma foldl_add_nonfinite_acc (xs : list Fl.fval) (acc : Fl.fval) :
  Fl.is_finite acc = false → Fl.is_finite (foldl Fl.add acc xs) = false.
Proof.
  revert acc. induction xs as [|x xs IH]; intros acc Hacc; [done|].
  simpl. apply IH. by apply add_nonfinite_l.
Qed.

Lemma foldl_add_nonfinite (xs : list Fl.fval) (acc : Fl.fval) (i : nat) (x : Fl.fval) :
  xs !! i = Some x → Fl.is_finite x = false →
  Fl.is_finite (foldl Fl.add acc xs) = false.
Proof.
  revert acc i. induction xs as [|y xs IH]; intros acc i Hi Hx; [done|].
  destruct i as [|i]; simpl in *.
  - injection Hi as ->. apply foldl_add_nonfinite_acc. by apply add_nonfinite_r.
  - by eapply IH.
Qed.

Lemma reported_nonfinite {Batch : Type} (bce_loss : nat → Batch → Fl.fval)
    (K i : nat) (b : Batch) :
  K ≠ 0 → Fl.is_finite (bce_loss i b) = false →
  Fl.is_finite (Loop.reported bce_loss K i b) = false.
Proof.
  intros HK. unfold Loop.reported.
  destruct (bce_loss i b); [done| | |]; intros _; simpl;
    by destruct (Nat.eqb_spec K 0).
Qed.

Lemma div_nat_nonfinite (x : Fl.fval) (n : nat) :
  Fl.is_finite x = false → Fl.is_finite (Fl.div_nat x n) = false.
Proof. by destruct x. Qed.

Section TrailingFacts.

Context {Batch : Type}.
Variable bce_loss : nat → Batch → Fl.fval.
Variable backward : Fl.fval → Torch.call.
Variable boundary : list Torch.call.
Hypothesis backward_adds :
  ∀ buf tag l, Torch.grad_step buf (tag, backward l) = buf ++ [(tag, l)].
Hypothesis boundary_clears :
  ∀ buf i, foldl Torch.grad_step buf (Loop.at_iteration i boundary) = [].

Lemma average_of_finite_losses (K : nat) (loader : list Batch) (qs : list Q) :
  K ≠ 0 → loader ≠ [] →
  imap bce_loss loader = Fl.Fin <$> qs →
  ∃ a, Fl.div_nat (Fl.sum (imap (Loop.reported bce_loss K) loader)) (length loader)
       = Fl.Fin a
       ∧ (a == Fl.Qsum qs / Fl.of_nat (length loader))%Q.
Proof.
  intros HK Hne Hqs.
  destruct (foldl_add_finite (imap (Loop.reported bce_loss K) loader) qs 0)
    as (s & Hs & Hsum).
  { apply Forall2_same_length_lookup_2.
    - apply (f_equal length) in Hqs. by rewrite length_imap, length_fmap in *.
    - intros i x q Hx Hq.
      rewrite list_lookup_imap in Hx.
      destruct (loader !! i) as [b|] eqn:Hb; [|done]. injection Hx as <-.
      apply (reported_finite bce_loss K i b q HK).
      apply (f_equal (λ l, l !! i)) in Hqs.
      rewrite list_lookup_imap, list_lookup_fmap, Hb, Hq in Hqs. simpl in Hqs.
      congruence. }
  unfold Fl.sum. rewrite Hs. unfold Fl.div_nat.
  destruct (Nat.eqb_spec (length loader) 0) as [H0|_].
  - by destruct loader.
  - eexists. split; [reflexivity|]. rewrite Hsum. unfold Qdiv. ring.
Qed.

Lemma trailing_schedule (K : nat) (loader : list Batch) :
  K ≠ 0 → loader ≠ [] →
  ∃ log avg,
    Loop.train_epoch bce_loss backward boundary loader K = Py.Ok (log, avg)
    ∧ (∀ i b, length loader - length loader mod K ≤ i → loader !! i = Some b →
         Torch.calls_of_iteration i log
         = [Torch.Forward (bce_loss i b); backward (Fl.div_nat (bce_loss i b) K)])
    ∧ Torch.grad_buffer log
      = drop (length loader - length loader mod K)
          (imap (Loop.contribution bce_loss K) loader)
    ∧ avg = Fl.div_nat (Fl.sum (imap (Loop.reported bce_loss K) loader)) (length loader).
Proof.
  intros HK Hne.
  destruct (accumulation_schedule bce_loss backward boundary K loader HK Hne)
    as (log & avg & Hrun & Hlog & Havg & Hcalls & _).
  exists log, avg. split; [done|]. split; [|split; [|done]].
  - intros i b Hlo Hi. rewrite (Hcalls i b Hi). unfold Loop.iteration_calls.
    rewrite (trailing_index_no_boundary K (length loader) i HK Hlo)
      by (by eapply lookup_lt_Some).
    reflexivity.
  - rewrite Hlog. by apply grad_buffer_epoch.
Qed.

Lemma next_epoch_discards {Batch' : Type} (bce_loss' : nat → Batch' → Fl.fval)
    (loader' : list Batch') (K' : nat) (log mid next : list Torch.event)
    (avg_next : Fl.fval) :
  Loop.train_epoch bce_loss' backward boundary loader' K' = Py.Ok (next, avg_next) →
  Forall (λ e, Torch.is_optimizer_step e.2 = false) mid →
  Torch.grad_buffer (log ++ mid ++ take 2 next) = []
  ∧ Torch.applied_updates (log ++ mid ++ next)
    = Torch.applied_updates log ++ Torch.applied_updates next.
Proof.
  intros Hrun Hmid. apply train_epoch_log_opens in Hrun as [rest ->]. split.
  - cbn [take]. rewrite app_assoc. apply grad_buffer_restart.
  - by apply applied_updates_restart.
Qed.

End TrailingFacts.

(** C10. With K >= 1 and [n] micro-batches, the last [n mod K] iterations of
    an epoch consist of the forward and the backward pass only: no optimizer
    step, no scheduler step.  At the end of the epoch the gradient buffers
    hold exactly their (scaled) backward passes.  The next epoch opens with
    [zero_grad], so the buffers are empty before its first micro-batch and
    its optimizer steps apply gradients of that epoch only, whatever calls
    without an optimizer step (the evaluation) lie in between.  The reported
    average still sums one term per micro-batch, the trailing ones
    included; for finite losses it is the mean of all [n] losses. *)
Theorem trailing_micro_batches_discarded {Batch : Type}
    (bce_loss : nat → Batch → Fl.fval) (loader : list Batch) (K : nat) :
  1 ≤ K →
  loader ≠ [] →
  let n := length loader in
  ∃ log avg log' avg',
    production_train.train_epoch bce_loss loader K = Py.Ok (log, avg)
    ∧ train_colab_fixed.train_epoch bce_loss loader K = Py.Ok (log', avg')
    ∧ (∀ i b, n - n mod K ≤ i → loader !! i = Some b →
         Torch.calls_of_iteration i log
         = [Torch.Forward (bce_loss i b);
            Torch.Backward (Fl.div_nat (bce_loss i b) K)]
         ∧ Torch.calls_of_iteration i log'
           = [Torch.Forward (bce_loss i b);
              Torch.ScaledBackward (Fl.div_nat (bce_loss i b) K)])
    ∧ Torch.grad_buffer log
      = drop (n - n mod K) (imap (λ i b, (Some i, Fl.div_nat (bce_loss i b) K)) loader)
    ∧ Torch.grad_buffer log' = Torch.grad_buffer log
    ∧ (∀ (Batch' : Type) (bce_loss' : nat → Batch' → Fl.fval) (loader' : list Batch')
         (K' : nat) (mid next : list Torch.event) (avg_next : Fl.fval),
         Forall (λ e, Torch.is_optimizer_step e.2 = false) mid →
         (production_train.train_epoch bce_loss' loader' K' = Py.Ok (next, avg_next) →
          Torch.grad_buffer (log ++ mid ++ take 2 next) = []
          ∧ Torch.applied_updates (log ++ mid ++ next)
            = Torch.applied_updates log ++ Torch.applied_updates next)
         ∧ (train_colab_fixed.train_epoch bce_loss' loader' K' = Py.Ok (next, avg_next) →
            Torch.grad_buffer (log' ++ mid ++ take 2 next) = []
            ∧ Torch.applied_updates (log' ++ mid ++ next)
              = Torch.applied_updates log' ++ Torch.applied_updates next))
    ∧ avg' = avg
    ∧ avg = Fl.div_nat
              (Fl.sum (imap (λ i b, Fl.mul_nat (Fl.div_nat (bce_loss i b) K) K) loader)) n
    ∧ (∀ qs, imap bce_loss loader = Fl.Fin <$> qs →
         ∃ a, avg = Fl.Fin a ∧ (a == Fl.Qsum qs / Fl.of_nat n)%Q).
Proof.
  intros HK Hne n.
  assert (HK0 : K ≠ 0) by lia.
  destruct (trailing_schedule bce_loss Torch.Backward
              [Torch.ClipGradNorm; Torch.OptimizerStep; Torch.SchedulerStep; Torch.ZeroGrad]
              (λ _ _ _, eq_refl) (λ _ _, eq_refl) K loader HK0 Hne)
    as (log & avg & Hrun & Htail & Hbuf & Havg).
  destruct (trailing_schedule bce_loss Torch.ScaledBackward
              [Torch.ScalerUnscale; Torch.ClipGradNorm; Torch.ScalerStep;
               Torch.ScalerUpdate; Torch.SchedulerStep; Torch.ZeroGrad]
              (λ _ _ _, eq_refl) (λ _ _, eq_refl) K loader HK0 Hne)
    as (log' & avg' & Hrun' & Htail' & Hbuf' & Havg').
  exists log, avg, log', avg'.
  split; [exact Hrun|]. split; [exact Hrun'|]. split.
  { intros i b Hlo Hi. split; [by apply Htail|by apply Htail']. }
  split; [exact Hbuf|]. split; [by rewrite Hbuf, Hbuf'|]. split.
  { intros Batch' bce_loss' loader' K' mid next avg_next Hmid. split; intros Hnext.
    - by apply (next_epoch_discards _ _ bce_loss' loader' K' log mid next avg_next Hnext).
    - by apply (next_epoch_discards _ _ bce_loss' loader' K' log' mid next avg_next Hnext). }
  split; [by rewrite Havg, Havg'|]. split; [exact Havg|].
  intros qs Hqs. rewrite Havg. by apply average_of_finite_losses.
Qed.

Lemma trailing_micro_batches_discarded_witness :
  1 ≤ 2
  ∧ Samples.five_batches ≠ []
  ∧ ∃ log avg,
      production_train.train_epoch Samples.loss_of_batch Samples.five_batches 2
      = Py.Ok (log, avg)
      ∧ Torch.calls_of_iteration 4 log
        = [Torch.Forward (Fl.Fin 9); Torch.Backward (Fl.div_nat (Fl.Fin 9) 2)]
      ∧ Torch.grad_buffer log = [(Some 4, Fl.div_nat (Fl.Fin 9) 2)].
Proof.
  assert (H1 : 1 ≤ 2) by lia.
  assert (H2 : Samples.five_batches ≠ []) by discriminate.
  split; [exact H1|]. split; [exact H2|].
  destruct (trailing_micro_batches_discarded Samples.loss_of_batch Samples.five_batches
              2 H1 H2)
    as (log & avg & log' & avg' & Hrun & _ & Htail & Hbuf & _).
  exists log, avg. split; [exact Hrun|]. split; [|exact Hbuf].
  apply (Htail 4 (Fl.Fin 9)); [vm_compute; lia|reflexivity].
Defined.

(** C7, as the code behaves.  A non-finite loss never makes [train_epoch]
    raise: with K >= 1 the epoch runs to its end, every micro-batch of the
    loader (those after the non-finite loss too) gets its forward and
    backward pass, the trainer still makes its boundary calls at every K-th
    micro-batch ([optimizer.step()] in [production_train.py],
    [scaler.step(optimizer)] in [train_colab_fixed.py], and
    [scheduler.step()] in both), and the average loss that is returned is
    not finite.  Whether [scaler.step] then updates the parameters is the
    gradient scaler's decision ([Torch.scaler_update_step]); the trainer
    itself never looks at the loss. *)
Theorem nonfinite_loss_does_not_abort {Batch : Type}
    (bce_loss : nat → Batch → Fl.fval) (loader : list Batch) (K i : nat) (b : Batch) :
  1 ≤ K →
  loader !! i = Some b →
  Fl.is_finite (bce_loss i b) = false →
  ∃ log avg log' avg',
    production_train.train_epoch bce_loss loader K = Py.Ok (log, avg)
    ∧ train_colab_fixed.train_epoch bce_loss loader K = Py.Ok (log', avg')
    ∧ Fl.is_finite avg = false
    ∧ Fl.is_finite avg' = false
    ∧ ∀ j b', loader !! j = Some b' →
        Torch.calls_of_iteration j log
        = [Torch.Forward (bce_loss j b');
           Torch.Backward (Fl.div_nat (bce_loss j b') K)]
          ++ (if Nat.eqb ((j + 1) mod K) 0
              then [Torch.ClipGradNorm; Torch.OptimizerStep; Torch.SchedulerStep;
                    Torch.ZeroGrad]
              else [])
        ∧ Torch.calls_of_iteration j log'
          = [Torch.Forward (bce_loss j b');
             Torch.ScaledBackward (Fl.div_nat (bce_loss j b') K)]
            ++ (if Nat.eqb ((j + 1) mod K) 0
                then [Torch.ScalerUnscale; Torch.ClipGradNorm; Torch.ScalerStep;
                      Torch.ScalerUpdate; Torch.SchedulerStep; Torch.ZeroGrad]
                else []).
Proof.
  intros HK Hi Hnf.
  assert (HK0 : K ≠ 0) by lia.
  assert (Hne : loader ≠ []) by (intros ->; by rewrite lookup_nil in Hi).
  destruct (accumulation_schedule bce_loss Torch.Backward
              [Torch.ClipGradNorm; Torch.OptimizerStep; Torch.SchedulerStep; Torch.ZeroGrad]
              K loader HK0 Hne) as (log & avg & Hrun & _ & Havg & Hcalls & _).
  destruct (accumulation_schedule bce_loss Torch.ScaledBackward
              [Torch.ScalerUnscale; Torch.ClipGradNorm; Torch.ScalerStep;
               Torch.ScalerUpdate; Torch.SchedulerStep; Torch.ZeroGrad]
              K loader HK0 Hne) as (log' & avg' & Hrun' & _ & Havg' & Hcalls' & _).
  assert (Hsum : Fl.is_finite
            (Fl.div_nat (Fl.sum (imap (Loop.reported bce_loss K) loader)) (length loader))
            = false).
  { apply div_nat_nonfinite. unfold Fl.sum.
    apply (foldl_add_nonfinite _ _ i (Loop.reported bce_loss K i b)).
    - by rewrite list_lookup_imap, Hi.
    - by apply reported_nonfinite. }
  exists log, avg, log', avg'.
  split; [exact Hrun|]. split; [exact Hrun'|].
  split; [by rewrite Havg|]. split; [by rewrite Havg'|].
  intros j b' Hj. split; [exact (Hcalls j b' Hj)|exact (Hcalls' j b' Hj)].
Qed.

Lemma nonfinite_loss_does_not_abort_witness :
  1 ≤ 1
  ∧ Samples.nan_then_one !! 0 = Some Fl.NaN
  ∧ Fl.is_finite (Samples.loss_of_batch 0 Fl.NaN) = false
  ∧ ∃ log avg,
      production_train.train_epoch Samples.loss_of_batch Samples.nan_then_one 1
      = Py.Ok (log, avg)
      ∧ Fl.is_finite avg = false.
Proof.
  assert (H1 : 1 ≤ 1) by lia.
  split; [exact H1|]. split; [reflexivity|]. split; [reflexivity|].
  destruct (nonfinite_loss_does_not_abort Samples.loss_of_batch Samples.nan_then_one
              1 0 Fl.NaN H1 eq_refl eq_refl)
    as (log & avg & _ & _ & Hrun & _ & Hnf & _).
  exists log, avg. split; [exact Hrun|exact Hnf].
Defined.

(** C7 fails on the code: after a NaN loss on the first micro-batch neither
    trainer raises; both go on to the second micro-batch, make the same
    calls as after a finite loss and return NaN as the average loss. *)
Lemma nan_loss_keeps_training :
  production_train.train_epoch Samples.loss_of_batch Samples.nan_then_one 1
  = Py.Ok ([(None, Torch.ModelTrain); (None, Torch.ZeroGrad);
            (Some 0, Torch.Forward Fl.NaN); (Some 0, Torch.Backward Fl.NaN);
            (Some 0, Torch.ClipGradNorm); (Some 0, Torch.OptimizerStep);
            (Some 0, Torch.SchedulerStep); (Some 0, Torch.ZeroGrad);
            (Some 1, Torch.Forward (Fl.Fin 1)); (Some 1, Torch.Backward (Fl.Fin (1 / 1)));
            (Some 1, Torch.ClipGradNorm); (Some 1, Torch.OptimizerStep);
            (Some 1, Torch.SchedulerStep); (Some 1, Torch.ZeroGrad)],
           Fl.NaN)
  ∧ train_colab_fixed.train_epoch Samples.loss_of_batch Samples.nan_then_one 1
    = Py.Ok ([(None, Torch.ModelTrain); (None, Torch.ZeroGrad);
              (Some 0, Torch.Forward Fl.NaN); (Some 0, Torch.ScaledBackward Fl.NaN);
              (Some 0, Torch.ScalerUnscale); (Some 0, Torch.ClipGradNorm);
              (Some 0, Torch.ScalerStep); (Some 0, Torch.ScalerUpdate);
              (Some 0, Torch.SchedulerStep); (Some 0, Torch.ZeroGrad);
              (Some 1, Torch.Forward (Fl.Fin 1));
              (Some 1, Torch.ScaledBackward (Fl.Fin (1 / 1)));
              (Some 1, Torch.ScalerUnscale); (Some 1, Torch.ClipGradNorm);
              (Some 1, Torch.ScalerStep); (Some 1, Torch.ScalerUpdate);
              (Some 1, Torch.SchedulerStep); (Some 1, Torch.ZeroGrad)],
             Fl.NaN).
Proof. split; reflexivity. Qed.

(** ** The decision threshold *)

Lemma sigmoid_zero : Torch.sigmoid 0 = (1 / 2)%R.
Proof. unfold Torch.sigmoid. rewrite Ropp_0, exp_0. lra. Qed.

Lemma sigmoid_above_half (x : R) : (1 / 2 < Torch.sigmoid x ↔ 0 < x)%R.
Proof.
  unfold Torch.sigmoid.
  pose proof (exp_pos (- x)) as Hpos.
  assert (Hinv : (1 / (1 + exp (- x)) * (1 + exp (- x)) = 1)%R) by (field; lra).
  assert (Hone : (exp (- x) < 1 ↔ 0 < x)%R).
  { rewrite <- exp_0. split; intros H.
    - apply exp_lt_inv in H. lra.
    - apply exp_increasing. lra. }
  rewrite <- Hone. split; intros H; nra.
Qed.

Lemma predict_present_iff (x : R) :
  Torch.predict_present x = true ↔ (1 / 2 < Torch.sigmoid x)%R.
Proof.
  unfold Torch.predict_present, Torch.gt_half.
  destruct (Rlt_dec (1 / 2) (Torch.sigmoid x)); split; (done || lra).
Qed.

Lemma predict_present_positive (x : R) : (0 < x)%R → Torch.predict_present x = true.
Proof. intros H. apply predict_present_iff. by apply sigmoid_above_half. Qed.

Lemma predict_present_nonpositive (x : R) : (x <= 0)%R → Torch.predict_present x = false.
Proof.
  intros H. apply not_true_is_false. rewrite predict_present_iff, sigmoid_above_half.
  lra.
Qed.

(** C3, as the code behaves.  The evaluators predict a label present
    exactly when [sigmoid(logit) > 0.5], that is when the logit is positive;
    at logit 0 the probability is exactly 0.5 and the label is predicted
    absent (the cell of the prediction matrix is 0). *)
Theorem predicted_present_strictly_above_half :
  (∀ logit, Torch.predict_present logit = true ↔ (Torch.sigmoid logit > 1 / 2)%R)
  ∧ (∀ logit, Torch.predict_present logit = true ↔ (logit > 0)%R)
  ∧ Torch.sigmoid 0 = (1 / 2)%R
  ∧ Torch.predict_present 0 = false
  ∧ (∀ st labels loss,
       production_train.all_preds
         (production_train.eval_step st
            {| production_train.logits := [[0%R]];
               production_train.batch_labels := labels;
               production_train.batch_loss := loss |})
       = production_train.all_preds st ++ [[0%Q]]).
Proof.
  split; [|split; [|split; [|split]]].
  - intros x. rewrite predict_present_iff. split; intros H; lra.
  - intros x. rewrite predict_present_iff, sigmoid_above_half. split; intros H; lra.
  - exact sigmoid_zero.
  - apply predict_present_nonpositive. lra.
  - intros st labels loss. unfold production_train.eval_step, Torch.threshold_preds.
    simpl. rewrite predict_present_nonpositive by lra. reflexivity.
Qed.

(** C3 fails on the code: at logit 0 the probability is at least 0.5, yet
    the label is not predicted present. *)
Lemma probability_half_predicted_absent :
  (Torch.sigmoid 0 >= 1 / 2)%R
  ∧ Torch.predict_present 0 = false
  ∧ Torch.threshold_preds [[0%R]] = [[0%Q]].
Proof.
  assert (H : Torch.predict_present 0 = false)
    by (apply predict_present_nonpositive; lra).
  split; [rewrite sigmoid_zero; lra|]. split; [exact H|].
  unfold Torch.threshold_preds. simpl. by rewrite H.
Qed.

(** ** Metrics on the worked example *)

Lemma example_logits_threshold :
  Torch.threshold_preds Samples.example_logits = Samples.predictions.
Proof.
  unfold Torch.threshold_preds, Samples.example_logits, Samples.predictions.
  cbn [map].
  rewrite (predict_present_positive 1) by lra.
  rewrite (predict_present_nonpositive (-1)) by lra.
  reflexivity.
Qed.

(** C4 on the code.  For ground truth [[1,0,1],[0,1,0]] and predictions
    [[1,0,0],[0,1,0]], [evaluate] of [production_train.py] reports an
    exact-match rate of 1/2, but the F1 it reports is 5/6 and not 0.8: on
    the flattened arrays scikit-learn pools the counts of both classes 0 and
    1, which makes precision, recall and F1 all equal to the fraction of
    correct cells.  [compute_metrics] of [train_colab_fixed.py], which
    passes the two-dimensional indicator matrices, reports the micro-F1 of
    0.8 from TP=2, FP=0, FN=1. *)
Theorem micro_f1_of_flattened_cells :
  production_train.evaluate [Samples.example_batch]
  = Py.Ok {| production_train.loss := Fl.Fin (1 # 2);
             production_train.accuracy := Fl.Fin (1 # 2);
             production_train.precision := (5 # 6)%Q;
             production_train.recall := (5 # 6)%Q;
             production_train.f1 := (10 # 12)%Q |}
  ∧ production_train.calculate_metrics Samples.predictions Samples.ground_truth
      (Fl.Fin (1 # 2)) 1
    = production_train.evaluate [Samples.example_batch]
  ∧ ¬ (10 # 12 == 8 # 10)%Q
  ∧ Sklearn.label_counts (map (map Np.astype_int) Samples.ground_truth)
      (map (map Np.astype_int) Samples.predictions) <$> [0; 1; 2]
    = [(1, 1, 1); (1, 1, 1); (0, 0, 1)]
  ∧ train_colab_fixed.micro_f1
      (train_colab_fixed.compute_metrics Samples.example_probs Samples.ground_truth)
    = (4 # 5)%Q
  ∧ train_colab_fixed.exact_match
      (train_colab_fixed.compute_metrics Samples.example_probs Samples.ground_truth)
    = Fl.Fin (1 # 2).
Proof.
  assert (Hev : production_train.evaluate [Samples.example_batch]
                = production_train.calculate_metrics Samples.predictions
                    Samples.ground_truth (Fl.Fin (1 # 2)) 1).
  { unfold production_train.evaluate. cbn [foldl length].
    unfold production_train.eval_step.
    cbn [production_train.total_loss production_train.all_preds
         production_train.all_labels].
    change (production_train.logits Samples.example_batch) with Samples.example_logits.
    rewrite example_logits_threshold. reflexivity. }
  split; [rewrite Hev; vm_compute; reflexivity|].
  split; [by rewrite Hev|].
  split; [intros H; vm_compute in H; discriminate|].
  split; [vm_compute; reflexivity|].
  split; vm_compute; reflexivity.
Qed.

(** ** Early stopping *)

(** C5, as the code behaves.  With [patience = 2] and [min_delta = 0.01]
    the validation F1 sequence 0.50, 0.50, 0.505, 0.504 makes the loop stop
    after the third evaluation: the first evaluation sets the best value,
    the second and the third do not exceed it by more than [min_delta].
    The loop does not stop after one or two evaluations, and the fourth
    value is never looked at. *)
Theorem plateau_stops_after_third_evaluation :
  production_train.early_stopping Samples.patience_two Samples.plateau_f1
  = {| production_train.final :=
         {| production_train.best_f1 := (50 # 100)%Q;
            production_train.patience_counter := 2;
            production_train.best_model_state := Some 0 |};
       production_train.evaluations := 3;
       production_train.stopped_early := true |}
  ∧ production_train.stopped_early
      (production_train.early_stopping Samples.patience_two (take 1 Samples.plateau_f1))
    = false
  ∧ production_train.stopped_early
      (production_train.early_stopping Samples.patience_two (take 2 Samples.plateau_f1))
    = false
  ∧ ∀ fourth rest,
      production_train.early_stopping Samples.patience_two
        (take 3 Samples.plateau_f1 ++ fourth :: rest)
      = production_train.early_stopping Samples.patience_two Samples.plateau_f1.
Proof.
  split; [vm_compute; reflexivity|].
  split; [vm_compute; reflexivity|].
  split; [vm_compute; reflexivity|].
  intros fourth rest. unfold production_train.early_stopping.
  cbn [take app Samples.plateau_f1 Samples.patience_two production_train.epochs].
  reflexivity.
Qed.

(** C5 fails on the code: the loop is left after three evaluations, not
    four. *)
Lemma plateau_does_not_reach_fourth_evaluation :
  production_train.evaluations
    (production_train.early_stopping Samples.patience_two Samples.plateau_f1) = 3
  ∧ production_train.evaluations
      (production_train.early_stopping Samples.patience_two Samples.plateau_f1) ≠ 4.
Proof. split; [vm_compute; reflexivity|vm_compute; lia]. Qed.

(** ** Export *)



(** * Further properties of the scripts *)

(** ** When [train_epoch] raises *)

Section LoopOutcome.

Context {Batch : Type}.
Variable bce_loss : nat → Batch → Fl.fval.
Variable backward : Fl.fval → Torch.call.
Variable boundary : list Torch.call.

Lemma train_epoch_empty_loader (K : nat) :
  Loop.train_epoch bce_loss backward boundary [] K = Py.Raise Py.ZeroDivisionError.
Proof. reflexivity. Qed.

Lemma train_epoch_zero_accumulation (b : Batch) (l : list Batch) :
  Loop.train_epoch bce_loss backward boundary (b :: l) 0
  = Py.Raise Py.ZeroDivisionError.
Proof. reflexivity. Qed.

Lemma train_epoch_outcome (loader : list Batch) (K : nat) :
  ((∃ log avg, Loop.train_epoch bce_loss backward boundary loader K = Py.Ok (log, avg))
   ↔ loader ≠ [] ∧ K ≠ 0)
  ∧ (Loop.train_epoch bce_loss backward boundary loader K
     = Py.Raise Py.ZeroDivisionError
     ↔ loader = [] ∨ K = 0).
Proof.
  destruct loader as [|b l].
  - rewrite train_epoch_empty_loader. split; split.
    + intros (? & ? & ?). done.
    + intros [? _]. done.
    + by left.
    + done.
  - destruct (decide (K = 0)) as [->|HK].
    + rewrite train_epoch_zero_accumulation. split; split.
      * intros (? & ? & ?). done.
      * intros [_ ?]. done.
      * by right.
      * done.
    + rewrite (train_epoch_run bce_loss backward boundary K (b :: l)) by done.
      split; split.
      * done.
      * intros _. eauto.
      * done.
      * intros [?|?]; done.
Qed.

End LoopOutcome.

(** X1. [train_epoch] of [production_train.py] and of [train_colab_fixed.py]
    returns normally exactly when the loader yields at least one batch and
    the accumulation factor is not zero; in every other case it raises
    [ZeroDivisionError] (from [total_loss / len(loader)] or from
    [(i + 1) % accumulation_steps]). *)
Theorem train_epoch_raises_only_on_empty_or_zero {Batch : Type}
    (bce_loss : nat → Batch → Fl.fval) (loader : list Batch) (K : nat) :
  ((∃ log avg, production_train.train_epoch bce_loss loader K = Py.Ok (log, avg))
   ↔ loader ≠ [] ∧ K ≠ 0)
  ∧ (production_train.train_epoch bce_loss loader K = Py.Raise Py.ZeroDivisionError
     ↔ loader = [] ∨ K = 0)
  ∧ ((∃ log avg, train_colab_fixed.train_epoch bce_loss loader K = Py.Ok (log, avg))
     ↔ loader ≠ [] ∧ K ≠ 0)
  ∧ (train_colab_fixed.train_epoch bce_loss loader K = Py.Raise Py.ZeroDivisionError
     ↔ loader = [] ∨ K = 0).
Proof.
  split; [|split; [|split]];
    apply train_epoch_outcome.
Qed.

(** ** Number of optimizer and scheduler steps *)

Lemma succ_div (K n : nat) :
  K ≠ 0 → (n + 1) / K = n / K + (if Nat.eqb ((n + 1) mod K) 0 then 1 else 0).
Proof.
  intros HK.
  pose proof (Nat.div_mod_eq n K) as Hn.
  pose proof (Nat.mod_upper_bound n K HK) as Hr.
  pose proof (Nat.div_mod_eq (n + 1) K) as Hn1.
  destruct (Nat.eqb_spec ((n + 1) mod K) 0) as [H0|Hnz].
  - rewrite H0 in Hn1.
    assert (n / K < (n + 1) / K) by nia.
    assert ((n + 1) / K < n / K + 2) by nia.
    lia.
  - rewrite (succ_mod_nonzero K n HK Hnz) in Hn1.
    assert (K * ((n + 1) / K) = K * (n / K)) as Heq by lia.
    apply Nat.mul_cancel_l in Heq; [lia|done].
Qed.

Lemma count_calls_app (p : Torch.call → bool) (l1 l2 : list Torch.event) :
  Torch.count_calls p (l1 ++ l2) = Torch.count_calls p l1 + Torch.count_calls p l2.
Proof. unfold Torch.count_calls. by rewrite List.filter_app, length_app. Qed.

Lemma count_calls_at_iteration (p : Torch.call → bool) (i : nat) (cs : list Torch.call) :
  Torch.count_calls p (Loop.at_iteration i cs) = length (List.filter p cs).
Proof.
  unfold Torch.count_calls, Loop.at_iteration.
  induction cs as [|c cs IH]; [done|].
  rewrite fmap_cons. cbn [List.filter snd]. destruct (p c); simpl; by rewrite IH.
Qed.

Section StepCount.

Context {Batch : Type}.
Variable bce_loss : nat → Batch → Fl.fval.
Variable backward : Fl.fval → Torch.call.
Variable boundary : list Torch.call.
Variable p : Torch.call → bool.
Hypothesis forward_not_counted : ∀ l, p (Torch.Forward l) = false.
Hypothesis backward_not_counted : ∀ l, p (backward l) = false.
Hypothesis one_per_boundary : length (List.filter p boundary) = 1.

Lemma count_calls_epoch (K : nat) (loader : list Batch) :
  K ≠ 0 →
  Torch.count_calls p (Loop.epoch_events bce_loss backward boundary K 0 loader)
  = length loader / K.
Proof.
  intros HK. induction loader as [|b l IH] using rev_ind.
  - simpl. by rewrite Nat.Div0.div_0_l.
  - rewrite epoch_events_snoc, count_calls_app, IH, length_app. cbn [length Nat.add].
    rewrite succ_div by done. f_equal.
    rewrite count_calls_at_iteration. unfold Loop.iteration_calls.
    rewrite List.filter_app, length_app. cbn [List.filter].
    rewrite forward_not_counted, backward_not_counted. cbn [length Nat.add].
    destruct (Nat.eqb ((length l + 1) mod K) 0); [exact one_per_boundary|done].
Qed.

End StepCount.

(** X2. With K >= 1 and [n] micro-batches, one epoch issues exactly
    [n // K] optimizer steps and as many scheduler steps, in
    [production_train.py] and (through the gradient scaler) in
    [train_colab_fixed.py]. *)
Theorem steps_per_epoch {Batch : Type}
    (bce_loss : nat → Batch → Fl.fval) (loader : list Batch) (K : nat) :
  1 ≤ K →
  loader ≠ [] →
  ∃ log avg log' avg',
    production_train.train_epoch bce_loss loader K = Py.Ok (log, avg)
    ∧ train_colab_fixed.train_epoch bce_loss loader K = Py.Ok (log', avg')
    ∧ Torch.count_calls Torch.is_optimizer_step log = length loader / K
    ∧ Torch.count_calls Torch.is_scheduler_step log = length loader / K
    ∧ Torch.count_calls Torch.is_optimizer_step log' = length loader / K
    ∧ Torch.count_calls Torch.is_scheduler_step log' = length loader / K.
Proof.
  intros HK Hne. assert (HK0 : K ≠ 0) by lia.
  eexists _, _, _, _.
  split; [by apply train_epoch_run|]. split; [by apply train_epoch_run|].
  rewrite !count_calls_app.
  rewrite (count_calls_epoch bce_loss Torch.Backward
             [Torch.ClipGradNorm; Torch.OptimizerStep; Torch.SchedulerStep; Torch.ZeroGrad]
             Torch.is_optimizer_step (λ _, eq_refl) (λ _, eq_refl) eq_refl K loader HK0).
  rewrite (count_calls_epoch bce_loss Torch.Backward
             [Torch.ClipGradNorm; Torch.OptimizerStep; Torch.SchedulerStep; Torch.ZeroGrad]
             Torch.is_scheduler_step (λ _, eq_refl) (λ _, eq_refl) eq_refl K loader HK0).
  rewrite (count_calls_epoch bce_loss Torch.ScaledBackward
             [Torch.ScalerUnscale; Torch.ClipGradNorm; Torch.ScalerStep;
              Torch.ScalerUpdate; Torch.SchedulerStep; Torch.ZeroGrad]
             Torch.is_optimizer_step (λ _, eq_refl) (λ _, eq_refl) eq_refl K loader HK0).
  rewrite (count_calls_epoch bce_loss Torch.ScaledBackward
             [Torch.ScalerUnscale; Torch.ClipGradNorm; Torch.ScalerStep;
              Torch.ScalerUpdate; Torch.SchedulerStep; Torch.ZeroGrad]
             Torch.is_scheduler_step (λ _, eq_refl) (λ _, eq_refl) eq_refl K loader HK0).
  done.
Qed.

Lemma steps_per_epoch_witness :
  1 ≤ 2
  ∧ Samples.five_batches ≠ []
  ∧ ∃ log avg,
      production_train.train_epoch Samples.loss_of_batch Samples.five_batches 2
      = Py.Ok (log, avg)
      ∧ Torch.count_calls Torch.is_optimizer_step log = 2.
Proof.
  assert (H1 : 1 ≤ 2) by lia.
  assert (H2 : Samples.five_batches ≠ []) by discriminate.
  split; [exact H1|]. split; [exact H2|].
  destruct (steps_per_epoch Samples.loss_of_batch Samples.five_batches 2 H1 H2)
    as (log & avg & log' & avg' & Hrun & _ & Hopt & _).
  exists log, avg. split; [exact Hrun|exact Hopt].
Defined.

Lemma floordiv_of_product (n E K : nat) :
  K ≠ 0 → n * E / K = E * (n / K) + E * (n mod K) / K.
Proof.
  intros HK.
  rewrite (Nat.div_mod_eq n K) at 1.
  replace ((K * (n / K) + n mod K) * E) with (E * (n / K) * K + E * (n mod K)) by lia.
  by rewrite Nat.div_add_l.
Qed.

(** X3. The step budget given to the learning-rate scheduler.  In
    [production_train.py], [total_steps] is [n * epochs // K]: it exceeds
    the scheduler steps of a full run of [epochs] epochs ([n // K] per
    epoch) by [epochs * (n mod K) // K].  In [train_colab_fixed.py],
    [total_steps] is [(n // K) * epochs], exactly the steps of a full run. *)
Theorem scheduler_step_budget {Batch : Type}
    (bce_loss : nat → Batch → Fl.fval) (loader : list Batch)
    (cfg : production_train.config) :
  let K := production_train.gradient_accumulation cfg in
  let E := production_train.epochs cfg in
  let n := length loader in
  1 ≤ K →
  loader ≠ [] →
  ∃ log avg log' avg',
    production_train.train_epoch bce_loss loader K = Py.Ok (log, avg)
    ∧ train_colab_fixed.train_epoch bce_loss loader K = Py.Ok (log', avg')
    ∧ production_train.total_steps n cfg
      = Py.Ok (E * Torch.count_calls Torch.is_scheduler_step log + E * (n mod K) / K)
    ∧ train_colab_fixed.total_steps n E K
      = Py.Ok (Torch.count_calls Torch.is_scheduler_step log' * E).
Proof.
  intros K E n HK Hne. assert (HK0 : K ≠ 0) by lia.
  eexists _, _, _, _.
  split; [by apply train_epoch_run|]. split; [by apply train_epoch_run|].
  rewrite !count_calls_app.
  rewrite (count_calls_epoch bce_loss Torch.Backward
             [Torch.ClipGradNorm; Torch.OptimizerStep; Torch.SchedulerStep; Torch.ZeroGrad]
             Torch.is_scheduler_step (λ _, eq_refl) (λ _, eq_refl) eq_refl K loader HK0).
  rewrite (count_calls_epoch bce_loss Torch.ScaledBackward
             [Torch.ScalerUnscale; Torch.ClipGradNorm; Torch.ScalerStep;
              Torch.ScalerUpdate; Torch.SchedulerStep; Torch.ZeroGrad]
             Torch.is_scheduler_step (λ _, eq_refl) (λ _, eq_refl) eq_refl K loader HK0).
  unfold production_train.total_steps, train_colab_fixed.total_steps,
    production_train.py_floordiv.
  fold K E n. destruct (Nat.eqb_spec K 0) as [?|_]; [done|].
  split; [|reflexivity]. cbn [Torch.count_calls List.filter length Nat.add].
  f_equal. by apply floordiv_of_product.
Qed.

Lemma scheduler_step_budget_witness :
  1 ≤ 2
  ∧ Samples.five_batches ≠ []
  ∧ ∃ log avg,
      production_train.train_epoch Samples.loss_of_batch Samples.five_batches 2
      = Py.Ok (log, avg)
      ∧ production_train.total_steps 5 production_train.CONFIG
        = Py.Ok (50 * Torch.count_calls Torch.is_scheduler_step log + 25).
Proof.
  assert (H1 : 1 ≤ 2) by lia.
  assert (H2 : Samples.five_batches ≠ []) by discriminate.
  split; [exact H1|]. split; [exact H2|].
  destruct (scheduler_step_budget Samples.loss_of_batch Samples.five_batches
              production_train.CONFIG H1 H2)
    as (log & avg & log' & avg' & Hrun & _ & Hbudget & _).
  exists log, avg. split; [exact Hrun|exact Hbudget].
Defined.

(** ** What each optimizer step applies *)

Lemma succ_mod_zero (K n : nat) :
  K ≠ 0 → (n + 1) mod K = 0 → n mod K + 1 = K.
Proof.
  intros HK H0.
  pose proof (Nat.div_mod_eq n K) as Hn.
  pose proof (Nat.mod_upper_bound n K HK) as Hr.
  pose proof (Nat.div_mod_eq (n + 1) K) as Hn1. rewrite H0 in Hn1.
  assert (n / K < (n + 1) / K) by nia.
  assert ((n + 1) / K < n / K + 2) by nia.
  nia.
Qed.

Lemma full_group_unchanged {A : Type} (C : list A) (c : A) (K j : nat) :
  j * K + K ≤ length C →
  take K (drop (j * K) (C ++ [c])) = take K (drop (j * K) C).
Proof.
  intros Hle. rewrite drop_app_le by lia.
  apply take_app_le. rewrite length_drop. lia.
Qed.

Section AppliedUpdates.

Context {Batch : Type}.
Variable bce_loss : nat → Batch → Fl.fval.
Variable backward : Fl.fval → Torch.call.
Variable boundary : list Torch.call.
Hypothesis backward_update :
  ∀ buf acc tag l,
    Torch.update_step (buf, acc) (tag, backward l) = (buf ++ [(tag, l)], acc).
Hypothesis boundary_update :
  ∀ buf acc i,
    foldl Torch.update_step (buf, acc) (Loop.at_iteration i boundary)
    = ([], acc ++ [buf]).

(** After an epoch over [n] micro-batches the optimizer has stepped
    [n / K] times; step [j] applied the gradients of the micro-batches
    [j*K .. j*K+K-1], and the gradients of the last [n mod K] micro-batches
    are still in the buffers. *)
Lemma update_state_epoch (K : nat) (loader : list Batch) :
  K ≠ 0 →
  foldl Torch.update_step ([], [])
    ([(None, Torch.ModelTrain); (None, Torch.ZeroGrad)]
     ++ Loop.epoch_events bce_loss backward boundary K 0 loader)
  = (drop (length loader - length loader mod K)
       (imap (Loop.contribution bce_loss K) loader),
     (λ j, take K (drop (j * K) (imap (Loop.contribution bce_loss K) loader)))
       <$> seq 0 (length loader / K)).
Proof.
  intros HK. induction loader as [|b l IH] using rev_ind.
  - simpl. by rewrite Nat.Div0.div_0_l.
  - rewrite epoch_events_snoc, app_assoc, foldl_app, IH. clear IH.
    rewrite length_app, imap_app. cbn [length imap Nat.add]. rewrite Nat.add_0_r.
    set (n := length l). set (C := imap (Loop.contribution bce_loss K) l).
    assert (HC : length C = n) by (unfold C; by rewrite length_imap).
    pose proof (Nat.div_mod_eq n K) as Hn.
    pose proof (Nat.mod_upper_bound n K HK) as Hr.
    assert (Hgroups :
      (λ j, take K (drop (j * K) (C ++ [Loop.contribution bce_loss K n b])))
        <$> seq 0 (n / K)
      = (λ j, take K (drop (j * K) C)) <$> seq 0 (n / K)).
    { apply list_fmap_ext. intros i j Hj. apply lookup_seq in Hj as [-> Hi].
      apply full_group_unchanged. rewrite HC. nia. }
    unfold Loop.iteration_calls, Loop.at_iteration.
    rewrite fmap_app, foldl_app. cbn [fmap list_fmap foldl].
    change (Torch.update_step ?st (Some n, Torch.Forward ?x)) with st.
    rewrite backward_update.
    rewrite succ_div by done.
    destruct (Nat.eqb_spec ((n + 1) mod K) 0) as [H0|Hnz].
    + fold (Loop.at_iteration n boundary). rewrite boundary_update.
      pose proof (succ_mod_zero K n HK H0) as Hfull.
      rewrite H0, Nat.sub_0_r. f_equal.
      * symmetry. apply drop_ge. rewrite length_app, HC. simpl. lia.
      * rewrite seq_app, fmap_app, Hgroups. cbn [seq fmap list_fmap Nat.add].
        f_equal. f_equal.
        replace (n - n mod K) with (n / K * K) by lia.
        rewrite drop_app_le by (rewrite HC; lia).
        symmetry. apply take_ge. rewrite length_app, length_drop, HC. simpl. nia.
    + cbn [fmap list_fmap foldl]. rewrite Nat.add_0_r, Hgroups. f_equal.
      rewrite (succ_mod_nonzero K n HK Hnz).
      replace (n + 1 - (n mod K + 1)) with (n - n mod K) by lia.
      rewrite drop_app_le by (rewrite HC; lia).
      reflexivity.
Qed.

End AppliedUpdates.

(** What the gradient scaler lets through: in a log without a plain
    [optimizer.step()], the applied updates are the buffers handed to
    [scaler.step] in which no inf or NaN was found. *)
Lemma scaler_updates_filter (found_inf : list (option nat * Fl.fval) → bool)
    (log : list Torch.event) (buf : list (option nat * Fl.fval))
    (acc : list (list (option nat * Fl.fval))) :
  Forall (λ e : Torch.event, e.2 ≠ Torch.OptimizerStep) log →
  foldl (Torch.scaler_update_step found_inf)
    (buf, List.filter (λ g, negb (found_inf g)) acc) log
  = ((foldl Torch.update_step (buf, acc) log).1,
     List.filter (λ g, negb (found_inf g)) (foldl Torch.update_step (buf, acc) log).2).
Proof.
  intros Hlog. revert buf acc.
  induction Hlog as [|[tag c] log Hc _ IH]; intros buf acc; [done|].
  cbn [foldl]. simpl in Hc.
  assert (Hstep :
    Torch.scaler_update_step found_inf
      (buf, List.filter (λ g, negb (found_inf g)) acc) (tag, c)
    = ((Torch.update_step (buf, acc) (tag, c)).1,
       List.filter (λ g, negb (found_inf g)) (Torch.update_step (buf, acc) (tag, c)).2)).
  { unfold Torch.scaler_update_step, Torch.update_step. cbn [fst snd].
    destruct c; cbn [Torch.is_optimizer_step]; try done.
    rewrite List.filter_app. cbn [List.filter].
    destruct (found_inf buf); cbn [negb]; by rewrite ?app_nil_r. }
  rewrite Hstep.
  destruct (Torch.update_step (buf, acc) (tag, c)) as [buf1 acc1]. apply IH.
Qed.

Lemma scaler_epoch_has_no_plain_step {Batch : Type} (bce_loss : nat → Batch → Fl.fval)
    (K k : nat) (loader : list Batch) :
  Forall (λ e : Torch.event, e.2 ≠ Torch.OptimizerStep)
    (Loop.epoch_events bce_loss Torch.ScaledBackward
       [Torch.ScalerUnscale; Torch.ClipGradNorm; Torch.ScalerStep;
        Torch.ScalerUpdate; Torch.SchedulerStep; Torch.ZeroGrad] K k loader).
Proof.
  revert k. induction loader as [|b l IH]; intros k; [constructor|].
  cbn [Loop.epoch_events]. apply Forall_app. split; [|apply IH].
  unfold Loop.at_iteration, Loop.iteration_calls. apply Forall_fmap.
  destruct (Nat.eqb ((k + 1) mod K) 0); repeat (constructor; [done|]); constructor.
Qed.

(** X4. With K >= 1, the [j]-th step call of an epoch (counting from 0) is
    made with the gradients of exactly the K consecutive micro-batches
    [j*K], ..., [j*K + K - 1], each from a backward pass on that
    micro-batch's loss divided by K; there are [n // K] such calls and no
    micro-batch contributes to two of them.  In [production_train.py] the
    call is [optimizer.step()], which applies every one of these groups.  In
    [train_colab_fixed.py] the call is [scaler.step(optimizer)]: the
    optimizer applies exactly the groups in which the gradient scaler found
    no inf or NaN, and the others are skipped. *)
Theorem optimizer_step_applies_K_micro_batches {Batch : Type}
    (bce_loss : nat → Batch → Fl.fval) (loader : list Batch) (K : nat) :
  1 ≤ K →
  loader ≠ [] →
  ∃ log avg log' avg',
    production_train.train_epoch bce_loss loader K = Py.Ok (log, avg)
    ∧ train_colab_fixed.train_epoch bce_loss loader K = Py.Ok (log', avg')
    ∧ Torch.applied_updates log
      = (λ j, take K (drop (j * K)
                        (imap (λ i b, (Some i, Fl.div_nat (bce_loss i b) K)) loader)))
          <$> seq 0 (length loader / K)
    ∧ ∀ found_inf,
        Torch.scaler_applied_updates found_inf log'
        = List.filter (λ g, negb (found_inf g))
            ((λ j, take K (drop (j * K)
                             (imap (λ i b, (Some i, Fl.div_nat (bce_loss i b) K)) loader)))
               <$> seq 0 (length loader / K)).
Proof.
  intros HK Hne. assert (HK0 : K ≠ 0) by lia.
  eexists _, _, _, _.
  split; [by apply train_epoch_run|]. split; [by apply train_epoch_run|].
  split.
  - unfold Torch.applied_updates.
    by rewrite (update_state_epoch bce_loss Torch.Backward
               [Torch.ClipGradNorm; Torch.OptimizerStep; Torch.SchedulerStep;
                Torch.ZeroGrad]
               (λ _ _ _ _, eq_refl) (λ _ _ _, eq_refl) K loader HK0).
  - intros found_inf. unfold Torch.scaler_applied_updates.
    change (@nil (list (option nat * Fl.fval)))
      with (List.filter (λ g, negb (found_inf g)) (@nil (list (option nat * Fl.fval)))) at 1.
    rewrite scaler_updates_filter.
    + by rewrite (update_state_epoch bce_loss Torch.ScaledBackward
                 [Torch.ScalerUnscale; Torch.ClipGradNorm; Torch.ScalerStep;
                  Torch.ScalerUpdate; Torch.SchedulerStep; Torch.ZeroGrad]
                 (λ _ _ _ _, eq_refl) (λ _ _ _, eq_refl) K loader HK0).
    + apply Forall_app. split; [by repeat constructor|].
      apply scaler_epoch_has_no_plain_step.
Qed.

Lemma optimizer_step_applies_K_micro_batches_witness :
  1 ≤ 2
  ∧ Samples.five_batches ≠ []
  ∧ ∃ log avg log' avg',
      production_train.train_epoch Samples.loss_of_batch Samples.five_batches 2
      = Py.Ok (log, avg)
      ∧ train_colab_fixed.train_epoch Samples.loss_of_batch Samples.five_batches 2
        = Py.Ok (log', avg')
      ∧ Torch.applied_updates log
        = [[(Some 0, Fl.Fin (1 / 2)%Q); (Some 1, Fl.Fin (3 / 2)%Q)];
           [(Some 2, Fl.Fin (5 / 2)%Q); (Some 3, Fl.Fin (7 / 2)%Q)]]
      ∧ Torch.scaler_applied_updates Samples.overflow_in_first_group log'
        = [[(Some 2, Fl.Fin (5 / 2)%Q); (Some 3, Fl.Fin (7 / 2)%Q)]].
Proof.
  assert (H1 : 1 ≤ 2) by lia.
  assert (H2 : Samples.five_batches ≠ []) by discriminate.
  split; [exact H1|]. split; [exact H2|].
  destruct (optimizer_step_applies_K_micro_batches Samples.loss_of_batch
              Samples.five_batches 2 H1 H2)
    as (log & avg & log' & avg' & Hrun & Hrun' & Happlied & Hscaler).
  exists log, avg, log', avg'.
  split; [exact Hrun|]. split; [exact Hrun'|]. split; [exact Happlied|].
  exact (Hscaler Samples.overflow_in_first_group).
Defined.

(** ** [train_epoch] of [train_colab_1m.py] *)

Section EpochWithoutAccumulation.

Context {Batch : Type}.
Variable bce_loss : nat → Batch → Fl.fval.

#[local] Abbreviation batch_calls :=
  (λ i b, Loop.at_iteration i
            [Torch.ZeroGrad; Torch.Forward (bce_loss i b); Torch.Backward (bce_loss i b);
             Torch.ClipGradNorm; Torch.OptimizerStep; Torch.SchedulerStep]).

Lemma train_1m_loop (loader : list Batch) :
  foldl (train_colab_1m.train_step bce_loss)
    {| Loop.calls := [(None, Torch.ModelTrain)]; Loop.total_loss := Fl.Fin 0 |}
    (Py.enumerate loader)
  = {| Loop.calls := [(None, Torch.ModelTrain)] ++ concat (imap batch_calls loader);
       Loop.total_loss := Fl.sum (imap bce_loss loader) |}.
Proof.
  induction loader as [|b l IH] using rev_ind; [done|].
  rewrite enumerate_snoc, foldl_app, IH. cbn [foldl].
  unfold train_colab_1m.train_step. cbn [Loop.calls Loop.total_loss fst snd].
  rewrite imap_app, concat_app. cbn [imap concat]. rewrite Nat.add_0_r, app_nil_r.
  unfold Fl.sum. rewrite imap_app, foldl_app. cbn [imap foldl].
  rewrite Nat.add_0_r, <- app_assoc. reflexivity.
Qed.

Lemma train_1m_updates (loader : list Batch) :
  ∃ buf,
    foldl Torch.update_step ([], [])
      ([(None, Torch.ModelTrain)] ++ concat (imap batch_calls loader))
    = (buf, imap (λ i b, [(Some i, bce_loss i b)]) loader).
Proof.
  induction loader as [|b l [buf IH]] using rev_ind; [by exists []|].
  rewrite !imap_app, concat_app, app_assoc, foldl_app, IH.
  cbn [imap concat]. rewrite Nat.add_0_r, app_nil_r.
  eexists. reflexivity.
Qed.

Lemma train_1m_count (p : Torch.call → bool) (loader : list Batch) :
  (∀ l, p (Torch.Forward l) = false) → (∀ l, p (Torch.Backward l) = false) →
  length (List.filter p [Torch.ZeroGrad; Torch.ClipGradNorm; Torch.OptimizerStep;
                         Torch.SchedulerStep]) = 1 →
  Torch.count_calls p ([(None, Torch.ModelTrain)] ++ concat (imap batch_calls loader))
  = Torch.count_calls p [(None, Torch.ModelTrain)] + length loader.
Proof.
  intros Hf Hb Hone. rewrite count_calls_app. f_equal.
  induction loader as [|b l IH] using rev_ind; [done|].
  rewrite imap_app, concat_app, count_calls_app, IH, length_app.
  cbn [imap concat length]. rewrite app_nil_r, count_calls_at_iteration. f_equal.
  cbn [List.filter] in *. rewrite Hf, Hb.
  destruct (p Torch.ZeroGrad), (p Torch.ClipGradNorm), (p Torch.OptimizerStep),
    (p Torch.SchedulerStep); simpl in *; lia.
Qed.

End EpochWithoutAccumulation.

(** X5. [train_epoch] of [train_colab_1m.py] raises [ZeroDivisionError]
    on an empty loader and nothing else.  On [n >= 1] batches it steps the
    optimizer and the scheduler [n] times, the [i]-th optimizer step applying
    the gradient of batch [i] alone at full scale (the gradients are zeroed
    before every forward pass), and returns the mean of the [n] losses;
    [total_steps = n * epochs] is exactly the number of scheduler steps of
    [epochs] such epochs. *)
Theorem one_step_per_batch {Batch : Type}
    (bce_loss : nat → Batch → Fl.fval) (loader : list Batch) (epochs : nat) :
  (train_colab_1m.train_epoch bce_loss loader = Py.Raise Py.ZeroDivisionError
   ↔ loader = [])
  ∧ (loader = []
     ∨ ∃ log,
         train_colab_1m.train_epoch bce_loss loader
         = Py.Ok (log, Fl.div_nat (Fl.sum (imap bce_loss loader)) (length loader))
         ∧ Torch.applied_updates log = imap (λ i b, [(Some i, bce_loss i b)]) loader
         ∧ Torch.count_calls Torch.is_optimizer_step log = length loader
         ∧ Torch.count_calls Torch.is_scheduler_step log = length loader
         ∧ train_colab_1m.total_steps (length loader) epochs
           = Torch.count_calls Torch.is_scheduler_step log * epochs).
Proof.
  unfold train_colab_1m.train_epoch. rewrite train_1m_loop.
  cbn [Loop.calls Loop.total_loss]. unfold Fl.pydiv_nat.
  destruct loader as [|b l]; [split; [done|by left]|].
  cbn [length Nat.eqb]. split; [split; done|]. right.
  eexists. split; [reflexivity|].
  destruct (train_1m_updates bce_loss (b :: l)) as [buf Hupd].
  unfold Torch.applied_updates. rewrite Hupd.
  rewrite !(train_1m_count bce_loss _ (b :: l)) by done.
  done.
Qed.

(** ** The dataset classes on arbitrary vocabularies *)

(** X6. [IMODataset.__getitem__] for any vocabulary, distinct labels or
    not: an index beyond the data raises [IndexError]; otherwise the call
    returns a label vector as long as the vocabulary, with entries 0 and 1
    only, and entry [i] is 1 exactly when [vocab[i]] is one of the example's
    tactics and [i] is the last position of that label in the vocabulary
    (an earlier position of a repeated label is never set). *)
Theorem getitem_any_vocabulary
    (vocab : list string) (tokenizer : string → nat → production_train.encoding)
    (max_length : nat) (data : list production_train.item) (idx : nat) :
  ∃ ds,
    production_train.IMODataset_init data tokenizer vocab max_length = Py.Ok ds
    ∧ match data !! idx with
      | None => production_train.IMODataset_getitem ds idx = Py.Raise Py.IndexError
      | Some it =>
          ∃ s,
            production_train.IMODataset_getitem ds idx = Py.Ok s
            ∧ production_train.input_ids s
              = production_train.enc_input_ids
                  (tokenizer (production_train.text it) max_length)
            ∧ length (production_train.labels s) = length vocab
            ∧ (∀ i x, production_train.labels s !! i = Some x → x = 0%Q ∨ x = 1%Q)
            ∧ (∀ i, production_train.labels s !! i = Some 1%Q
                    ↔ ∃ v, vocab !! i = Some v
                           ∧ v ∈ production_train.subs it
                           ∧ ∀ j, vocab !! j = Some v → j ≤ i)
      end.
Proof.
  eexists. split; [reflexivity|].
  unfold production_train.IMODataset_getitem. cbn [production_train.data].
  destruct (data !! idx) as [it|]; [|reflexivity].
  cbn [production_train.vocab production_train.vocab_to_idx production_train.tokenizer
       production_train.max_length].
  unfold production_train.multi_hot.
  destruct (multi_hot_loop (Py.index_dict vocab) (production_train.subs it)
              (replicate (length vocab) 0%Q))
    as (label & Hrun & Hlen & Hone & Hkeep).
  { intros s i Hs. rewrite length_replicate. by eapply index_dict_in_range. }
  rewrite length_replicate in Hlen, Hone.
  rewrite Hrun. eexists. split; [reflexivity|]. cbn.
  split; [reflexivity|]. split; [exact Hlen|].
  assert (Hcell : ∀ i, i < length vocab →
    (Exists (λ s, Py.index_dict vocab !! s = Some i) (production_train.subs it)
     ∧ label !! i = Some 1%Q)
    ∨ (¬ Exists (λ s, Py.index_dict vocab !! s = Some i) (production_train.subs it)
       ∧ label !! i = Some 0%Q)).
  { intros i Hi.
    destruct (decide (Exists (λ s, Py.index_dict vocab !! s = Some i)
                        (production_train.subs it))) as [Hex|Hnex].
    - left. split; [done|]. by apply Hone.
    - right. split; [done|]. rewrite Hkeep by done. by apply lookup_replicate_2. }
  split.
  - intros i x Hx. assert (Hi : i < length vocab).
    { rewrite <- Hlen. by eapply lookup_lt_Some. }
    destruct (Hcell i Hi) as [[_ H1]|[_ H0]]; rewrite Hx in *; [right|left]; congruence.
  - intros i. split.
    + intros H1. assert (Hi : i < length vocab).
      { rewrite <- Hlen. by eapply lookup_lt_Some. }
      destruct (Hcell i Hi) as [[Hex _]|[_ H0]]; [|rewrite H1 in H0; discriminate].
      apply Exists_exists in Hex as (v & Hv & Hidx).
      apply index_dict_lookup in Hidx as [Hvi Hlast]. eauto.
    + intros (v & Hvi & Hv & Hlast).
      apply Hone; [by eapply lookup_lt_Some|].
      apply Exists_exists. exists v. split; [done|]. by apply index_dict_lookup.
Qed.

(** An earlier position of a repeated label stays 0. *)
Example repeated_label_first_position :
  production_train.multi_hot 3 (Py.index_dict Samples.repeated_vocab) ["x = 0"]
  = Py.Ok [0; 0; 1]%Q.
Proof. vm_compute. reflexivity. Qed.

Lemma index_dict_size_le (xs : list string) : size (Py.index_dict xs) ≤ length xs.
Proof.
  induction xs as [|x xs IH] using rev_ind; [done|].
  rewrite index_dict_snoc, length_app. simpl.
  destruct (Py.index_dict xs !! x) as [i|] eqn:Hx.
  - rewrite map_size_insert_Some by eauto. lia.
  - rewrite map_size_insert_None by done. lia.
Qed.

Lemma index_dict_size_lt (xs : list string) :
  ¬ NoDup xs → size (Py.index_dict xs) < length xs.
Proof.
  induction xs as [|x xs IH] using rev_ind; intros Hdup.
  - exfalso. apply Hdup. constructor.
  - rewrite index_dict_snoc, length_app. simpl.
    destruct (Py.index_dict xs !! x) as [i|] eqn:Hx.
    + rewrite map_size_insert_Some by eauto.
      pose proof (index_dict_size_le xs). lia.
    + rewrite map_size_insert_None by done.
      apply index_dict_lookup_None in Hx.
      assert (¬ NoDup xs).
      { intros Hnd. apply Hdup. apply NoDup_app. split; [done|]. split.
        - intros y Hy Hy'. apply list_elem_of_singleton in Hy' as ->. done.
        - apply NoDup_singleton. }
      specialize (IH H). lia.
Qed.

Lemma mark_label_raises (v2i : gmap string nat) (subs : list string) (t : list Q)
    (sub : string) (i : nat) :
  sub ∈ subs → v2i !! sub = Some i → length t ≤ i →
  Py.for_each (production_train.mark_label v2i) t subs = Py.Raise Py.IndexError.
Proof.
  intros Hin Hi Hlen. revert t Hlen.
  induction subs as [|s subs IH]; intros t Hlen.
  - by apply elem_of_nil in Hin.
  - cbn [Py.for_each]. unfold production_train.mark_label at 1.
    destruct (decide (s = sub)) as [->|Hne].
    + rewrite Hi. unfold production_train.tensor_setitem.
      rewrite decide_False by lia. reflexivity.
    + apply elem_of_cons in Hin as [?|Hin]; [congruence|].
      destruct (v2i !! s) as [k|]; [|by apply IH].
      unfold production_train.tensor_setitem.
      destruct (decide (k < length t)); [|reflexivity].
      cbn [Py.bind]. apply IH; [done|]. by rewrite length_insert.
Qed.

(** X7. [SyntheticMathDataset.__getitem__] sizes the label tensor by the
    number of dictionary keys.  When the vocabulary repeats a label, that
    number is smaller than the vocabulary, and an example that carries the
    vocabulary's last label makes [__getitem__] raise [IndexError]. *)
Theorem getitem_1m_raises_on_repeated_vocabulary
    (vocab : list string) (tokenizer : string → nat → production_train.encoding)
    (max_length : nat) (data : list train_colab_1m.item) (idx : nat)
    (it : train_colab_1m.item) (subs : list string) (v : string) :
  ¬ NoDup vocab →
  last vocab = Some v →
  data !! idx = Some it →
  train_colab_1m.substitutions it = Some subs →
  v ∈ subs →
  ∃ ds,
    train_colab_1m.SyntheticMathDataset_init data tokenizer vocab max_length = Py.Ok ds
    ∧ size (train_colab_1m.vocab_to_idx ds) < length vocab
    ∧ train_colab_1m.SyntheticMathDataset_getitem ds idx = Py.Raise Py.IndexError.
Proof.
  intros Hdup Hlast Hit Hsubs Hv.
  eexists. split; [reflexivity|]. cbn [train_colab_1m.vocab_to_idx].
  pose proof (index_dict_size_lt vocab Hdup) as Hsize. split; [exact Hsize|].
  unfold train_colab_1m.SyntheticMathDataset_getitem.
  cbn [train_colab_1m.data train_colab_1m.vocab_to_idx]. rewrite Hit, Hsubs.
  cbn [default]. unfold production_train.multi_hot.
  rewrite (mark_label_raises (Py.index_dict vocab) subs _ v (length vocab - 1)).
  - reflexivity.
  - exact Hv.
  - apply index_dict_lookup. rewrite last_lookup in Hlast.
    replace (length vocab - 1) with (pred (length vocab)) by lia.
    split; [done|]. intros j Hj. apply lookup_lt_Some in Hj. lia.
  - rewrite length_replicate. lia.
Qed.

Lemma getitem_1m_raises_on_repeated_vocabulary_witness :
  ¬ NoDup Samples.repeated_vocab
  ∧ last Samples.repeated_vocab = Some "x = 0"
  ∧ [Samples.as_synthetic Samples.item_x0] !! 0 = Some (Samples.as_synthetic Samples.item_x0)
  ∧ train_colab_1m.substitutions (Samples.as_synthetic Samples.item_x0) = Some ["x = 0"]
  ∧ "x = 0" ∈ ["x = 0"]
  ∧ ∃ ds,
      train_colab_1m.SyntheticMathDataset_init [Samples.as_synthetic Samples.item_x0]
        Samples.no_tokenizer Samples.repeated_vocab 256 = Py.Ok ds
      ∧ train_colab_1m.SyntheticMathDataset_getitem ds 0 = Py.Raise Py.IndexError.
Proof.
  assert (H1 : ¬ NoDup Samples.repeated_vocab).
  { intros H. apply NoDup_cons in H as [H _]. apply H.
    apply (bool_decide_unpack _). vm_compute. reflexivity. }
  assert (H5 : "x = 0" ∈ ["x = 0"]) by apply list_elem_of_here.
  split; [exact H1|]. split; [reflexivity|]. split; [reflexivity|].
  split; [reflexivity|]. split; [exact H5|].
  destruct (getitem_1m_raises_on_repeated_vocabulary Samples.repeated_vocab
              Samples.no_tokenizer 256 [Samples.as_synthetic Samples.item_x0] 0
              (Samples.as_synthetic Samples.item_x0) ["x = 0"] "x = 0"
              H1 eq_refl eq_refl eq_refl H5) as (ds & Hinit & _ & Hraise).
  exists ds. split; [exact Hinit|exact Hraise].
Defined.

(** X8. The label vector depends only on which tactic strings an example
    lists, not on their order or on repetitions: two tactic lists with the
    same elements give the same result, for every vocabulary. *)
Theorem label_vector_ignores_order_and_repeats
    (vocab subs subs' : list string) :
  (∀ s, s ∈ subs ↔ s ∈ subs') →
  production_train.multi_hot (length vocab) (Py.index_dict vocab) subs
  = production_train.multi_hot (length vocab) (Py.index_dict vocab) subs'.
Proof.
  intros Hsame. unfold production_train.multi_hot.
  destruct (multi_hot_loop (Py.index_dict vocab) subs (replicate (length vocab) 0%Q))
    as (t1 & -> & Hlen1 & Hone1 & Hkeep1).
  { intros s i Hs. rewrite length_replicate. by eapply index_dict_in_range. }
  destruct (multi_hot_loop (Py.index_dict vocab) subs' (replicate (length vocab) 0%Q))
    as (t2 & -> & Hlen2 & Hone2 & Hkeep2).
  { intros s i Hs. rewrite length_replicate. by eapply index_dict_in_range. }
  rewrite length_replicate in Hlen1, Hlen2, Hone1, Hone2.
  f_equal. apply list_eq. intros i.
  assert (Hiff : Exists (λ s, Py.index_dict vocab !! s = Some i) subs
                 ↔ Exists (λ s, Py.index_dict vocab !! s = Some i) subs').
  { rewrite !Exists_exists. split; intros (s & Hs & Hi); exists s;
      (split; [by apply Hsame|done]). }
  destruct (decide (Exists (λ s, Py.index_dict vocab !! s = Some i) subs)) as [Hex|Hnex].
  - destruct (decide (i < length vocab)) as [Hi|Hi].
    + rewrite Hone1, Hone2 by (done || by apply Hiff). done.
    + rewrite !lookup_ge_None_2 by lia. done.
  - rewrite Hkeep1, Hkeep2 by (done || by rewrite <- Hiff). done.
Qed.

Lemma label_vector_ignores_order_and_repeats_witness :
  (∀ s, s ∈ ["x = 0"; "y = 0"] ↔ s ∈ ["y = 0"; "x = 0"; "x = 0"])
  ∧ production_train.multi_hot (length production_train.VOCAB)
      (Py.index_dict production_train.VOCAB) ["x = 0"; "y = 0"]
    = production_train.multi_hot (length production_train.VOCAB)
        (Py.index_dict production_train.VOCAB) ["y = 0"; "x = 0"; "x = 0"].
Proof.
  assert (H : ∀ s, s ∈ ["x = 0"; "y = 0"] ↔ s ∈ ["y = 0"; "x = 0"; "x = 0"]).
  { intros s. rewrite !elem_of_cons. rewrite !elem_of_nil. tauto. }
  split; [exact H|].
  exact (label_vector_ignores_order_and_repeats production_train.VOCAB
           ["x = 0"; "y = 0"] ["y = 0"; "x = 0"; "x = 0"] H).
Defined.

(** X9. For a vocabulary of distinct labels the dictionary built by the
    dataset classes is a bijection between the labels and the positions
    [0 .. N-1]: it has exactly N keys, and [vocab_to_idx[v] = i] holds
    exactly when [vocab[i] = v]. *)
Theorem distinct_vocabulary_bijection
    (data : list production_train.item)
    (tokenizer : string → nat → production_train.encoding)
    (vocab : list string) (max_length : nat) :
  NoDup vocab →
  ∃ ds,
    production_train.IMODataset_init data tokenizer vocab max_length = Py.Ok ds
    ∧ size (production_train.vocab_to_idx ds) = length vocab
    ∧ ∀ v i, production_train.vocab_to_idx ds !! v = Some i ↔ vocab !! i = Some v.
Proof.
  intros Hnd. eexists. split; [reflexivity|]. cbn [production_train.vocab_to_idx].
  split; [by apply index_dict_size_NoDup|].
  intros v i. split.
  - intros H. by apply index_dict_lookup in H as [H _].
  - by apply index_dict_NoDup.
Qed.

Lemma distinct_vocabulary_bijection_witness :
  NoDup production_train.VOCAB
  ∧ ∃ ds,
      production_train.IMODataset_init [] Samples.no_tokenizer production_train.VOCAB 256
      = Py.Ok ds
      ∧ size (production_train.vocab_to_idx ds) = 20.
Proof.
  assert (Hnd : NoDup production_train.VOCAB)
    by (apply (bool_decide_unpack _); vm_compute; reflexivity).
  split; [exact Hnd|].
  destruct (distinct_vocabulary_bijection [] Samples.no_tokenizer
              production_train.VOCAB 256 Hnd) as (ds & Hinit & Hsize & _).
  exists ds. split; [exact Hinit|exact Hsize].
Defined.

(** ** Micro-averaged scores on flattened arrays *)

Lemma Qeq_bool_sym (a b : Q) : Qeq_bool a b = Qeq_bool b a.
Proof.
  destruct (Qeq_bool a b) eqn:Hab, (Qeq_bool b a) eqn:Hba; try done.
  - apply Qeq_bool_iff in Hab. symmetry in Hab. apply Qeq_bool_iff in Hab. congruence.
  - apply Qeq_bool_iff in Hba. symmetry in Hba. apply Qeq_bool_iff in Hba. congruence.
Qed.

Lemma Qeq_bool_trans (a b c : Q) :
  Qeq_bool a b = true → Qeq_bool b c = true → Qeq_bool a c = true.
Proof.
  rewrite !Qeq_bool_iff. intros H1 H2. by rewrite H1.
Qed.

Lemma existsb_unique_labels (x : Q) (ys : list Q) :
  existsb (Qeq_bool x) (Sklearn.unique_labels ys) = existsb (Qeq_bool x) ys.
Proof.
  induction ys as [|y ys IH]; [done|]. cbn [Sklearn.unique_labels existsb].
  destruct (existsb (Qeq_bool y) (Sklearn.unique_labels ys)) eqn:Hy.
  - rewrite IH. destruct (Qeq_bool x y) eqn:Hxy; [|done]. cbn [orb].
    rewrite <- IH. apply existsb_exists in Hy as (z & Hz & Hyz).
    apply existsb_exists. exists z. split; [done|]. by eapply Qeq_bool_trans.
  - cbn [existsb]. by rewrite IH.
Qed.

(** Among the classes found by [unique_labels], exactly one equals a value
    that occurs in the arrays. *)
Lemma one_class_per_value (x : Q) (ys : list Q) :
  sum_list_with (λ c, if Qeq_bool c x then 1 else 0) (Sklearn.unique_labels ys)
  = if existsb (Qeq_bool x) ys then 1 else 0.
Proof.
  induction ys as [|y ys IH]; [done|]. cbn [Sklearn.unique_labels existsb].
  destruct (existsb (Qeq_bool y) (Sklearn.unique_labels ys)) eqn:Hy.
  - rewrite IH. destruct (Qeq_bool x y) eqn:Hxy; [|done]. cbn [orb].
    rewrite existsb_unique_labels in Hy.
    apply existsb_exists in Hy as (z & Hz & Hyz).
    assert (existsb (Qeq_bool x) ys = true) as ->; [|done].
    apply existsb_exists. exists z. split; [done|]. by eapply Qeq_bool_trans.
  - cbn [sum_list_with]. rewrite IH, (Qeq_bool_sym y x).
    destruct (Qeq_bool x y) eqn:Hxy; [|done]. cbn [orb].
    destruct (existsb (Qeq_bool x) ys) eqn:Hx; [|done].
    exfalso. rewrite existsb_unique_labels in Hy.
    apply existsb_exists in Hx as (z & Hz & Hxz).
    assert (existsb (Qeq_bool y) ys = true); [|congruence].
    apply existsb_exists. exists z. split; [done|].
    rewrite Qeq_bool_sym in Hxy. by eapply Qeq_bool_trans.
Qed.

Lemma sum_count_swap {A : Type} (L : list Q) (q : Q → A → bool) (zs : list A) :
  sum_list_with (λ c, Np.count_if (q c) zs) L
  = sum_list_with (λ a, sum_list_with (λ c, if q c a then 1 else 0) L) zs.
Proof.
  induction zs as [|z zs IH].
  - simpl. induction L as [|c L IHL]; [done|]. simpl. by rewrite IHL.
  - cbn [sum_list_with]. rewrite <- IH. clear IH.
    induction L as [|c L IHL]; [done|]. cbn [sum_list_with]. rewrite IHL.
    unfold Np.count_if. cbn [List.filter]. destruct (q c z); simpl; lia.
Qed.

Lemma sum_counts_components (cs : list Sklearn.counts) :
  Sklearn.sum_counts cs
  = (sum_list_with (λ c, c.1.1) cs, sum_list_with (λ c, c.1.2) cs,
     sum_list_with (λ c, c.2) cs).
Proof.
  unfold Sklearn.sum_counts.
  assert (H : ∀ a b c,
    foldl (λ acc c0 : Sklearn.counts,
             (acc.1.1 + c0.1.1, acc.1.2 + c0.1.2, acc.2 + c0.2)) (a, b, c) cs
    = (a + sum_list_with (λ c, c.1.1) cs, b + sum_list_with (λ c, c.1.2) cs,
       c + sum_list_with (λ c, c.2) cs)).
  { induction cs as [|c0 cs IH]; intros a b c.
    - simpl. by rewrite !Nat.add_0_r.
    - cbn [foldl sum_list_with fst snd]. rewrite IH. f_equal; [f_equal|]; lia. }
  apply (H 0 0 0).
Qed.

Lemma sum_list_with_fmap {A B : Type} (f : B → nat) (g : A → B) (l : list A) :
  sum_list_with f (g <$> l) = sum_list_with (λ a, f (g a)) l.
Proof. induction l as [|a l IH]; [done|]. rewrite fmap_cons. simpl. by rewrite IH. Qed.

Lemma sum_list_with_ext_in {A : Type} (f g : A → nat) (l : list A) :
  (∀ a, a ∈ l → f a = g a) → sum_list_with f l = sum_list_with g l.
Proof.
  induction l as [|a l IH]; intros H; [done|]. simpl.
  rewrite (H a) by apply list_elem_of_here.
  rewrite IH; [done|]. intros b Hb. apply H. by apply list_elem_of_further.
Qed.

Lemma sum_list_with_indicator {A : Type} (p : A → bool) (l : list A) :
  sum_list_with (λ a, if p a then 1 else 0) l = Np.count_if p l.
Proof.
  unfold Np.count_if. induction l as [|a l IH]; [done|]. simpl.
  rewrite IH. by destruct (p a).
Qed.

Lemma Qeq_bool_refl (x : Q) : Qeq_bool x x = true.
Proof. by apply Qeq_bool_iff. Qed.

Lemma existsb_self (x : Q) (ys : list Q) : x ∈ ys → existsb (Qeq_bool x) ys = true.
Proof.
  intros Hin. apply existsb_exists. exists x. split.
  - by apply list_elem_of_In.
  - apply Qeq_bool_refl.
Qed.

Lemma sum_list_with_ones {A : Type} (f : A → nat) (l : list A) :
  (∀ a, a ∈ l → f a = 1) → sum_list_with f l = length l.
Proof.
  intros H. rewrite (sum_list_with_ext_in f (λ _, 1) l H). clear H.
  induction l as [|a l IH]; [done|]. simpl. by rewrite IH.
Qed.

Lemma sum_list_with_zeros {A : Type} (l : list A) : sum_list_with (λ _, 0) l = 0.
Proof. induction l as [|a l IH]; [done|]. simpl. exact IH. Qed.

(** Pooled over the classes, the true positives are the cells on which the
    two arrays agree, and both the predicted and the true counts are the
    number of cells. *)
Lemma micro_counts_flat (y_true y_pred : list Q) :
  Sklearn.sum_counts
    (Sklearn.class_counts y_true y_pred <$> Sklearn.unique_labels (y_true ++ y_pred))
  = (Np.count_if (λ tp, Qeq_bool tp.1 tp.2) (zip y_true y_pred),
     length y_pred, length y_true).
Proof.
  rewrite sum_counts_components, !sum_list_with_fmap.
  unfold Sklearn.class_counts. cbn [fst snd].
  set (L := Sklearn.unique_labels (y_true ++ y_pred)).
  assert (Hone : ∀ x, x ∈ y_true ++ y_pred →
            sum_list_with (λ c, if Qeq_bool c x then 1 else 0) L = 1).
  { intros x Hx. unfold L. rewrite one_class_per_value.
    by rewrite existsb_self. }
  f_equal; [f_equal|].
  - rewrite (sum_count_swap L (λ c (tp : Q * Q), Qeq_bool tp.1 tp.2 && Qeq_bool tp.1 c)).
    rewrite <- sum_list_with_indicator. apply sum_list_with_ext_in.
    intros [t p] Htp. cbn [fst snd].
    destruct (Qeq_bool t p); cbn [andb].
    + etrans; [|apply (Hone t); apply elem_of_app; left; by eapply elem_of_zip_l].
      apply sum_list_with_ext_in. intros c _. cbn beta.
      by rewrite (Qeq_bool_sym t c).
    + apply sum_list_with_zeros.
  - rewrite (sum_count_swap L Qeq_bool). apply sum_list_with_ones.
    intros p Hp. apply Hone. apply elem_of_app. by right.
  - rewrite (sum_count_swap L Qeq_bool). apply sum_list_with_ones.
    intros t Ht. apply Hone. apply elem_of_app. by left.
Qed.

Lemma prf_divide_double (a n : nat) :
  (Sklearn.prf_divide (2 * a) (n + n) == Sklearn.prf_divide a n)%Q.
Proof.
  unfold Sklearn.prf_divide.
  destruct (Nat.eqb_spec n 0) as [->|Hn]; [reflexivity|].
  destruct (Nat.eqb_spec (n + n) 0) as [?|_]; [lia|].
  unfold Fl.of_nat. rewrite !Nat2Z.inj_mul, !Nat2Z.inj_add.
  rewrite inject_Z_mult, inject_Z_plus. change (inject_Z (Z.of_nat 2)) with 2%Q.
  field. unfold Qeq. simpl. lia.
Qed.

Lemma prf_divide_unit_interval (a n : nat) :
  a ≤ n → (0 <= Sklearn.prf_divide a n <= 1)%Q.
Proof.
  intros Hle. unfold Sklearn.prf_divide.
  destruct (Nat.eqb_spec n 0) as [->|Hn]; [split; discriminate|].
  unfold Fl.of_nat, Qdiv, Qle, Qmult, Qinv, inject_Z. simpl.
  destruct (Z.of_nat n) as [|pn|pn] eqn:Hpn; [lia| |lia]. simpl. split; nia.
Qed.

Lemma count_if_le_length {A : Type} (p : A → bool) (l : list A) :
  Np.count_if p l ≤ length l.
Proof.
  unfold Np.count_if. induction l as [|a l IH]; [done|]. simpl.
  destruct (p a); simpl; lia.
Qed.

Lemma eval_loop_state (loader : list production_train.eval_batch)
    (st : production_train.eval_state) :
  foldl production_train.eval_step st loader
  = {| production_train.total_loss :=
         foldl Fl.add (production_train.total_loss st)
           (production_train.batch_loss <$> loader);
       production_train.all_preds :=
         production_train.all_preds st
         ++ concat ((λ b, Torch.threshold_preds (production_train.logits b)) <$> loader);
       production_train.all_labels :=
         production_train.all_labels st
         ++ concat (production_train.batch_labels <$> loader) |}.
Proof.
  revert st. induction loader as [|b l IH]; intros st.
  - simpl. rewrite !app_nil_r. by destruct st.
  - cbn [foldl]. rewrite IH. unfold production_train.eval_step.
    cbn [production_train.total_loss production_train.all_preds
         production_train.all_labels].
    rewrite !fmap_cons. cbn [foldl concat]. by rewrite <- !app_assoc.
Qed.

(** X10. Whenever [evaluate] of [production_train.py] returns, the
    precision, the recall and the F1 it reports are one and the same number:
    the fraction of (example, label) cells on which the thresholded
    prediction equals the label.  It lies between 0 and 1.  (The flattened
    arrays make scikit-learn pool the counts of the classes 0 and 1 alike.) *)
Theorem evaluate_micro_scores_are_cell_accuracy
    (loader : list production_train.eval_batch) (m : production_train.metrics) :
  production_train.evaluate loader = Py.Ok m →
  let y_pred :=
    concat (concat ((λ b, Torch.threshold_preds (production_train.logits b)) <$> loader)) in
  let y_true := concat (concat (production_train.batch_labels <$> loader)) in
  let agree := Np.count_if (λ tp, Qeq_bool tp.1 tp.2) (zip y_true y_pred) in
  production_train.precision m = Sklearn.prf_divide agree (length y_pred)
  ∧ production_train.recall m = production_train.precision m
  ∧ (production_train.f1 m == production_train.precision m)%Q
  ∧ (0 <= production_train.precision m <= 1)%Q.
Proof.
  intros Hrun. cbv zeta.
  unfold production_train.evaluate in Hrun. rewrite eval_loop_state in Hrun.
  cbn [production_train.total_loss production_train.all_preds
       production_train.all_labels app] in Hrun.
  unfold production_train.calculate_metrics in Hrun.
  destruct (production_train.exact_match _ _) as [acc|e]; [|done].
  cbn [mbind result_bind Py.bind] in Hrun.
  unfold Sklearn.prfs_micro_1d in Hrun.
  destruct (Nat.eqb_spec (length (concat (concat (production_train.batch_labels <$> loader))))
              (length (concat (concat ((λ b, Torch.threshold_preds
                                               (production_train.logits b)) <$> loader)))))
    as [Hlen|?]; [|done].
  cbn [negb] in Hrun.
  destruct (forallb Sklearn.is_integral _); [|done].
  cbn [negb Py.bind] in Hrun. rewrite micro_counts_flat in Hrun.
  destruct (Fl.pydiv_nat _ _) as [l|e]; [|done].
  cbn [Py.bind mret result_ret] in Hrun. injection Hrun as <-.
  cbn [production_train.precision production_train.recall production_train.f1
       Sklearn.precision Sklearn.recall Sklearn.fscore Sklearn.prf_of_counts fst snd].
  split; [reflexivity|]. split; [by rewrite Hlen|]. split.
  - rewrite Hlen. apply prf_divide_double.
  - apply prf_divide_unit_interval.
    etrans; [apply count_if_le_length|]. rewrite length_zip. lia.
Qed.

Lemma evaluate_micro_scores_are_cell_accuracy_witness :
  production_train.evaluate [Samples.example_batch]
  = Py.Ok {| production_train.loss := Fl.Fin (1 # 2);
             production_train.accuracy := Fl.Fin (1 # 2);
             production_train.precision := (5 # 6)%Q;
             production_train.recall := (5 # 6)%Q;
             production_train.f1 := (10 # 12)%Q |}
  ∧ (10 # 12 == 5 # 6)%Q.
Proof.
  assert (Hev : production_train.evaluate [Samples.example_batch]
                = Py.Ok {| production_train.loss := Fl.Fin (1 # 2);
                           production_train.accuracy := Fl.Fin (1 # 2);
                           production_train.precision := (5 # 6)%Q;
                           production_train.recall := (5 # 6)%Q;
                           production_train.f1 := (10 # 12)%Q |}).
  { unfold production_train.evaluate. cbn [foldl length].
    unfold production_train.eval_step.
    cbn [production_train.total_loss production_train.all_preds
         production_train.all_labels].
    change (production_train.logits Samples.example_batch) with Samples.example_logits.
    rewrite example_logits_threshold. vm_compute. reflexivity. }
  split; [exact Hev|].
  exact (proj1 (proj2 (proj2 (evaluate_micro_scores_are_cell_accuracy
                                [Samples.example_batch] _ Hev)))).
Defined.

(** ** When [evaluate] returns *)

Lemma to_float_integral (b : bool) : Sklearn.is_integral (Torch.to_float b) = true.
Proof. by destruct b. Qed.

Lemma threshold_preds_integral (logits : list (list R)) :
  forallb Sklearn.is_integral (concat (Torch.threshold_preds logits)) = true.
Proof.
  unfold Torch.threshold_preds. induction logits as [|row logits IH]; [done|].
  cbn [map concat]. rewrite forallb_app, IH, andb_true_r.
  induction row as [|x row IHrow]; [done|]. cbn [map forallb].
  by rewrite to_float_integral, IHrow.
Qed.

Lemma threshold_preds_length (logits : list (list R)) :
  length (concat (Torch.threshold_preds logits)) = length (concat logits).
Proof.
  unfold Torch.threshold_preds. induction logits as [|row logits IH]; [done|].
  cbn [map concat]. by rewrite !length_app, length_map, IH.
Qed.

Lemma threshold_preds_nil (logits : list (list R)) :
  Torch.threshold_preds logits = [] ↔ logits = [].
Proof. unfold Torch.threshold_preds. by destruct logits. Qed.

Lemma all_preds_nil (loader : list production_train.eval_batch) :
  concat ((λ b, Torch.threshold_preds (production_train.logits b)) <$> loader) = []
  ↔ Forall (λ b, production_train.logits b = []) loader.
Proof.
  induction loader as [|b l IH].
  - split; [constructor|done].
  - rewrite fmap_cons. cbn [concat]. rewrite Forall_cons, <- IH. split.
    + intros H. apply app_eq_nil in H as [H1 H2]. by apply threshold_preds_nil in H1.
    + intros [H1 H2]. by rewrite H1, H2.
Qed.

Lemma aligned_rows (labels : list (list Q)) (logits : list (list R)) :
  Forall2 (λ lrow prow, length lrow = length prow
                        ∧ Forall (λ x, x = 0%Q ∨ x = 1%Q) lrow) labels logits →
  length (concat labels) = length (concat logits)
  ∧ forallb Sklearn.is_integral (concat labels) = true.
Proof.
  induction 1 as [|lrow prow ls ps [Hlen H01] _ [IHa IHb]]; [done|].
  cbn [concat]. rewrite !length_app, forallb_app, Hlen, IHa, IHb, andb_true_r.
  split; [done|]. clear -H01.
  induction H01 as [|x lrow [->| ->] _ IH]; [done| |]; cbn [forallb]; by rewrite IH.
Qed.

(** A validation batch as a data loader produces it: one label row per
    logit row, of the same width, holding zeros and ones. *)
Lemma aligned_cells (loader : list production_train.eval_batch) :
  Forall (λ b, Forall2 (λ lrow prow, length lrow = length prow
                                     ∧ Forall (λ x, x = 0%Q ∨ x = 1%Q) lrow)
                 (production_train.batch_labels b) (production_train.logits b)) loader →
  length (concat (concat (production_train.batch_labels <$> loader)))
  = length (concat (concat ((λ b, Torch.threshold_preds (production_train.logits b))
                              <$> loader)))
  ∧ forallb Sklearn.is_integral
      (concat (concat (production_train.batch_labels <$> loader))) = true
  ∧ forallb Sklearn.is_integral
      (concat (concat ((λ b, Torch.threshold_preds (production_train.logits b))
                         <$> loader))) = true.
Proof.
  induction 1 as [|b l Hb _ (IH1 & IH2 & IH3)]; [done|].
  rewrite !fmap_cons. cbn [concat]. rewrite !concat_app, !length_app, !forallb_app.
  rewrite IH1, IH2, IH3, threshold_preds_integral, threshold_preds_length, !andb_true_r.
  destruct (aligned_rows _ _ Hb) as [-> ->]. done.
Qed.

(** X11. On validation batches that pair every logit row with a 0/1 label
    row of the same width, [evaluate] of [production_train.py] raises
    [AxisError] exactly when the loader holds no example at all (an empty
    loader, or only empty batches), and returns its metrics in every other
    case, the loss being the sum of the batch losses over the number of
    batches. *)
Theorem evaluate_needs_one_example (loader : list production_train.eval_batch) :
  Forall (λ b, Forall2 (λ lrow prow, length lrow = length prow
                                     ∧ Forall (λ x, x = 0%Q ∨ x = 1%Q) lrow)
                 (production_train.batch_labels b) (production_train.logits b)) loader →
  (production_train.evaluate loader = Py.Raise Py.AxisError
   ↔ Forall (λ b, production_train.logits b = []) loader)
  ∧ (Forall (λ b, production_train.logits b = []) loader
     ∨ ∃ m, production_train.evaluate loader = Py.Ok m
            ∧ production_train.loss m
              = Fl.div_nat (Fl.sum (production_train.batch_loss <$> loader))
                  (length loader)).
Proof.
  intros Hshape. destruct (aligned_cells loader Hshape) as (Hlen & Hint1 & Hint2).
  unfold production_train.evaluate. rewrite eval_loop_state.
  cbn [production_train.total_loss production_train.all_preds
       production_train.all_labels app].
  unfold production_train.calculate_metrics, production_train.exact_match.
  destruct (concat ((λ b, Torch.threshold_preds (production_train.logits b)) <$> loader))
    as [|row rows] eqn:Hpreds.
  - apply all_preds_nil in Hpreds. split; [|by left]. split; done.
  - assert (Hsome : ¬ Forall (λ b, production_train.logits b = []) loader).
    { intros H. apply all_preds_nil in H. congruence. }
    cbn [mbind result_bind Py.bind].
    unfold Sklearn.prfs_micro_1d.
    rewrite Hlen, Nat.eqb_refl. cbn [negb].
    rewrite forallb_app, Hint1, Hint2. cbn [andb negb Py.bind].
    unfold Fl.pydiv_nat.
    destruct loader as [|b l]; [done|].
    cbn [length Nat.eqb mbind result_bind Py.bind mret result_ret].
    split; [split; [done|intros H; by apply Hsome in H]|].
    right. eexists. split; [reflexivity|]. reflexivity.
Qed.

Lemma evaluate_needs_one_example_witness :
  Forall (λ b, Forall2 (λ lrow prow, length lrow = length prow
                                     ∧ Forall (λ x, x = 0%Q ∨ x = 1%Q) lrow)
                 (production_train.batch_labels b) (production_train.logits b))
    [Samples.example_batch]
  ∧ ¬ (production_train.evaluate [Samples.example_batch] = Py.Raise Py.AxisError).
Proof.
  assert (H : Forall (λ b, Forall2 (λ lrow prow, length lrow = length prow
                                     ∧ Forall (λ x, x = 0%Q ∨ x = 1%Q) lrow)
                 (production_train.batch_labels b) (production_train.logits b))
                [Samples.example_batch]).
  { repeat match goal with
           | |- Forall _ _ => constructor
           | |- Forall2 _ _ _ => constructor
           | |- _ ∧ _ => split
           | |- _ ∨ _ => first [left; reflexivity | right; reflexivity]
           | |- _ = _ => reflexivity
           end. }
  split; [exact H|].
  intros Hraise.
  apply (proj1 (evaluate_needs_one_example [Samples.example_batch] H)) in Hraise.
  apply Forall_cons in Hraise as [Hnil _]. discriminate Hnil.
Defined.

(** ** Micro-averaged scores on indicator matrices *)

Lemma sum_list_with_seq_S (f : nat → nat) (n : nat) :
  sum_list_with f (seq 1 n) = sum_list_with (λ j, f (S j)) (seq 0 n).
Proof. by rewrite <- fmap_S_seq, sum_list_with_fmap. Qed.

Lemma sum_list_with_add {A : Type} (f g : A → nat) (l : list A) :
  sum_list_with (λ a, f a + g a) l = sum_list_with f l + sum_list_with g l.
Proof. induction l as [|a l IH]; [done|]. simpl. rewrite IH. lia. Qed.

Lemma count_if_app {A : Type} (p : A → bool) (a b : list A) :
  Np.count_if p (a ++ b) = Np.count_if p a + Np.count_if p b.
Proof. unfold Np.count_if. by rewrite List.filter_app, length_app. Qed.

(** Counting a row cell by cell. *)
Lemma count_row_by_position (q : Z → Z → bool) (t p : list Z) :
  length t = length p →
  sum_list_with (λ j, if q (default 0%Z (t !! j)) (default 0%Z (p !! j)) then 1 else 0)
    (seq 0 (length t))
  = Np.count_if (λ tp, q tp.1 tp.2) (zip t p).
Proof.
  revert p. induction t as [|x t IH]; intros [|y p] Hlen; try done.
  injection Hlen as Hlen.
  cbn [length seq sum_list_with]. rewrite sum_list_with_seq_S.
  cbn [lookup list_lookup default]. rewrite IH by done.
  unfold Np.count_if. cbn [zip zip_with List.filter fst snd]. unfold Datatypes.id.
  destruct (q x y); simpl; lia.
Qed.

(** Summed over the label columns, the per-label counts are the counts over
    all cells of the matrices. *)
Lemma count_columns (q : Z → Z → bool) (N : nat) (T P : list (list Z)) :
  Forall2 (λ t p, length t = N ∧ length p = N) T P →
  sum_list_with
    (λ j, Np.count_if (λ tp, q tp.1 tp.2) (zip (Sklearn.column j T) (Sklearn.column j P)))
    (seq 0 N)
  = Np.count_if (λ tp, q tp.1 tp.2) (zip (concat T) (concat P)).
Proof.
  induction 1 as [|t p T P [Ht Hp] _ IH].
  - cbn. apply sum_list_with_zeros.
  - cbn [concat]. rewrite zip_with_app by lia.
    rewrite count_if_app, <- IH, <- (count_row_by_position q t p) by lia.
    rewrite Ht, <- sum_list_with_add.
    apply sum_list_with_ext_in. intros j _. cbn beta.
    unfold Sklearn.column. rewrite !fmap_cons.
    unfold Np.count_if. cbn [zip zip_with List.filter fst snd].
    destruct (q (default 0%Z (t !! j)) (default 0%Z (p !! j))); simpl; lia.
Qed.

Lemma n_labels_aligned (N : nat) (T P : list (list Z)) :
  Forall2 (λ t p, length t = N ∧ length p = N) T P →
  T = [] ∨ Sklearn.n_labels T = N.
Proof. destruct 1 as [|t p T P [Ht _] _]; [by left|by right]. Qed.

Lemma count_if_zip_r {A B : Type} (f : B → bool) (a : list A) (b : list B) :
  length a = length b →
  Np.count_if (λ ab : A * B, f ab.2) (zip a b) = Np.count_if f b.
Proof.
  revert b. unfold Np.count_if.
  induction a as [|x a IH]; intros [|y b] Hlen; try done.
  cbn [zip zip_with List.filter snd]. simpl in Hlen.
  destruct (f y); simpl; rewrite IH by lia; done.
Qed.

Lemma count_if_zip_l {A B : Type} (f : A → bool) (a : list A) (b : list B) :
  length a = length b →
  Np.count_if (λ ab : A * B, f ab.1) (zip a b) = Np.count_if f a.
Proof.
  revert b. unfold Np.count_if.
  induction a as [|x a IH]; intros [|y b] Hlen; try done.
  cbn [zip zip_with List.filter fst]. simpl in Hlen.
  destruct (f x); simpl; rewrite IH by lia; done.
Qed.

Lemma aligned_concat_length (N : nat) (T P : list (list Z)) :
  Forall2 (λ t p, length t = N ∧ length p = N) T P →
  length (concat T) = length (concat P) ∧ length T = length P.
Proof.
  induction 1 as [|t p T P [Ht Hp] _ [IH1 IH2]]; [done|].
  cbn [concat length]. rewrite !length_app. lia.
Qed.

Lemma column_length (j : nat) (M : list (list Z)) : length (Sklearn.column j M) = length M.
Proof. unfold Sklearn.column. by rewrite length_fmap. Qed.

Lemma micro_counts_multilabel (N : nat) (T P : list (list Z)) :
  Forall2 (λ t p, length t = N ∧ length p = N) T P →
  Sklearn.sum_counts (Sklearn.all_label_counts T P)
  = (Np.count_if (λ tp, Sklearn.nonzero (tp.1 * tp.2)) (zip (concat T) (concat P)),
     Np.count_if Sklearn.nonzero (concat P),
     Np.count_if Sklearn.nonzero (concat T)).
Proof.
  intros Hshape. destruct (aligned_concat_length N T P Hshape) as [Hcells Hrows].
  unfold Sklearn.all_label_counts.
  rewrite sum_counts_components, !sum_list_with_fmap.
  unfold Sklearn.label_counts. cbn [fst snd].
  destruct (n_labels_aligned N T P Hshape) as [->| ->].
  { inversion Hshape; subst. reflexivity. }
  f_equal; [f_equal|].
  - apply (count_columns (λ t p, Sklearn.nonzero (t * p)) N T P Hshape).
  - rewrite <- (count_if_zip_r Sklearn.nonzero (concat T) (concat P)) by done.
    rewrite <- (count_columns (λ _ p, Sklearn.nonzero p) N T P Hshape).
    apply sum_list_with_ext_in. intros j _.
    symmetry. apply count_if_zip_r. by rewrite !column_length.
  - rewrite <- (count_if_zip_l Sklearn.nonzero (concat T) (concat P)) by done.
    rewrite <- (count_columns (λ t _, Sklearn.nonzero t) N T P Hshape).
    apply sum_list_with_ext_in. intros j _.
    symmetry. apply count_if_zip_l. by rewrite !column_length.
Qed.

Lemma count_if_mono {A : Type} (p q : A → bool) (l : list A) :
  (∀ a, p a = true → q a = true) → Np.count_if p l ≤ Np.count_if q l.
Proof.
  intros Hpq. unfold Np.count_if. induction l as [|a l IH]; [done|]. simpl.
  destruct (p a) eqn:Hp.
  - rewrite (Hpq a Hp). simpl. lia.
  - destruct (q a); simpl; lia.
Qed.

Lemma nonzero_mul (t p : Z) :
  Sklearn.nonzero (t * p) = true → Sklearn.nonzero t = true ∧ Sklearn.nonzero p = true.
Proof.
  unfold Sklearn.nonzero. rewrite !negb_true_iff, !Z.eqb_neq. nia.
Qed.

Lemma binary_matrices_aligned (N : nat) (f g : Q → Z) (labels preds : list (list Q)) :
  Forall2 (λ lrow prow, length lrow = N ∧ length prow = N) labels preds →
  Forall2 (λ t p, length t = N ∧ length p = N) (map (map f) labels) (map (map g) preds).
Proof.
  induction 1 as [|l p ls ps [Hl Hp] _ IH]; [constructor|].
  cbn [map]. constructor; [|done]. by rewrite !length_map.
Qed.

(** X12. [compute_metrics] of [train_colab_fixed.py] on a 0/1 label
    matrix and a probability matrix of the same shape, with at least one
    example and at least two labels (the matrices scikit-learn reads as
    multilabel indicators): the micro-averaged precision, recall and F1 come
    from the cell counts pooled over the whole matrix, TP (label 1 and
    probability above 0.5), predicted positives and actual positives, as
    TP/PP, TP/AP and 2TP/(AP+PP), with 0 for a zero denominator; each of
    them lies between 0 and 1. *)
Theorem compute_metrics_pools_cells (N : nat) (preds labels : list (list Q)) :
  2 ≤ N →
  labels ≠ [] →
  Forall (Forall (λ q, Np.astype_int q = 0%Z ∨ Np.astype_int q = 1%Z)) labels →
  Forall2 (λ lrow prow, length lrow = N ∧ length prow = N) labels preds →
  let y_true := concat (map (map Np.astype_int) labels) in
  let y_pred := concat (map (map (λ p, Z.b2z (Np.gt_half p))) preds) in
  let TP := Np.count_if (λ tp, Sklearn.nonzero (tp.1 * tp.2)) (zip y_true y_pred) in
  let PP := Np.count_if Sklearn.nonzero y_pred in
  let AP := Np.count_if Sklearn.nonzero y_true in
  let m := train_colab_fixed.compute_metrics preds labels in
  train_colab_fixed.precision m = Sklearn.prf_divide TP PP
  ∧ train_colab_fixed.recall m = Sklearn.prf_divide TP AP
  ∧ train_colab_fixed.micro_f1 m = Sklearn.prf_divide (2 * TP) (AP + PP)
  ∧ (0 <= train_colab_fixed.precision m <= 1)%Q
  ∧ (0 <= train_colab_fixed.recall m <= 1)%Q
  ∧ (0 <= train_colab_fixed.micro_f1 m <= 1)%Q.
Proof.
  intros _ _ _ Hshape y_true y_pred TP PP AP m.
  pose proof (binary_matrices_aligned N Np.astype_int (λ p, Z.b2z (Np.gt_half p))
                labels preds Hshape) as Hbin.
  pose proof (micro_counts_multilabel N _ _ Hbin) as Hcounts.
  destruct (aligned_concat_length N _ _ Hbin) as [Hcells _].
  fold y_true y_pred in Hcounts, Hcells. fold TP PP AP in Hcounts.
  assert (HTPP : TP ≤ PP).
  { unfold TP, PP. rewrite <- (count_if_zip_r Sklearn.nonzero y_true y_pred) by done.
    apply count_if_mono. intros [t p] H. by apply nonzero_mul in H as [_ ?]. }
  assert (HTAP : TP ≤ AP).
  { unfold TP, AP. rewrite <- (count_if_zip_l Sklearn.nonzero y_true y_pred) by done.
    apply count_if_mono. intros [t p] H. by apply nonzero_mul in H as [? _]. }
  unfold m, train_colab_fixed.compute_metrics, Sklearn.prfs_micro_multilabel.
  cbn [train_colab_fixed.precision train_colab_fixed.recall train_colab_fixed.micro_f1].
  rewrite Hcounts. unfold Sklearn.prf_of_counts.
  cbn [Sklearn.precision Sklearn.recall Sklearn.fscore fst snd].
  split; [done|]. split; [done|]. split; [done|].
  split; [by apply prf_divide_unit_interval|].
  split; [by apply prf_divide_unit_interval|].
  apply prf_divide_unit_interval. lia.
Qed.

Lemma compute_metrics_pools_cells_witness :
  2 ≤ 3
  ∧ Samples.ground_truth ≠ []
  ∧ Forall (Forall (λ q, Np.astype_int q = 0%Z ∨ Np.astype_int q = 1%Z))
      Samples.ground_truth
  ∧ Forall2 (λ lrow prow, length lrow = 3 ∧ length prow = 3)
      Samples.ground_truth Samples.example_probs
  ∧ train_colab_fixed.micro_f1
      (train_colab_fixed.compute_metrics Samples.example_probs Samples.ground_truth)
    = Sklearn.prf_divide (2 * 2) (3 + 2).
Proof.
  assert (H1 : 2 ≤ 3) by lia.
  assert (H2 : Samples.ground_truth ≠ []) by discriminate.
  assert (H3 : Forall (Forall (λ q, Np.astype_int q = 0%Z ∨ Np.astype_int q = 1%Z))
                 Samples.ground_truth).
  { repeat match goal with
           | |- Forall _ _ => constructor
           | |- _ ∨ _ => first [left; reflexivity|right; reflexivity]
           end. }
  assert (H : Forall2 (λ lrow prow, length lrow = 3 ∧ length prow = 3)
                Samples.ground_truth Samples.example_probs).
  { repeat (constructor; [split; reflexivity|]). constructor. }
  split; [exact H1|]. split; [exact H2|]. split; [exact H3|]. split; [exact H|].
  exact (proj1 (proj2 (proj2 (compute_metrics_pools_cells 3 Samples.example_probs
                                Samples.ground_truth H1 H2 H3 H)))).
Defined.

(** ** The epoch loops of the colab scripts *)

Lemma Qltb_lt (a b : Q) : Fl.Qltb a b = true ↔ (a < b)%Q.
Proof.
  unfold Fl.Qltb. rewrite negb_true_iff, <- not_true_iff_false, Qle_bool_iff.
  split; [apply Qnot_le_lt|apply Qlt_not_le].
Qed.

Lemma Qltb_ge (a b : Q) : Fl.Qltb a b = false ↔ (b <= a)%Q.
Proof.
  unfold Fl.Qltb. rewrite negb_false_iff. apply Qle_bool_iff.
Qed.





Lemma checkpoint_in_saved (r epoch c : nat) (saved : list Fs.save_event) :
  Fs.Checkpoint c ∈ (if Nat.eqb r 0 then saved ++ [Fs.Checkpoint epoch] else saved)
  ↔ Fs.Checkpoint c ∈ saved ∨ (c = epoch ∧ r = 0).
Proof.
  destruct (Nat.eqb_spec r 0) as [->|Hr].
  - rewrite elem_of_app, list_elem_of_singleton. split.
    + intros [?|[= ->]]; [by left|by right].
    + intros [?|[-> _]]; [by left|by right].
  - split; [by left|]. intros [?|[_ ?]]; done.
Qed.

Lemma save_best_in_checkpointed (r epoch c : nat) (saved : list Fs.save_event) :
  Fs.SaveBest c ∈ (if Nat.eqb r 0 then saved ++ [Fs.Checkpoint epoch] else saved)
  ↔ Fs.SaveBest c ∈ saved.
Proof.
  destruct (Nat.eqb r 0); [|done].
  rewrite elem_of_app, list_elem_of_singleton. split; [|by left].
  intros [?|?]; done.
Qed.




Lemma epoch_loop_fixed_spec (K e : nat) (fs : list Q) (st : train_colab_fixed.loop_state) :
  K ≠ 0 →
  ∃ st',
    train_colab_fixed.epoch_loop K e fs st = Py.Ok st'
    ∧ (train_colab_fixed.best_f1 st <= train_colab_fixed.best_f1 st')%Q
    ∧ (∀ f, f ∈ fs → (f <= train_colab_fixed.best_f1 st')%Q)
    ∧ (train_colab_fixed.best_f1 st' = train_colab_fixed.best_f1 st
       ∨ train_colab_fixed.best_f1 st' ∈ fs)
    ∧ (∀ c, Fs.Checkpoint c ∈ train_colab_fixed.saved st'
            ↔ Fs.Checkpoint c ∈ train_colab_fixed.saved st
              ∨ (e ≤ c < e + length fs ∧ c mod K = 0))
    ∧ (∀ c, Fs.SaveBest c ∈ train_colab_fixed.saved st' →
            Fs.SaveBest c ∈ train_colab_fixed.saved st
            ∨ (e ≤ c ∧ ∃ f, fs !! (c - e) = Some f
                            ∧ (train_colab_fixed.best_f1 st < f)%Q)).
Proof.
  intros HK. revert e st. induction fs as [|f fs IH]; intros e st.
  - exists st. split; [done|]. split; [apply Qle_refl|]. split.
    { intros f Hf. by apply elem_of_nil in Hf. }
    split; [by left|]. split; [|by left].
    intros c. simpl. split; [by left|]. intros [?|[? _]]; [done|lia].
  - cbn [train_colab_fixed.epoch_loop]. unfold Loop.py_mod.
    destruct (Nat.eqb_spec K 0) as [?|_]; [done|].
    cbn [mbind result_bind Py.bind].
    destruct (Fl.Qltb (train_colab_fixed.best_f1 st) f) eqn:Hlt.
    + apply Qltb_lt in Hlt.
      match goal with
      | |- ∃ _, train_colab_fixed.epoch_loop K (S e) fs ?s = _ ∧ _ =>
          destruct (IH (S e) s) as (st' & -> & Hinc & Hup & Hatt & Hck & Hsb)
      end.
      cbn [train_colab_fixed.best_f1 train_colab_fixed.saved] in *.
      exists st'. split; [done|]. split.
      { eapply Qle_trans; [apply Qlt_le_weak, Hlt|done]. }
      split.
      { intros f' Hf'. apply elem_of_cons in Hf' as [->|Hf']; [done|by apply Hup]. }
      split.
      { right. destruct Hatt as [->|?]; [apply list_elem_of_here|by apply list_elem_of_further]. }
      split.
      { intros c. rewrite Hck, elem_of_app, list_elem_of_singleton, checkpoint_in_saved.
        cbn [length]. split.
        - intros [[[?|[-> ?]]|?]|[? ?]]; [by left|right; split; [lia|done]|done|right; split; [lia|done]].
        - intros [?|[Hr Hm]]; [by left; left; left|].
          destruct (decide (c = e)) as [->|?]; [by left; left; right|].
          right. split; [lia|done]. }
      { intros c Hc. apply Hsb in Hc as [Hc|[Hle (f' & Hf' & Hpos)]].
        - apply elem_of_app in Hc as [Hc|Hc].
          + left. by apply save_best_in_checkpointed in Hc.
          + apply list_elem_of_singleton in Hc as [= ->]. right. split; [done|].
            exists f. rewrite Nat.sub_diag. split; done.
        - right. split; [lia|]. exists f'. split.
          + replace (c - e) with (S (c - S e)) by lia. done.
          + eapply Qlt_trans; done. }
    + apply Qltb_ge in Hlt.
      match goal with
      | |- ∃ _, train_colab_fixed.epoch_loop K (S e) fs ?s = _ ∧ _ =>
          destruct (IH (S e) s) as (st' & -> & Hinc & Hup & Hatt & Hck & Hsb)
      end.
      cbn [train_colab_fixed.best_f1 train_colab_fixed.saved] in *.
      exists st'. split; [done|]. split; [done|]. split.
      { intros f' Hf'. apply elem_of_cons in Hf' as [->|Hf']; [|by apply Hup].
        by eapply Qle_trans. }
      split.
      { destruct Hatt as [?|?]; [by left|right; by apply list_elem_of_further]. }
      split.
      { intros c. rewrite Hck, checkpoint_in_saved. cbn [length]. split.
        - intros [[?|[-> ?]]|[? ?]]; [by left|right; split; [lia|done]|right; split; [lia|done]].
        - intros [?|[Hr Hm]]; [by left; left|].
          destruct (decide (c = e)) as [->|?]; [by left; right|].
          right. split; [lia|done]. }
      { intros c Hc. apply Hsb in Hc as [Hc|[Hle (f' & Hf' & Hpos)]].
        - left. by apply save_best_in_checkpointed in Hc.
        - right. split; [lia|]. exists f'. split; [|done].
          replace (c - e) with (S (c - S e)) by lia. done. }
Qed.

(** X14. The epoch loop of [train_colab_fixed.py], for a checkpoint
    interval of at least 1.  It never raises.  The final [best_f1] is 0 or
    one of the validation micro-F1 values, and every validation micro-F1 is
    at most [best_f1].  A model is saved as best only in an epoch whose
    micro-F1 is strictly positive: when no epoch scores above 0, no best
    model is ever saved.  Periodic checkpoints are written for exactly the
    epochs divisible by the interval. *)
Theorem best_f1_is_running_maximum
    (save_every_n_epochs epochs : nat) (micro_f1 : list Q) :
  1 ≤ save_every_n_epochs →
  ∃ st,
    train_colab_fixed.run_epochs save_every_n_epochs epochs micro_f1 = Py.Ok st
    ∧ (0 <= train_colab_fixed.best_f1 st)%Q
    ∧ (∀ f, f ∈ take epochs micro_f1 → (f <= train_colab_fixed.best_f1 st)%Q)
    ∧ (train_colab_fixed.best_f1 st = 0%Q
       ∨ train_colab_fixed.best_f1 st ∈ take epochs micro_f1)
    ∧ (∀ e, Fs.Checkpoint e ∈ train_colab_fixed.saved st
            ↔ 1 ≤ e ≤ length (take epochs micro_f1) ∧ e mod save_every_n_epochs = 0)
    ∧ (∀ e, Fs.SaveBest e ∈ train_colab_fixed.saved st →
            1 ≤ e ∧ ∃ f, micro_f1 !! (e - 1) = Some f ∧ e ≤ epochs ∧ (0 < f)%Q).
Proof.
  intros HK. unfold train_colab_fixed.run_epochs.
  destruct (epoch_loop_fixed_spec save_every_n_epochs 1 (take epochs micro_f1)
              {| train_colab_fixed.best_f1 := 0; train_colab_fixed.saved := [] |})
    as (st & Hrun & Hinc & Hup & Hatt & Hck & Hsb); [lia|].
  cbn [train_colab_fixed.best_f1 train_colab_fixed.saved] in *.
  exists st. split; [done|]. split; [done|]. split; [done|]. split; [done|]. split.
  - intros e. rewrite Hck. split.
    + intros [H|[? ?]]; [by apply elem_of_nil in H|]. split; [lia|done].
    + intros [? ?]. right. split; [lia|done].
  - intros e He. apply Hsb in He as [He|[Hle (f & Hf & Hpos)]].
    + by apply elem_of_nil in He.
    + split; [done|]. exists f.
      pose proof (lookup_lt_Some _ _ _ Hf) as Hlt. rewrite length_take in Hlt.
      rewrite lookup_take_lt in Hf by lia. split; [done|]. split; [lia|done].
Qed.

Lemma best_f1_is_running_maximum_witness :
  1 ≤ 2
  ∧ train_colab_fixed.run_epochs 2 10 [0; 0; 0; 0]%Q
    = Py.Ok {| train_colab_fixed.best_f1 := 0;
               train_colab_fixed.saved := [Fs.Checkpoint 2; Fs.Checkpoint 4] |}.
Proof.
  assert (H : 1 ≤ 2) by lia.
  split; [exact H|].
  destruct (best_f1_is_running_maximum 2 10 [0; 0; 0; 0]%Q H) as (st & Hrun & _).
  rewrite Hrun. vm_compute in Hrun. injection Hrun as <-. reflexivity.
Defined.

(** ** Early stopping in [production_train.py] *)

Lemma training_loop_spec (cfg : production_train.config) (fs pre : list Q)
    (st : production_train.selection) :
  (0 <= production_train.min_delta cfg)%Q →
  match production_train.best_model_state st with
  | Some e => pre !! e = Some (production_train.best_f1 st)
              ∧ length pre = e + 1 + production_train.patience_counter st
  | None => production_train.best_f1 st = 0%Q
            ∧ length pre = production_train.patience_counter st
  end →
  (∀ f, f ∈ pre →
        (f <= production_train.best_f1 st + production_train.min_delta cfg)%Q) →
  (1 ≤ production_train.patience cfg →
   production_train.patience_counter st < production_train.patience cfg) →
  let r := production_train.training_loop cfg (length pre) fs st in
  length pre ≤ production_train.evaluations r ≤ length pre + length fs
  ∧ (production_train.stopped_early r = false →
     production_train.evaluations r = length pre + length fs)
  ∧ (production_train.stopped_early r = true →
     production_train.patience cfg
     ≤ production_train.patience_counter (production_train.final r)
     ∧ (1 ≤ production_train.patience cfg →
        production_train.patience_counter (production_train.final r)
        = production_train.patience cfg))
  ∧ match production_train.best_model_state (production_train.final r) with
    | Some e =>
        (pre ++ fs) !! e = Some (production_train.best_f1 (production_train.final r))
        ∧ production_train.evaluations r
          = e + 1 + production_train.patience_counter (production_train.final r)
    | None =>
        production_train.best_f1 (production_train.final r) = 0%Q
        ∧ production_train.evaluations r
          = production_train.patience_counter (production_train.final r)
    end
  ∧ (∀ i f, i < production_train.evaluations r → (pre ++ fs) !! i = Some f →
            (f <= production_train.best_f1 (production_train.final r)
                  + production_train.min_delta cfg)%Q).
Proof.
  intros Hd. revert pre st. induction fs as [|f fs IH]; intros pre st Hlink Hbound Hcount.
  - cbn [production_train.training_loop]. cbv zeta.
    cbn [production_train.evaluations production_train.stopped_early
         production_train.final length].
    rewrite app_nil_r, Nat.add_0_r.
    split; [lia|]. split; [done|]. split; [done|]. split; [exact Hlink|].
    intros i g _ Hg. apply Hbound. by eapply list_elem_of_lookup_2.
  - cbn [production_train.training_loop]. cbv zeta.
    replace (pre ++ f :: fs) with ((pre ++ [f]) ++ fs) by (by rewrite <- app_assoc).
    replace (S (length pre)) with (length (pre ++ [f]))
      by (rewrite length_app; simpl; lia).
    replace (length pre + length (f :: fs)) with (length (pre ++ [f]) + length fs)
      by (rewrite length_app; simpl; lia).
    assert (Hpre : length pre ≤ length (pre ++ [f])) by (rewrite length_app; lia).
    destruct (Fl.Qltb (production_train.best_f1 st + production_train.min_delta cfg) f)
      eqn:Hlt.
    + apply Qltb_lt in Hlt.
      match goal with
      | |- context [production_train.training_loop cfg _ fs ?s] =>
          pose proof (IH (pre ++ [f]) s) as H
      end.
      cbn [production_train.best_model_state production_train.best_f1
           production_train.patience_counter] in H.
      destruct H as (H1 & H2 & H3 & H4 & H5).
      * split; [by rewrite lookup_app_r, Nat.sub_diag|]. rewrite length_app. simpl. lia.
      * intros g Hg. apply elem_of_app in Hg as [Hg|Hg].
        -- apply Hbound in Hg. Lqa.lra.
        -- apply list_elem_of_singleton in Hg as ->. Lqa.lra.
      * lia.
      * split; [lia|]. split; [done|]. split; [done|]. split; done.
    + apply Qltb_ge in Hlt.
      cbn [production_train.patience_counter production_train.best_f1
           production_train.best_model_state].
      destruct (Nat.leb_spec (production_train.patience cfg)
                  (production_train.patience_counter st + 1)) as [Hstop|Hgo].
      * cbn [production_train.evaluations production_train.stopped_early
             production_train.final production_train.patience_counter
             production_train.best_f1 production_train.best_model_state].
        split; [lia|]. split; [done|]. split.
        { intros _. split; [done|]. intros Hp. specialize (Hcount Hp). lia. }
        split.
        { destruct (production_train.best_model_state st) as [e|].
          - destruct Hlink as [Hl1 Hl2]. split.
            + rewrite <- app_assoc. by apply lookup_app_l_Some.
            + rewrite length_app. simpl. lia.
          - destruct Hlink as [Hl1 Hl2]. split; [done|]. rewrite length_app. simpl. lia. }
        intros i g Hi Hg.
        rewrite lookup_app_l in Hg by done.
        apply list_elem_of_lookup_2, elem_of_app in Hg as [Hg|Hg].
        -- by apply Hbound.
        -- by apply list_elem_of_singleton in Hg as ->.
      * match goal with
        | |- context [production_train.training_loop cfg _ fs ?s] =>
            pose proof (IH (pre ++ [f]) s) as H
        end.
        cbn [production_train.best_model_state production_train.best_f1
             production_train.patience_counter] in H.
        destruct H as (H1 & H2 & H3 & H4 & H5).
        -- destruct (production_train.best_model_state st) as [e|].
           ++ destruct Hlink as [Hl1 Hl2]. split.
              ** by apply lookup_app_l_Some.
              ** rewrite length_app. simpl. lia.
           ++ destruct Hlink as [Hl1 Hl2]. split; [done|]. rewrite length_app. simpl. lia.
        -- intros g Hg. apply elem_of_app in Hg as [Hg|Hg].
           ++ by apply Hbound.
           ++ by apply list_elem_of_singleton in Hg as ->.
        -- lia.
        -- split; [lia|]. split; [done|]. split; [done|]. split; done.
Qed.

(** X15. The early-stopping loop of [production_train.py] for a
    non-negative [min_delta].  It trains and evaluates at most
    [epochs] epochs, and all of them unless it stops early; it stops early
    only with the patience counter at [patience] (with [patience >= 1]:
    exactly at [patience]).  The counter is the number of epochs evaluated
    since the epoch whose state is kept as best, whose validation F1 is
    [best_f1]; when no state was ever kept, [best_f1] is still 0.  No
    evaluated F1 exceeds [best_f1 + min_delta]. *)
Theorem early_stopping_invariants (cfg : production_train.config) (val_f1 : list Q) :
  (0 <= production_train.min_delta cfg)%Q →
  let r := production_train.early_stopping cfg val_f1 in
  let n := length (take (production_train.epochs cfg) val_f1) in
  production_train.evaluations r ≤ n
  ∧ (production_train.stopped_early r = false → production_train.evaluations r = n)
  ∧ (production_train.stopped_early r = true →
     production_train.patience cfg
     ≤ production_train.patience_counter (production_train.final r)
     ∧ (1 ≤ production_train.patience cfg →
        production_train.patience_counter (production_train.final r)
        = production_train.patience cfg))
  ∧ match production_train.best_model_state (production_train.final r) with
    | Some e =>
        val_f1 !! e = Some (production_train.best_f1 (production_train.final r))
        ∧ production_train.evaluations r
          = e + 1 + production_train.patience_counter (production_train.final r)
    | None =>
        production_train.best_f1 (production_train.final r) = 0%Q
        ∧ production_train.evaluations r
          = production_train.patience_counter (production_train.final r)
    end
  ∧ (∀ i f, i < production_train.evaluations r → val_f1 !! i = Some f →
            (f <= production_train.best_f1 (production_train.final r)
                  + production_train.min_delta cfg)%Q).
Proof.
  intros Hd r n.
  pose proof (training_loop_spec cfg (take (production_train.epochs cfg) val_f1) []
                {| production_train.best_f1 := 0;
                   production_train.patience_counter := 0;
                   production_train.best_model_state := None |} Hd) as H.
  cbn [production_train.best_model_state production_train.best_f1
       production_train.patience_counter length app Nat.add] in H.
  destruct H as (H1 & H2 & H3 & H4 & H5).
  - done.
  - intros f Hf. by apply elem_of_nil in Hf.
  - lia.
  - fold (production_train.early_stopping cfg val_f1) in H1, H2, H3, H4, H5.
    fold r in H1, H2, H3, H4, H5. fold n in H1, H2.
    assert (Hlook : ∀ i, i < production_train.evaluations r →
              take (production_train.epochs cfg) val_f1 !! i = val_f1 !! i).
    { intros i Hi. apply lookup_take_lt.
      assert (n ≤ production_train.epochs cfg) by (unfold n; rewrite length_take; lia).
      lia. }
    split; [lia|]. split; [done|]. split; [done|]. split.
    + destruct (production_train.best_model_state (production_train.final r)) as [e|];
        [|done].
      destruct H4 as [H4a H4b]. split; [|done]. rewrite <- Hlook; [done|lia].
    + intros i f Hi Hf. apply (H5 i f Hi). by rewrite Hlook.
Qed.

Lemma early_stopping_invariants_witness :
  (0 <= production_train.min_delta Samples.patience_two)%Q
  ∧ production_train.evaluations
      (production_train.early_stopping Samples.patience_two Samples.plateau_f1) ≤ 4.
Proof.
  assert (H : (0 <= production_train.min_delta Samples.patience_two)%Q) by discriminate.
  split; [exact H|].
  exact (proj1 (early_stopping_invariants Samples.patience_two Samples.plateau_f1 H)).
Defined.

(** ** Data augmentation *)

Lemma replace_absent (s old new : string) :
  Str.contains old s = false → Str.replace s old new = s.
Proof.
  unfold Str.replace. induction s as [|c s IH]; [done|].
  cbn [Str.contains Str.replace_from]. intros H.
  apply orb_false_iff in H as [Hstart Hrest].
  rewrite Hstart. by rewrite IH.
Qed.

Lemma augment_data_concat (lower : string → string) (data : list production_train.item) :
  production_train.augment_data lower data
  = concat (production_train.variations lower <$> data).
Proof.
  unfold production_train.augment_data.
  assert (H : ∀ acc, foldl (λ augmented item,
                              augmented ++ production_train.variations lower item) acc data
                     = acc ++ concat (production_train.variations lower <$> data)).
  { induction data as [|it data IH]; intros acc.
    - simpl. by rewrite app_nil_r.
    - cbn [foldl]. rewrite IH, fmap_cons. cbn [concat]. by rewrite <- app_assoc. }
  apply (H []).
Qed.

Lemma variations_shape (lower : string → string) (it : production_train.item) :
  ∃ rest,
    production_train.variations lower it = it :: rest
    ∧ length rest ≤ 3
    ∧ ∀ o, o ∈ rest →
        production_train.subs o = production_train.subs it
        ∧ (production_train.text o
             = Str.replace (production_train.text it) "Find all" "Determine all"
           ∨ production_train.text o
             = Str.replace (production_train.text it) "Prove" "Show that"
           ∨ production_train.text o
             = Str.replace (production_train.text it) "for all" "for every").
Proof.
  unfold production_train.variations. eexists. split; [reflexivity|].
  destruct (Str.contains "Find all" (production_train.text it)),
    (Str.contains "Prove" (production_train.text it)),
    (Str.contains "for all" (lower (production_train.text it)));
    (split; [simpl; lia|]);
    intros o Ho; cbn [app] in Ho;
    repeat (apply elem_of_cons in Ho as [->|Ho]; [cbn; split; [done|]; tauto|]);
    by apply elem_of_nil in Ho.
Qed.

(** X16. [augment_data] keeps every original example, in order, and adds
    at most three variations after each: the result has between [n] and
    [4n] examples, and every example of the result carries the tactic list
    of an original, with that original's text either unchanged or with one
    of the three phrases replaced.  Data without any of the three phrases is
    returned unchanged. *)
Theorem augment_data_keeps_labels
    (lower : string → string) (data : list production_train.item) :
  length data ≤ length (production_train.augment_data lower data) ≤ 4 * length data
  ∧ sublist data (production_train.augment_data lower data)
  ∧ (∀ o, o ∈ production_train.augment_data lower data →
       ∃ it, it ∈ data
             ∧ production_train.subs o = production_train.subs it
             ∧ (production_train.text o = production_train.text it
                ∨ production_train.text o
                  = Str.replace (production_train.text it) "Find all" "Determine all"
                ∨ production_train.text o
                  = Str.replace (production_train.text it) "Prove" "Show that"
                ∨ production_train.text o
                  = Str.replace (production_train.text it) "for all" "for every"))
  ∧ (Forall (λ it, Str.contains "Find all" (production_train.text it) = false
                   ∧ Str.contains "Prove" (production_train.text it) = false
                   ∧ Str.contains "for all" (lower (production_train.text it)) = false)
       data →
     production_train.augment_data lower data = data).
Proof.
  rewrite augment_data_concat.
  induction data as [|it data (IHlen & IHsub & IHin & IHid)].
  - split; [simpl; lia|]. split; [constructor|]. split; [|done].
    intros o Ho. by apply elem_of_nil in Ho.
  - rewrite fmap_cons. cbn [concat].
    destruct (variations_shape lower it) as (rest & Hv & Hlen & Hrest).
    rewrite Hv. split; [|split; [|split]].
    + cbn [length app]. rewrite length_app. lia.
    + cbn [app]. apply sublist_skip. by apply sublist_inserts_l.
    + intros o Ho. cbn [app] in Ho.
      apply elem_of_cons in Ho as [->|Ho].
      { exists it. split; [apply list_elem_of_here|]. split; [done|by left]. }
      apply elem_of_app in Ho as [Ho|Ho].
      * exists it. split; [apply list_elem_of_here|].
        destruct (Hrest o Ho) as [Hs Ht]. split; [done|]. by right.
      * destruct (IHin o Ho) as (it' & Hit' & Hs & Ht).
        exists it'. split; [by apply list_elem_of_further|]. done.
    + intros Hnone. apply Forall_cons in Hnone as [(H1 & H2 & H3) Hnone].
      rewrite <- Hv. unfold production_train.variations. rewrite H1, H2, H3.
      cbn [app]. f_equal. by apply IHid.
Qed.

(** X17. The third variation is triggered by "for all" in the lower-cased
    text but replaces "for all" in the text as written.  For an example
    whose text holds the phrase only with other capitals, the variation that
    is appended is therefore the example itself: the augmented data hold it
    twice. *)
Theorem augment_data_duplicates_capitalised
    (lower : string → string) (data : list production_train.item)
    (it : production_train.item) :
  it ∈ data →
  Str.contains "for all" (lower (production_train.text it)) = true →
  Str.contains "for all" (production_train.text it) = false →
  ∃ l1 l2 l3,
    production_train.augment_data lower data = l1 ++ [it] ++ l2 ++ [it] ++ l3.
Proof.
  intros Hin Hlow Hexact.
  apply list_elem_of_split in Hin as (d1 & d2 & ->).
  rewrite augment_data_concat, fmap_app, fmap_cons, concat_app. cbn [concat].
  unfold production_train.variations at 2. rewrite Hlow.
  rewrite (replace_absent _ "for all" "for every" Hexact).
  assert (Heta : {| production_train.text := production_train.text it;
                    production_train.subs := production_train.subs it |} = it)
    by (by destruct it).
  rewrite Heta.
  exists (concat (production_train.variations lower <$> d1)),
    ((if Str.contains "Find all" (production_train.text it)
      then [{| production_train.text :=
                 Str.replace (production_train.text it) "Find all" "Determine all";
               production_train.subs := production_train.subs it |}]
      else [])
     ++ (if Str.contains "Prove" (production_train.text it)
         then [{| production_train.text :=
                    Str.replace (production_train.text it) "Prove" "Show that";
                  production_train.subs := production_train.subs it |}]
         else [])),
    (concat (production_train.variations lower <$> d2)).
  by rewrite <- !app_assoc.
Qed.

Lemma augment_data_duplicates_capitalised_witness :
  Samples.item_capital_for_all ∈ [Samples.item_find_all; Samples.item_capital_for_all]
  ∧ Str.contains "for all"
      (Samples.lower (production_train.text Samples.item_capital_for_all)) = true
  ∧ Str.contains "for all" (production_train.text Samples.item_capital_for_all) = false
  ∧ ∃ l1 l2 l3,
      production_train.augment_data Samples.lower
        [Samples.item_find_all; Samples.item_capital_for_all]
      = l1 ++ [Samples.item_capital_for_all] ++ l2 ++ [Samples.item_capital_for_all] ++ l3.
Proof.
  assert (H1 : Samples.item_capital_for_all
               ∈ [Samples.item_find_all; Samples.item_capital_for_all])
    by apply list_elem_of_further, list_elem_of_here.
  split; [exact H1|]. split; [reflexivity|]. split; [reflexivity|].
  exact (augment_data_duplicates_capitalised Samples.lower
           [Samples.item_find_all; Samples.item_capital_for_all]
           Samples.item_capital_for_all H1 eq_refl eq_refl).
Defined.

(** ** [evaluate] of [train_colab_1m.py] *)

Lemma mean_bool_value (bs : list bool) :
  Np.mean_bool bs
  = if Nat.eqb (length bs) 0 then Fl.NaN
    else Fl.Fin (Fl.of_nat (Np.count_if (λ b : bool, b) bs) / Fl.of_nat (length bs)).
Proof. by destruct bs. Qed.

Lemma count_if_zip_with {A B : Type} (f : A → B → bool) (a : list A) (b : list B) :
  Np.count_if (λ x : bool, x) (zip_with f a b)
  = Np.count_if (λ ab : A * B, f ab.1 ab.2) (zip a b).
Proof.
  revert b. unfold Np.count_if.
  induction a as [|x a IH]; intros [|y b]; try done.
  cbn [zip zip_with List.filter fst snd].
  destruct (f x y); simpl; by rewrite IH.
Qed.

Lemma foldl_add_fmap {A : Type} (f : A → Fl.fval) (l : list A) (acc : Fl.fval) :
  foldl (λ a b, Fl.add a (f b)) acc l = foldl Fl.add acc (f <$> l).
Proof.
  revert acc. induction l as [|x l IH]; intros acc; [done|].
  rewrite fmap_cons. cbn [foldl]. apply IH.
Qed.

(** One thresholded row and one label row per example. *)
Lemma aligned_examples (loader : list train_colab_1m.eval_batch) :
  Forall (λ b, Forall2 (λ lrow prow, length lrow = length prow)
                 (train_colab_1m.batch_labels b) (train_colab_1m.logits b)) loader →
  length (concat ((λ b, Torch.threshold_preds (train_colab_1m.logits b)) <$> loader))
  = length (concat (train_colab_1m.logits <$> loader))
  ∧ length (concat (train_colab_1m.batch_labels <$> loader))
    = length (concat (train_colab_1m.logits <$> loader)).
Proof.
  induction 1 as [|b l Hb _ [IH1 IH2]]; [done|].
  rewrite !fmap_cons. cbn [concat]. rewrite !length_app, IH1, IH2.
  unfold Torch.threshold_preds. rewrite length_map.
  by rewrite (Forall2_length _ _ _ Hb).
Qed.

(** X18. [evaluate] of [train_colab_1m.py] raises [RuntimeError] (from
    [torch.cat] of an empty list) exactly on an empty loader.  On any other
    loader whose batches pair every logit row with a label row of the same
    width it returns: the loss is the sum of the batch losses over the
    number of batches; the exact-match rate is NaN exactly when the batches
    hold no example, and otherwise it is the number of examples whose
    thresholded prediction row equals the label row, over the number of
    examples, a value between 0 and 1. *)
Theorem evaluate_1m_outcome (loader : list train_colab_1m.eval_batch) :
  Forall (λ b, Forall2 (λ lrow prow, length lrow = length prow)
                 (train_colab_1m.batch_labels b) (train_colab_1m.logits b)) loader →
  let all_preds :=
    concat ((λ b, Torch.threshold_preds (train_colab_1m.logits b)) <$> loader) in
  let all_labels := concat (train_colab_1m.batch_labels <$> loader) in
  let n := length (concat (train_colab_1m.logits <$> loader)) in
  let hits := Np.count_if (λ pl, Np.row_equal pl.1 pl.2) (zip all_preds all_labels) in
  (train_colab_1m.evaluate loader = Py.Raise Py.RuntimeError ↔ loader = [])
  ∧ (loader ≠ [] →
     ∃ m,
       train_colab_1m.evaluate loader = Py.Ok m
       ∧ train_colab_1m.loss m
         = Fl.div_nat (Fl.sum (train_colab_1m.batch_loss <$> loader)) (length loader)
       ∧ (train_colab_1m.exact_match m = Fl.NaN ↔ n = 0)
       ∧ (n ≠ 0 →
          train_colab_1m.exact_match m = Fl.Fin (Fl.of_nat hits / Fl.of_nat n)
          ∧ (0 <= Fl.of_nat hits / Fl.of_nat n <= 1)%Q)).
Proof.
  intros Hshape all_preds all_labels n hits.
  destruct (aligned_examples loader Hshape) as [Hpreds Hlabels].
  fold all_preds n in Hpreds. fold all_labels n in Hlabels.
  assert (Hlen : length (zip_with Np.row_equal all_preds all_labels) = n).
  { rewrite length_zip_with. lia. }
  assert (Hhits : hits ≤ n).
  { pose proof (count_if_le_length (λ pl : list Q * list Q, Np.row_equal pl.1 pl.2)
                  (zip all_preds all_labels)) as Hle.
    pose proof (length_zip_with pair all_preds all_labels) as Hzip.
    fold hits in Hle. lia. }
  destruct loader as [|b l]; [split; [done|by intros []]|].
  split; [split; done|]. intros _.
  unfold train_colab_1m.evaluate, Fl.pydiv_nat.
  cbn [length Nat.eqb mbind result_bind Py.bind mret result_ret].
  eexists. split; [reflexivity|].
  cbn [train_colab_1m.loss train_colab_1m.exact_match].
  split; [by rewrite foldl_add_fmap|].
  fold all_preds all_labels.
  rewrite mean_bool_value, Hlen, count_if_zip_with. fold hits.
  destruct (Nat.eqb_spec n 0) as [Hn|Hn].
  - split; [done|]. intros Hn'. by destruct Hn'.
  - split; [split; [discriminate|done]|]. intros _. split; [done|].
    pose proof (prf_divide_unit_interval hits n Hhits) as H.
    unfold Sklearn.prf_divide in H.
    by destruct (Nat.eqb_spec n 0) as [?|_].
Qed.

Lemma evaluate_1m_outcome_witness :
  Forall (λ b, Forall2 (λ lrow prow, length lrow = length prow)
                 (train_colab_1m.batch_labels b) (train_colab_1m.logits b))
    [Samples.example_batch_1m]
  ∧ ∃ m, train_colab_1m.evaluate [Samples.example_batch_1m] = Py.Ok m
         ∧ train_colab_1m.exact_match m ≠ Fl.NaN.
Proof.
  assert (H : Forall (λ b, Forall2 (λ lrow prow, length lrow = length prow)
                             (train_colab_1m.batch_labels b) (train_colab_1m.logits b))
                [Samples.example_batch_1m]).
  { repeat constructor. }
  split; [exact H|].
  destruct (evaluate_1m_outcome [Samples.example_batch_1m] H) as [_ Hret].
  destruct (Hret ltac:(discriminate)) as (m & Hm & _ & Hnan & _).
  exists m. split; [exact Hm|].
  intros Hn. apply Hnan in Hn. discriminate Hn.
Defined.
